(* ===== verification/_CoqProject ===== *)
-Q . S2P
Prelude.v
PyStr.v
FS.v
Net.v
Crc32.v
Zip.v
Logger.v
Agent.v
Trace.v
Contract.v
Wf.v
Rerun.v
Stages.v
TimeConv.v
