(* ===== verification/Prelude.v ===== *)
(** * A verified model of the printer update agent

    The repository holds two Python scripts.

    - [src/printerAgent.py] is a self-update agent. It downloads
      [update.zip] from a fixed server URL, moves every entry of the
      live [build/] directory into [backup/], extracts the archive into
      [build/], deletes the archive and logs each stage with a
      timestamp. A single [try/except Exception] around the whole
      script turns every failure into an [ERROR] log line.
    - [src/test.py] is an unrelated exercise, [timeConversion], which
      turns a 12-hour clock string into a 24-hour one.

    The agent calls five parts of the Python runtime, and each has a
    file here. The agent's own file composes them the way the script
    does.

    - [Prelude] (this file): the Python exceptions the script meets
      ([exn]), a state-and-exception monad [PyM] with [let*] notation
      in [py_scope], the [for] loop [py_for], and the hint database
      [pyagent].
    - [PyStr]: the [str] builtins the code calls ([split], [join],
      [replace], [in], [int], [str]), with split/join round trips.
    - [FS]: the filesystem as a tree ([entry]: a file of bytes, or a
      directory that is a [gmap string entry]), with the [os],
      [os.path] and [shutil] calls of the script ([exists], [isdir],
      [listdir], [mkdir], [makedirs], [rename], [shutil.move],
      [remove], [open(..,"wb")] and [write]).
    - [Net]: [requests.get(..., stream=True)] with the redirects it
      follows, [raise_for_status] and [iter_content(chunk_size=8192)],
      where the server's answer to each URL is an input that may fail
      to connect, redirect, carry any status, or drop the connection
      after some chunks.
    - [Crc32]: [binascii.crc32] as zlib computes it (a table of 256
      words, a byte at a time, on 32-bit words), the CRC that
      [zipfile] checks for each member.
    - [Zip]: [zipfile.ZipFile(path)] and [extractall(dir)]. The
      layout of the archive is an interface, the class [ZipCodec].
      Member names are sanitised as CPython's [_extract_member] does,
      and a file member is copied by [shutil.copyfileobj] in reads of
      64 KiB with a running CRC checked at the end of the member.
    - [Logger]: [datetime.now().strftime('%Y-%m-%d %H:%M:%S')] and
      the line [log] prints.
    - [Agent]: the world ([World]: filesystem, log, server, clock),
      [log], and the script itself as [main]. It also holds the
      theorems about whole runs.
    - [Trace]: the printed log of a run, message by message with
      its clock readings ([prints], [success_msgs]).
    - [Contract]: the spec's view of a run (build, backup, archive)
      and its contract for a successful update ([contract_apply]).
    - [Wf]: well-formedness of a directory tree (no entry named
      [""], ["."], [".."] or holding ["/"]), kept by every filesystem
      call the script makes, through the combinators of [keeps].
    - [Rerun]: successive runs of the script: what a run leaves of its
      environment, and two runs in a row.
    - [Stages]: the spec's state machine (section 4.4) whose
      transitions are the stages of the script ([step], [transition]).
    - [TimeConv]: [timeConversion] from [src/test.py].

    Modelling choices.
    - Python effects are explicit state passing in [PyM S A = S -> S *
      (exn + A)]. An exception keeps the state reached so far, as
      Python does: files written before a failure stay written.
    - [os.listdir] returns names in an order the OS chooses. The model
      takes the keys of the directory map, and [Agent] proves that the
      backup loop gives the same filesystem for every order of the
      names.
    - Chunks of [iter_content] are cut at exactly [8192] bytes, as
      urllib3 does for a body without transfer encoding. A dropped
      connection is a reply that delivers [k] chunks and then raises.
    - Timestamps come from a clock that is an input of the world, one
      reading per [log] call.
    - A run of [main] is a total function of the world: every loop
      runs over a finite list.

    Not modelled: symbolic links, permissions, cross-device moves
    (the copy fallback of [shutil.move] is modelled only for the
    errors it raises here), timeouts, the bodies of redirect
    responses, HTTP content decoding, the headers and central
    directory of ZIP files and the inflate algorithm (abstracted by
    [ZipCodec]; the reads of a member are those of a stored member).
    These are library internals the script only calls; the model keeps
    what the script observes of them: a result or an exception. Three
    texts are abstracted, and [exn_str] in [Agent] says which:
    - the reason phrase [requests] puts in the message of an
      [HTTPError] (["404 Client Error: Not Found for url: ..."]);
    - the message of a [ConnectionError], which [requests] builds from
      urllib3's pool and connection objects, their memory addresses
      included; the model prints the URL after a fixed text;
    - the message of a [ChunkedEncodingError], which names the bytes
      read and the bytes still expected from the [Content-Length]
      header; the model has no such header and prints a fixed text.
    The theorems that mention a log line ([main_fetch_fails],
    [main_stream_broken], [main_log]) hold for any text of these three
    cases: they state the line as [exn_str e] of the exception raised.
    The timestamp [strftime_log] is faithful for the years 1000 to 9999,
    where [%Y] prints four digits on every platform; a clock reading
    with a year below 1000 is printed zero-padded to four digits, where
    glibc's [strftime], which CPython calls, may print fewer digits.
    [log_line_inj] assumes a valid date, with a year from 1000 to 9999.

    The theorems, by group (C1-C27 are the main results).
    - Whole runs of [main] ([Agent], [Trace], [Contract], [Wf],
      [Rerun], [Stages]). C1 [main_success]: the final tree of a
      successful run. C2 [main_no_early_mutation]: [build/] and
      [backup/] change only after a complete download with a status
      below 400. C3 [main_fetch_fails], C4 [main_stream_broken], C5
      [main_bad_archive], C6 [main_extract_fails] and C7
      [main_zip_is_dir]: what a failed fetch (a refused connection,
      more than 30 redirects, an error status), a dropped connection, a
      rejected archive, an extraction that stops at a member and an
      [update.zip] that is a directory leave on disk, and the error
      printed last. C8 [update_steps_no_archive]: a completed body
      leaves no [update.zip]. C9 [main_log]: every run ends normally,
      and its log is the log of a successful run or a strict prefix of
      it followed by the [ERROR] line. C10 [main_refines_contract]: a
      successful run implements the spec's update contract when no
      directory collides. C11 [machine_fetch_first]: in the spec's
      state machine whose transitions run the stages of the script, no
      state past [FETCHING] is reached without a complete download
      (rule induction on the steps). C12 [main_rerun]: two successful
      runs in a row compose, since a run never changes the server or
      the clock; the second moves the new build over the first backup.
    - The backup stage ([Agent]). C13 [backup_loop_any_order]: the
      result of the loop does not depend on the order of
      [os.listdir]. C14 [backup_loop_stops]: a failing move stops the
      loop and nothing is rolled back. C15-C17 [move_one_into_dir],
      [move_one_file_over_file] and [move_one_dir_over_file]: what one
      [shutil.move] does when the backup already holds the name.
    - Extraction and download ([Zip], [Agent], [Net], [Wf]). C18
      [copy_member_crc]: a member whose CRC is right is written whole;
      otherwise [BadZipFile] is raised with the file holding all but
      the member's last read. C19 [extractall_same_path]: members whose
      names sanitise to the same path overwrite each other in archive
      order. C20 [write_stream_whole]: the chunks written reassemble
      the body. C21 [resolve_redirects_limit]: [requests.get] follows
      at most 30 redirects and raises [TooManyRedirects] at the 31st.
      C22 [main_keeps_wf]: every run, successful or not, keeps the tree
      well formed (the type invariant of [FS]), whatever the member
      names of the archive: this is where the sanitising of member
      names matters.
    - The log line ([Logger]). C23 [log_line_inj]: for valid dates,
      the line determines the time and the message.
    - [timeConversion] ([TimeConv]). C24 [timeConversion_ok_hours]: the
      hours 1 to 11 are converted right, with the trailing space that
      [replace('PM', ' ')] leaves in a PM result. C25
      [timeConversion_noon_midnight]: the hour 12 is wrong both ways.
      C26 [timeConversion_no_pm]: without ["PM"] only the ["AM"]s go.
      C27 [timeConversion_errors]: the only exception is the
      [ValueError] of [int()].
    - Library lemmas: the split/join round trips and the read-back of
      zero-padded decimals ([PyStr]); the frame laws of path updates
      ([FS]); the invariant combinators [keeps_bind], [keeps_for] and
      [keeps_try] (this file); zlib's table-driven CRC equal to the CRC
      defined bit by bit, on 32-bit words ([Crc32]); the chunk sizes of
      [iter_content] ([Net]).

    Fuel. Two definitions take fuel. [chunks] in [Net] gets the length
    of the body, enough since every chunk takes at least one byte
    ([chunks_enough_fuel]). [str_N_fuel] in [PyStr] gets one more than
    the number of bits, enough since a number has no more decimal
    digits than bits ([py_str_N_fuel]). [run] in [Stages] is only the
    executable form of the step relation, used to build the witness of
    C11. [resolve_redirects] gets [MAX_REDIRECTS = 30], the bound of
    [requests] itself, not a fuel. Every other definition is
    structural. *)

From Stdlib Require Export Ascii.
From stdpp Require Export base gmap strings list.

Declare Scope py_scope.
Delimit Scope py_scope with py.

(** ** Paths and Python exceptions *)

(** A path is its list of components, relative to the working
    directory of the process: ["build/x"] is [["build"; "x"]]. *)
Abbreviation path := (list string).

(** The exceptions the script can meet, by their Python class. The
    [OSError]s carry the path they name. *)
Inductive exn :=
| FileNotFoundError (p : path)
| FileExistsError (p : path)
| NotADirectoryError (p : path)
| IsADirectoryError (p : path)
| DirectoryNotEmpty (p : path)       (** [OSError] with [errno.ENOTEMPTY] *)
| InvalidArgument (p : path)         (** [OSError] with [errno.EINVAL] *)
| ShutilError (msg : string)         (** [shutil.Error] *)
| ConnectionError (url : string)     (** [requests.exceptions.ConnectionError] *)
| HTTPError (status : Z) (url : string) (** [requests.exceptions.HTTPError] *)
| TooManyRedirects                   (** [requests.exceptions.TooManyRedirects] *)
| ChunkedEncodingError               (** the stream broke mid-body *)
| BadZipFile (msg : string)          (** [zipfile.BadZipFile] *)
| ValueError (msg : string)
| IndexError (msg : string).

#[export] Instance exn_eq_dec : EqDecision exn.
Proof. solve_decision. Defined.

(** ** The state-and-exception monad *)

Definition PyM (S A : Type) : Type := S -> S * (exn + A).

Definition py_ret {S A} (a : A) : PyM S A := fun s => (s, inr a).

Definition py_bind {S A B} (m : PyM S A) (k : A -> PyM S B) : PyM S B :=
  fun s => match m s with
           | (s', inl e) => (s', inl e)
           | (s', inr a) => k a s'
           end.

Definition py_raise {S A} (e : exn) : PyM S A := fun s => (s, inl e).

(** [try: m except Exception as e: h e] *)
Definition py_try {S A} (m : PyM S A) (h : exn -> PyM S A) : PyM S A :=
  fun s => match m s with
           | (s', inl e) => h e s'
           | r => r
           end.

Definition py_get {S} : PyM S S := fun s => (s, inr s).
Definition py_put {S} (s : S) : PyM S unit := fun _ => (s, inr tt).
Definition py_lift {S A} (r : exn + A) : PyM S A := fun s => (s, r).

Notation "'let*' x := m 'in' k" := (py_bind m (fun x => k))
  (at level 10, x name, m at level 100, k at level 200) : py_scope.
Notation "'let*' ' p := m 'in' k" := (py_bind m (fun x => match x with p => k end))
  (at level 10, p pattern, m at level 100, k at level 200) : py_scope.

(** Binding in the plain error monad [exn + A]. *)
Definition sbind {A B} (r : exn + A) (k : A -> exn + B) : exn + B :=
  match r with inl e => inl e | inr a => k a end.

Notation "'let?' x := r 'in' k" := (sbind r (fun x => k))
  (at level 10, x name, r at level 100, k at level 200) : py_scope.

Open Scope py_scope.

(** [for x in l: f x] *)
Fixpoint py_for {S A} (f : A -> PyM S unit) (l : list A) : PyM S unit :=
  match l with
  | [] => py_ret tt
  | x :: l' => let* _ := f x in py_for f l'
  end.

(** ** Automation *)

Create HintDb pyagent discriminated.
Create Rewrite HintDb pyagent_rw.

Section MonadLemmas.
  Context {S : Type}.

Lemma py_bind_inr {A B} (m : PyM S A) (k : A -> PyM S B) s s' a :
    m s = (s', inr a) -> py_bind m k s = k a s'.
  Proof. unfold py_bind. by intros ->. Qed.

Lemma py_bind_inl {A B} (m : PyM S A) (k : A -> PyM S B) s s' e :
    m s = (s', inl e) -> py_bind m k s = (s', inl e).
  Proof. unfold py_bind. by intros ->. Qed.

Lemma py_bind_assoc {A B C} (m : PyM S A) (k : A -> PyM S B) (h : B -> PyM S C) s :
    py_bind (py_bind m k) h s = py_bind m (fun a => py_bind (k a) h) s.
  Proof. unfold py_bind. destruct (m s) as [s' [e|a]]; done. Qed.

Lemma py_for_app {A} (f : A -> PyM S unit) l1 l2 s :
    py_for f (l1 ++ l2) s = py_bind (py_for f l1) (fun _ => py_for f l2) s.
  Proof.
    revert s. induction l1 as [|x l1 IH]; intros s; [done|].
    cbn [app py_for]. rewrite py_bind_assoc.
    destruct (f x s) as [s' [e|[]]] eqn:E.
    - by rewrite !(py_bind_inl _ _ _ _ _ E).
    - rewrite !(py_bind_inr _ _ _ _ _ E). apply IH.
  Qed.

Lemma py_bind_inr_inv {A B} (m : PyM S A) (k : A -> PyM S B) s s' b :
    py_bind m k s = (s', inr b) -> exists s1 a, m s = (s1, inr a) /\ k a s1 = (s', inr b).
  Proof. unfold py_bind. destruct (m s) as [s1 [e|a]]; [congruence|eauto]. Qed.

Lemma py_bind_inl_inv {A B} (m : PyM S A) (k : A -> PyM S B) s s' e :
    py_bind m k s = (s', inl e) ->
    m s = (s', inl e) \/ exists s1 a, m s = (s1, inr a) /\ k a s1 = (s', inl e).
  Proof. unfold py_bind. destruct (m s) as [s1 [e'|a]]; intros H; [left; congruence|eauto]. Qed.

  (** A loop whose body never fails and acts on the state by [g]
      runs as a left fold of [g]. *)
Lemma py_for_total {A} (f : A -> PyM S unit) (g : S -> A -> S) l s :
    (forall x s, f x s = (g s x, inr tt)) ->
    py_for f l s = (foldl g s l, inr tt).
  Proof.
    intros Hf. revert s. induction l as [|x l IH]; intros s; [done|].
    cbn [py_for foldl]. rewrite (py_bind_inr _ _ _ _ _ (Hf x s)). apply IH.
  Qed.
End MonadLemmas.

Lemma sbind_inr {A B} (a : A) (k : A -> exn + B) : sbind (inr a) k = k a.
Proof. done. Qed.

Lemma sbind_inl {A B} (e : exn) (k : A -> exn + B) : sbind (inl e) k = inl e.
Proof. done. Qed.

Lemma sbind_inr_inv {A B} (r : exn + A) (k : A -> exn + B) b :
  sbind r k = inr b -> exists a, r = inr a /\ k a = inr b.
Proof. destruct r; cbn; [discriminate|eauto]. Qed.

#[export] Hint Rewrite @sbind_inr @sbind_inl : pyagent_rw.

(** ** Invariants of the state

    [keeps I m]: whatever [m] returns or raises, it leaves a state that
    satisfies [I] when it started in one. The combinators of the monad
    keep every invariant their parts keep. *)

Definition keeps {S A} (I : S -> Prop) (m : PyM S A) : Prop :=
  forall s, I s -> I (m s).1.

Section Keeps.
  Context {S : Type} (I : S -> Prop).

Lemma keeps_ret {A} (a : A) : keeps I (py_ret a).
  Proof. by intros s. Qed.

Lemma keeps_raise {A} e : keeps I (@py_raise S A e).
  Proof. by intros s. Qed.

Lemma keeps_lift {A} (r : exn + A) : keeps I (py_lift r).
  Proof. by intros s. Qed.

Lemma keeps_get : keeps I py_get.
  Proof. by intros s. Qed.

Lemma keeps_bind {A B} (m : PyM S A) (k : A -> PyM S B) :
    keeps I m -> (forall a, keeps I (k a)) -> keeps I (py_bind m k).
  Proof.
    intros Hm Hk s Hs. unfold py_bind. specialize (Hm s Hs).
    destruct (m s) as [s' [e|a]]; [done|]. by apply Hk.
  Qed.

  (** The continuation only needs to keep [I] on the values [m] can
      return from a state that satisfies [I]. *)
Lemma keeps_bind_dep {A B} (m : PyM S A) (k : A -> PyM S B) :
    keeps I m -> (forall s s' a, I s -> m s = (s', inr a) -> I s' -> I (k a s').1) ->
    keeps I (py_bind m k).
  Proof.
    intros Hm Hk s Hs. unfold py_bind. pose proof (Hm s Hs) as Hs'.
    destruct (m s) as [s' [e|a]] eqn:E; cbn in Hs' |- *; [done|]. exact (Hk s s' a Hs E Hs').
  Qed.

Lemma keeps_for {A} (f : A -> PyM S unit) l :
    (forall x, x ∈ l -> keeps I (f x)) -> keeps I (py_for f l).
  Proof.
    induction l as [|x l IH]; intros Hf; [apply keeps_ret|].
    apply keeps_bind; [apply Hf; constructor|]. intros _. apply IH. intros y Hy. apply Hf. by constructor.
  Qed.

Lemma keeps_try {A} (m : PyM S A) h :
    keeps I m -> (forall e, keeps I (h e)) -> keeps I (py_try m h).
  Proof.
    intros Hm Hh s Hs. unfold py_try. specialize (Hm s Hs).
    destruct (m s) as [s' [e|a]]; [by apply Hh|done].
  Qed.
End Keeps.

#[export] Hint Resolve keeps_ret keeps_raise keeps_lift keeps_get keeps_bind keeps_try : pyagent.

(** A decidable property of the numbers below [k] holds when the
    boolean check over [seq 0 k] evaluates to [true]. *)
Lemma forall_below (P : nat -> Prop) `{forall n, Decision (P n)} (k : nat) :
  forallb (fun n => bool_decide (P n)) (seq 0 k) = true -> forall n, n < k -> P n.
Proof.
  intros Hall n Hn. rewrite forallb_forall in Hall.
  apply (bool_decide_eq_true_1 _), Hall, in_seq. lia.
Qed.
#[export] Hint Resolve py_bind_inr py_bind_inl : pyagent.

(** Run one statement whose result is known, then continue with the
    rest of the block. *)
Ltac py_step H := first [ erewrite py_bind_inr by exact H
                        | erewrite py_bind_inl by exact H ].

(** The same in a hypothesis [H]. *)
Ltac py_step_in E H := first [ erewrite py_bind_inr in H by exact E
                             | erewrite py_bind_inl in H by exact E ].

(** Two maps built by [insert] and [delete] are equal: compare them key
    by key, splitting on which of the inserted keys is looked up. *)
Ltac map_by_keys :=
  apply map_eq; intros ?;
  repeat first [ rewrite lookup_delete | rewrite lookup_insert | case_decide ];
  simplify_eq; done.

(** Split a hypothesis [py_bind m k s = (s', inr b)] into the run of
    [m] and the run of [k]. *)
Ltac py_inv H :=
  let s1 := fresh "s" in let a := fresh "a" in let Hm := fresh "Hm" in
  apply py_bind_inr_inv in H as (s1 & a & Hm & H).

(** Split a hypothesis [sbind r k = inr b] into the two successes. *)
Ltac sbind_inv H :=
  let a := fresh "a" in let Ha := fresh "Ha" in
  apply sbind_inr_inv in H as (a & Ha & H).
