(* ===== verification/PyStr.v ===== *)
(** * The [str] builtins the code calls

    [s.split(sep)] and [sep.join(ws)] for a one-character separator,
    [s.replace(old, new)] and [sub in s], on Rocq's byte strings.
    A Python [str] is a sequence of code points. The code only splits on
    [":"] and ["/"] and replaces ASCII text, so byte strings hold the same
    values. The round trips of [split] and [join] are proved here. *)

From S2P Require Import Prelude.

(** ** Definitions *)

(** [s.split(c)]: the maximal runs between separators, including the
    empty ones, so that there is always at least one piece. *)
Fixpoint py_split (c : ascii) (s : string) : list string :=
  match s with
  | EmptyString => [""]
  | String a s' =>
      let ws := py_split c s' in
      if decide (a = c) then "" :: ws
      else match ws with
           | w :: ws' => String a w :: ws'
           | [] => [String a ""]
           end
  end.

(** [c.join(ws)] *)
Fixpoint py_join (c : ascii) (ws : list string) : string :=
  match ws with
  | [] => ""
  | [w] => w
  | w :: ws' => w +:+ String c (py_join c ws')
  end.

(** [s.replace(old, new)] for a non-empty [old]: occurrences are found
    left to right and do not overlap. [skip] counts the characters of a
    match that are still to be dropped. *)
Fixpoint replace_from (old new : string) (skip : nat) (s : string) : string :=
  match s with
  | EmptyString => ""
  | String a s' =>
      match skip with
      | S k => replace_from old new k s'
      | O => if String.prefix old s
             then new +:+ replace_from old new (pred (String.length old)) s'
             else String a (replace_from old new 0 s')
      end
  end.

(** [s.replace("", new)] puts [new] around every character. *)
Fixpoint interleave (new s : string) : string :=
  match s with
  | EmptyString => new
  | String a s' => new +:+ String a (interleave new s')
  end.

Definition py_replace (old new s : string) : string :=
  match old with
  | EmptyString => interleave new s
  | _ => replace_from old new 0 s
  end.

(** [sub in s] *)
Fixpoint py_in (sub s : string) : bool :=
  String.prefix sub s ||
  match s with EmptyString => false | String _ s' => py_in sub s' end.

(** [c] occurs in [s]. *)
Definition has_char (c : ascii) (s : string) : Prop := c ∈ String.list_ascii_of_string s.

#[export] Instance has_char_dec c s : Decision (has_char c s).
Proof. unfold has_char. apply _. Defined.

(** ** Round trips of split and join *)

Lemma string_app_nil_l (s : string) : ("" ++ s)%string = s.
Proof. done. Qed.

Lemma string_app_cons a (s t : string) : (String a s ++ t)%string = String a (s ++ t).
Proof. done. Qed.

Lemma py_split_nonempty c s : py_split c s <> [].
Proof.
  induction s as [|a s IH]; cbn; [done|].
  case_decide; [done|]. by destruct (py_split c s).
Qed.

Lemma py_join_cons_char c a w ws :
  py_join c (String a w :: ws) = String a (py_join c (w :: ws)).
Proof. by destruct ws. Qed.

(** Joining the pieces of a split gives the string back. *)
Lemma py_join_split c s : py_join c (py_split c s) = s.
Proof.
  induction s as [|a s IH]; cbn; [done|].
  case_decide as Hac.
  - subst. destruct (py_split c s) eqn:E; [by destruct (py_split_nonempty c s)|].
    cbn. by rewrite <- IH.
  - destruct (py_split c s) as [|w ws] eqn:E; [by destruct (py_split_nonempty c s)|].
    rewrite py_join_cons_char. by rewrite IH.
Qed.

(** No piece of a split holds the separator. *)
Lemma py_split_pieces c s w : w ∈ py_split c s -> ~ has_char c w.
Proof.
  unfold has_char. revert w. induction s as [|a s IH]; intros w; cbn.
  - intros ->%list_elem_of_singleton. cbn. apply not_elem_of_nil.
  - case_decide as Hac.
    + intros [->|Hw]%elem_of_cons; [apply not_elem_of_nil|by apply IH].
    + pose proof (IH) as IH'. destruct (py_split c s) as [|w0 ws]; intros Hw.
      * apply list_elem_of_singleton in Hw as ->. cbn. rewrite elem_of_cons. intros [->|Hn]; [done|].
        by apply elem_of_nil in Hn.
      * apply elem_of_cons in Hw as [->|Hw]; [|apply IH'; by right].
        cbn. rewrite elem_of_cons. intros [->|Hn]; [done|]. by apply (IH' w0); [left|].
Qed.

Lemma py_split_no_sep c w : ~ has_char c w -> py_split c w = [w].
Proof.
  unfold has_char. induction w as [|a w IH]; intros Hw; cbn; [done|].
  rewrite IH by (intros H; apply Hw; cbn; by right).
  case_decide; [subst; destruct Hw; cbn; left|]; done.
Qed.

Lemma py_split_app_sep c w s :
  ~ has_char c w -> py_split c (w +:+ String c s) = w :: py_split c s.
Proof.
  unfold has_char. induction w as [|a w IH]; intros Hw;
    rewrite ?string_app_nil_l, ?string_app_cons; cbn.
  - by rewrite decide_True.
  - rewrite IH by (intros H; apply Hw; cbn; by right).
    rewrite decide_False; [done|]. intros ->. apply Hw. cbn. left.
Qed.

(** Splitting a join of separator-free pieces gives the pieces back. *)
Lemma py_split_join c ws :
  ws <> [] -> Forall (fun w => ~ has_char c w) ws -> py_split c (py_join c ws) = ws.
Proof.
  intros Hne Hws. induction Hws as [|w ws Hw Hws IH]; [done|].
  destruct ws as [|w' ws'].
  - by apply py_split_no_sep.
  - change (py_join c (w :: w' :: ws')) with (w +:+ String c (py_join c (w' :: ws'))).
    rewrite py_split_app_sep by done. by rewrite IH.
Qed.

(** ** Decimal digits: [str(n)] and zero padding *)

Definition digit_char (n : N) : ascii := ascii_of_N (48 + n).

(** The digits of [n] in front of [acc]; [fuel] bounds their number. *)
Fixpoint str_N_fuel (fuel : nat) (n : N) (acc : string) : string :=
  match fuel with
  | O => acc
  | S f =>
      let acc' := String (digit_char (n mod 10)) acc in
      if decide (n < 10)%N then acc' else str_N_fuel f (n / 10) acc'
  end.

(** [str(n)] for a natural number: one digit per power of ten, and
    there are fewer of those than bits. *)
Definition py_str_N (n : N) : string := str_N_fuel (S (N.size_nat n)) n "".

(** [str(z)] for an integer *)
Definition py_str_Z (z : Z) : string :=
  match z with
  | Zneg p => "-" +:+ py_str_N (Npos p)
  | _ => py_str_N (Z.to_N z)
  end.

(** The [w] lowest digits of [n], zero padded ([%02d], [%04d]). *)
Fixpoint zpad (w : nat) (n : N) : string :=
  match w with
  | O => ""
  | S w' => zpad w' (n / 10) +:+ String (digit_char (n mod 10)) ""
  end.

(** The fuel of [py_str_N] is enough: one more than the number of bits
    of [n] gives the same digits as any larger fuel, since dividing by
    ten removes at least one bit. *)
Lemma N_size_nat_le m n : (m <= n)%N -> N.size_nat m <= N.size_nat n.
Proof.
  intros H. destruct m as [|p], n as [|q]; cbn; try lia.
  destruct (Pos.lt_total p q) as [Hpq|[->|Hpq]]; [by apply Pos.size_nat_monotone|done|lia].
Qed.

Lemma N_size_nat_div10 n : (10 <= n)%N -> N.size_nat (n / 10) < N.size_nat n.
Proof.
  intros Hn. assert (Hle : (n / 10 <= N.div2 n)%N).
  { rewrite N.div2_div. apply N.div_le_compat_l. lia. }
  apply N_size_nat_le in Hle. enough (N.size_nat (N.div2 n) < N.size_nat n) by lia.
  destruct n as [|[p|p|]]; cbn; lia.
Qed.

Lemma str_N_fuel_irrel f1 f2 n acc :
  N.size_nat n < f1 -> N.size_nat n < f2 -> str_N_fuel f1 n acc = str_N_fuel f2 n acc.
Proof.
  revert f2 n acc. induction f1 as [|f1 IH]; intros [|f2] n acc H1 H2; try lia.
  cbn [str_N_fuel]. case_decide as Hn; [done|].
  apply IH; pose proof (N_size_nat_div10 n ltac:(lia)); lia.
Qed.

Lemma py_str_N_fuel f n : N.size_nat n < f -> py_str_N n = str_N_fuel f n "".
Proof. intros Hf. apply str_N_fuel_irrel; lia. Qed.

(** ** [int(s)] in base 10 *)

Definition is_digit (c : ascii) : bool := bool_decide (48 <= N_of_ascii c <= 57)%N.

(** The whitespace [str.strip] removes. *)
Definition is_space (c : ascii) : bool :=
  bool_decide (c ∈ [" "; "009"; "010"; "011"; "012"; "013"]%char).

Fixpoint lstrip (s : string) : string :=
  match s with
  | EmptyString => EmptyString
  | String c s' => if is_space c then lstrip s' else s
  end.

Fixpoint rstrip (s : string) : string :=
  match s with
  | EmptyString => EmptyString
  | String c s' =>
      let r := rstrip s' in
      if is_space c && bool_decide (r = EmptyString) then EmptyString else String c r
  end.

(** The value of a run of decimal digits after [acc]; [None] at a
    character that is not a digit. *)
Fixpoint digits_val (acc : N) (s : string) : option N :=
  match s with
  | EmptyString => Some acc
  | String c s' => if is_digit c then digits_val (10 * acc + (N_of_ascii c - 48)) s' else None
  end.

(** [int(s)]: surrounding whitespace, an optional sign, then at least
    one digit. (Python also accepts [_] between digits and non-ASCII
    digits; the code never meets them.) *)
Definition py_int (s : string) : exn + Z :=
  let err := inl (ValueError ("invalid literal for int() with base 10: '" +:+ s +:+ "'")) in
  let t := rstrip (lstrip s) in
  let '(neg, body) := match t with
                      | String "-" r => (true, r)
                      | String "+" r => (false, r)
                      | _ => (false, t)
                      end in
  match body with
  | EmptyString => err
  | _ => match digits_val 0 body with
         | Some n => inr (if neg then - Z.of_N n else Z.of_N n)%Z
         | None => err
         end
  end.

(** ** Lemmas on concatenations *)

Lemma has_char_app c a b : has_char c (a +:+ b) <-> has_char c a \/ has_char c b.
Proof.
  unfold has_char. induction a as [|x a IH];
    rewrite ?string_app_nil_l, ?string_app_cons; cbn [String.list_ascii_of_string].
  - split; [by right|]. intros [H|H]; [by apply elem_of_nil in H|done].
  - rewrite !elem_of_cons, IH. tauto.
Qed.

Lemma string_app_assoc (a b c : string) : (a +:+ b) +:+ c = a +:+ (b +:+ c).
Proof.
  induction a as [|x a IH]; rewrite ?string_app_nil_l, ?string_app_cons; [done|].
  by rewrite IH.
Qed.

Lemma string_app_nil_r (s : string) : s +:+ "" = s.
Proof. induction s as [|x s IH]; [done|]. by rewrite string_app_cons, IH. Qed.

(** [sub in a +:+ b] ignores a prefix [a] that lacks the first
    character of [sub]. *)
Lemma py_in_app_skip p0 p a b :
  ~ has_char p0 a -> py_in (String p0 p) (a +:+ b) = py_in (String p0 p) b.
Proof.
  unfold has_char. induction a as [|x a IH]; intros Ha; [done|].
  rewrite string_app_cons. cbn [py_in String.prefix].
  rewrite IH by (intros H; apply Ha; cbn; by right).
  destruct (ascii_dec p0 x) as [->|]; [destruct Ha; cbn; left|done].
Qed.

(** [replace] leaves alone a prefix that lacks the first character of
    the pattern. *)
Lemma replace_from_app_skip p0 p new a b :
  ~ has_char p0 a ->
  replace_from (String p0 p) new 0 (a +:+ b) = a +:+ replace_from (String p0 p) new 0 b.
Proof.
  unfold has_char. induction a as [|x a IH]; intros Ha; [done|].
  rewrite !string_app_cons. cbn [replace_from String.prefix].
  rewrite IH by (intros H; apply Ha; cbn; by right).
  destruct (ascii_dec p0 x) as [->|]; [destruct Ha; cbn; left|done].
Qed.

(** [s.replace(old, new)] leaves a string without [old] alone. *)
Lemma replace_from_absent p0 p new s :
  py_in (String p0 p) s = false -> replace_from (String p0 p) new 0 s = s.
Proof.
  induction s as [|a s IH]; [done|]. cbn [py_in]. intros [Hpre Hin]%orb_false_iff.
  cbn [replace_from]. rewrite Hpre. by rewrite IH.
Qed.

(** [int(s)] raises nothing but [ValueError]. *)
Lemma py_int_error s e : py_int s = inl e -> exists msg, e = ValueError msg.
Proof.
  unfold py_int. destruct (rstrip (lstrip s)) as [|c r]; [intros [= <-]; eauto|].
  repeat case_match; intros Herr; simplify_eq; eauto.
Qed.

(** ** Zero-padded decimals read back

    [zpad w n] is [w] characters long and reads back as [n] modulo
    [10 ^ w]; on numbers below [10 ^ w] it is injective. *)

Lemma string_length_app (a b : string) :
  String.length (a +:+ b) = String.length a + String.length b.
Proof. induction a as [|x a IH]; [done|]. rewrite string_app_cons. cbn. by rewrite IH. Qed.

Lemma string_app_inj_len (a b c d : string) :
  String.length a = String.length c -> a +:+ b = c +:+ d -> a = c /\ b = d.
Proof.
  revert c. induction a as [|x a IH]; intros [|y c] Hl Heq; try discriminate; [done|].
  rewrite !string_app_cons in Heq. injection Heq as -> Heq.
  destruct (IH c ltac:(cbn in Hl; lia) Heq) as [-> ->]. done.
Qed.

Lemma digit_char_val d : (d < 10)%N -> N_of_ascii (digit_char d) = (48 + d)%N.
Proof. intros Hd. unfold digit_char. rewrite Ascii.N_ascii_embedding by lia. done. Qed.

Lemma digit_char_is_digit n : (n < 10)%N -> is_digit (digit_char n) = true.
Proof. intros Hn. unfold is_digit. apply bool_decide_eq_true_2. rewrite digit_char_val by done. lia. Qed.

Lemma digits_val_app acc a b :
  digits_val acc (a +:+ b) = match digits_val acc a with Some v => digits_val v b | None => None end.
Proof.
  revert acc. induction a as [|x a IH]; intros acc; [done|].
  rewrite string_app_cons. cbn. destruct (is_digit x); [apply IH|done].
Qed.

Lemma zpad_length w n : String.length (zpad w n) = w.
Proof.
  revert n. induction w as [|w IH]; intros n; [done|].
  cbn [zpad]. rewrite string_length_app, IH. cbn. lia.
Qed.

Lemma zpad_digits w n acc :
  digits_val acc (zpad w n) = Some (acc * 10 ^ N.of_nat w + n mod 10 ^ N.of_nat w)%N.
Proof.
  revert n acc. induction w as [|w IH]; intros n acc.
  - cbn. f_equal. rewrite N.mod_1_r. lia.
  - cbn [zpad]. rewrite digits_val_app, IH. cbn [digits_val].
    rewrite digit_char_is_digit, digit_char_val by (apply N.mod_lt; lia).
    f_equal. rewrite Nat2N.inj_succ, N.pow_succ_r', N.Div0.mod_mul_r.
    rewrite (N.add_comm 48), N.add_sub. ring.
Qed.

Lemma zpad_inj w n m :
  (n < 10 ^ N.of_nat w)%N -> (m < 10 ^ N.of_nat w)%N -> zpad w n = zpad w m -> n = m.
Proof.
  intros Hn Hm Heq. pose proof (zpad_digits w n 0) as Dn. pose proof (zpad_digits w m 0) as Dm.
  rewrite Heq, Dm in Dn. injection Dn. rewrite !N.mod_small by done. lia.
Qed.
