(* ===== verification/FS.v ===== *)
(** * The filesystem: [os], [os.path] and [shutil]

    The state is the working directory of the process, a tree of
    entries ([entry]). A directory is a [gmap string entry], so two
    directories with the same names and contents are equal.

    Each operation the agent calls is a function [dir -> exn + dir] (or
    a query on [dir]). It returns the Python exception that CPython
    raises on Linux for the same tree. The lemmas here are the frame
    and update laws of path lookup. The agent's theorems are built on
    them. *)

From S2P Require Import Prelude PyStr.

#[local] Set Warnings "-register-all".

Inductive entry :=
| File (data : list Byte.byte)
| Dir (ents : gmap string entry).

Abbreviation dir := (gmap string entry).

(** ** Path lookup and update *)

Fixpoint get (p : path) (e : entry) : option entry :=
  match p with
  | [] => Some e
  | x :: p' => match e with
               | Dir d => match d !! x with Some e' => get p' e' | None => None end
               | File _ => None
               end
  end.

(** The entry at a path relative to the working directory [d]. *)
Definition lookup_path (p : path) (d : dir) : option entry := get p (Dir d).

(** Change the entry at [p] by [f], raising the error the kernel
    reports when a component of the parent path is missing or is a
    file. [full] is the path as the caller named it, for the message. *)
Fixpoint update_at (full : path) (p : path) (f : option entry -> option entry)
    (d : dir) : exn + dir :=
  match p with
  | [] => inl (InvalidArgument full)
  | [x] => inr (partial_alter f x d)
  | x :: p' =>
      match d !! x with
      | Some (Dir d') => let? d'' := update_at full p' f d' in inr (<[x := Dir d'']> d)
      | Some (File _) => inl (NotADirectoryError full)
      | None => inl (FileNotFoundError full)
      end
  end.

Definition put_at (p : path) (e : entry) (d : dir) : exn + dir :=
  update_at p p (fun _ => Some e) d.

Definition del_at (p : path) (d : dir) : exn + dir :=
  update_at p p (fun _ => None) d.

(** The parent of [p] is an existing directory. *)
Definition parent_is_dir (p : path) (d : dir) : Prop :=
  p <> [] /\ exists t, lookup_path (removelast p) d = Some (Dir t).

(** ** Laws of lookup and update *)

Lemma lookup_path_cons x p (d : dir) :
  lookup_path (x :: p) d = match d !! x with Some e => get p e | None => None end.
Proof. done. Qed.

Lemma get_nil_opt (o : option entry) :
  match o with Some e => get [] e | None => None end = o.
Proof. by destruct o. Qed.

Lemma update_at_cons2 full x y p f d :
  update_at full (x :: y :: p) f d =
    match d !! x with
    | Some (Dir d') => let? d'' := update_at full (y :: p) f d' in inr (<[x := Dir d'']> d)
    | Some (File _) => inl (NotADirectoryError full)
    | None => inl (FileNotFoundError full)
    end.
Proof. done. Qed.

Lemma get_app p q e :
  get (p ++ q) e = match get p e with Some e' => get q e' | None => None end.
Proof.
  revert e. induction p as [|x p IH]; intros e; [done|].
  destruct e as [b|d]; cbn; [done|]. destruct (d !! x); [apply IH|done].
Qed.

Lemma update_at_same full p f d d' :
  update_at full p f d = inr d' -> lookup_path p d' = f (lookup_path p d).
Proof.
  revert d d'. induction p as [|x [|y p] IH]; intros d d' H; cbn [update_at] in H.
  - discriminate.
  - injection H; intros <-. rewrite !lookup_path_cons, lookup_partial_alter_eq.
    by rewrite !get_nil_opt.
  - destruct (d !! x) as [[b|t]|] eqn:Hx; try discriminate.
    sbind_inv H. injection H; intros <-.
    rewrite !lookup_path_cons, lookup_insert_eq, Hx. by apply IH.
Qed.

(** Paths that are not prefixes of each other are independent. *)
Lemma update_at_other full p q f d d' :
  update_at full p f d = inr d' ->
  ~ p `prefix_of` q -> ~ q `prefix_of` p ->
  lookup_path q d' = lookup_path q d.
Proof.
  revert q d d'. induction p as [|x [|y p] IH]; intros q d d' H Hpq Hqp; cbn [update_at] in H.
  - discriminate.
  - injection H; intros <-. destruct q as [|z q]; [by destruct Hqp; apply prefix_nil|].
    rewrite !lookup_path_cons, lookup_partial_alter_ne; [done|].
    intros <-. apply Hpq. apply prefix_cons, prefix_nil.
  - destruct (d !! x) as [[b|t]|] eqn:Hx; try discriminate.
    sbind_inv H. injection H; intros <-.
    destruct q as [|z q]; [by destruct Hqp; apply prefix_nil|].
    rewrite !lookup_path_cons. destruct (decide (x = z)) as [<-|Hne].
    + rewrite lookup_insert_eq, Hx.
      destruct q as [|w q]; [by destruct Hqp; apply prefix_cons, prefix_nil|].
      apply (IH (w :: q) t); [done| |];
        [intros Hp; apply Hpq; by apply prefix_cons
        |intros Hp; apply Hqp; by apply prefix_cons].
    + by rewrite lookup_insert_ne.
Qed.

(** Below the updated path, the tree is the new entry's. *)
Lemma update_at_below full p r f d d' :
  update_at full p f d = inr d' ->
  lookup_path (p ++ r) d' = match f (lookup_path p d) with Some e => get r e | None => None end.
Proof.
  intros H. unfold lookup_path. rewrite get_app. fold (lookup_path p d').
  by rewrite (update_at_same _ _ _ _ _ H).
Qed.

Lemma update_at_ok full p f d :
  parent_is_dir p d -> exists d', update_at full p f d = inr d'.
Proof.
  intros [Hp [t Ht]]. revert d t Ht.
  induction p as [|x [|y p] IH]; intros d t Ht; [done|cbn [update_at]; eauto|].
  rewrite update_at_cons2. cbn [removelast] in Ht. rewrite lookup_path_cons in Ht.
  destruct (d !! x) as [[b|t']|]; [destruct p; cbn in Ht; discriminate| |discriminate].
  destruct (IH ltac:(done) t' t Ht) as [d'' ->]. cbn. eauto.
Qed.

Lemma update_at_fail full p f d e :
  update_at full p f d = inl e -> ~ parent_is_dir p d.
Proof.
  intros H Hp. destruct (update_at_ok full p f d Hp) as [d' H']. congruence.
Qed.

#[export] Hint Resolve update_at_same update_at_ok : pyagent.

(** ** The operations of [os], [os.path] and [shutil] *)

(** A path as Python prints it, components joined by ["/"]. *)
Definition show_path (p : path) : string := py_join "/"%char p.

(** [os.path.basename], the last component. *)
Definition basename (p : path) : string := default "" (last p).

(** [os.path.exists(p)] *)
Definition os_path_exists (p : path) (d : dir) : bool :=
  match lookup_path p d with Some _ => true | None => false end.

(** [os.path.isdir(p)] *)
Definition os_path_isdir (p : path) (d : dir) : bool :=
  match lookup_path p d with Some (Dir _) => true | _ => false end.

(** [os.listdir(p)]: the names in the directory, in the order of the
    map. Python gives no order; [Agent] proves the order is irrelevant. *)
Definition os_listdir (p : path) (d : dir) : exn + list string :=
  match lookup_path p d with
  | Some (Dir t) => inr (map_to_list t).*1
  | Some (File _) => inl (NotADirectoryError p)
  | None => inl (FileNotFoundError p)
  end.

(** [os.mkdir(p)] *)
Definition os_mkdir (p : path) (d : dir) : exn + dir :=
  if os_path_exists p d then inl (FileExistsError p) else put_at p (Dir ∅) d.

(** The recursion of [os.makedirs] on [head]: every proper prefix of
    the path that does not exist is created, top down. *)
Fixpoint makedirs_parents (pre rest : path) (d : dir) : exn + dir :=
  match rest with
  | [] | [_] => inr d
  | x :: rest' =>
      let q := pre ++ [x] in
      let? d1 := (if os_path_exists q d then inr d else os_mkdir q d) in
      makedirs_parents q rest' d1
  end.

(** [os.makedirs(p)] with [exist_ok=False] *)
Definition os_makedirs (p : path) (d : dir) : exn + dir :=
  let? d1 := makedirs_parents [] p d in os_mkdir p d1.

(** Take the entry at [src] and put it at [dst]. *)
Definition relink (src dst : path) (e : entry) (d : dir) : exn + dir :=
  let? d1 := del_at src d in put_at dst e d1.

(** [os.rename(src, dst)], with the checks of rename(2) on Linux. *)
Definition os_rename (src dst : path) (d : dir) : exn + dir :=
  match lookup_path src d with
  | None => inl (FileNotFoundError src)
  | Some e =>
      if decide (src = dst) then inr d
      else if decide (src `prefix_of` dst) then inl (InvalidArgument dst)
      else match e, lookup_path dst d with
           | File _, Some (Dir _) => inl (IsADirectoryError dst)
           | Dir _, Some (File _) => inl (NotADirectoryError dst)
           | Dir _, Some (Dir t) =>
               if decide (t = ∅) then relink src dst e d else inl (DirectoryNotEmpty dst)
           | _, _ => relink src dst e d
           end
  end.

(** The [except OSError] branch of [shutil.move]: a directory is copied
    with [copytree] (whose [makedirs] creates the target and its
    parents) and removed with [rmtree]; a file is copied with [copy2],
    which fails as the rename did. *)
Definition move_fallback (err : exn) (src dst real : path) (d : dir) : exn + dir :=
  match lookup_path src d with
  | Some (Dir t) =>
      if decide (src `prefix_of` dst)
      then inl (ShutilError ("Cannot move a directory '" +:+ show_path src
                             +:+ "' into itself '" +:+ show_path dst +:+ "'."))
      else let? d1 := os_makedirs real d in
           let? d2 := put_at real (Dir t) d1 in
           del_at src d2
  | _ => inl err
  end.

Definition move_to (src dst real : path) (d : dir) : exn + dir :=
  match os_rename src real d with
  | inr d' => inr d'
  | inl err => move_fallback err src dst real d
  end.

(** [shutil.move(src, dst)]: into [dst] when [dst] is a directory. *)
Definition shutil_move (src dst : path) (d : dir) : exn + dir :=
  if os_path_isdir dst d then
    if decide (src = dst) then os_rename src dst d
    else let real := dst ++ [basename src] in
         if os_path_exists real d
         then inl (ShutilError ("Destination path '" +:+ show_path real +:+ "' already exists"))
         else move_to src dst real d
  else move_to src dst dst d.

(** [os.remove(p)] *)
Definition os_remove (p : path) (d : dir) : exn + dir :=
  match lookup_path p d with
  | None => inl (FileNotFoundError p)
  | Some (Dir _) => inl (IsADirectoryError p)
  | Some (File _) => del_at p d
  end.

(** [open(p, "wb")]: create or truncate. *)
Definition open_wb (p : path) (d : dir) : exn + dir :=
  match lookup_path p d with
  | Some (Dir _) => inl (IsADirectoryError p)
  | _ => put_at p (File []) d
  end.

(** [f.write(chunk)] on a file opened by [open_wb]. *)
Definition file_write (p : path) (chunk : list Byte.byte) (d : dir) : exn + dir :=
  match lookup_path p d with
  | Some (File b) => put_at p (File (b ++ chunk)) d
  | _ => inl (FileNotFoundError p)
  end.

(** [open(p, "rb").read()] *)
Definition read_file (p : path) (d : dir) : exn + list Byte.byte :=
  match lookup_path p d with
  | Some (File b) => inr b
  | Some (Dir _) => inl (IsADirectoryError p)
  | None => inl (FileNotFoundError p)
  end.

(** ** Filesystem calls as statements of a Python block *)

(** Run one call: on an exception the tree is unchanged. *)
Definition fs_do (op : dir -> exn + dir) : PyM dir unit :=
  fun d => match op d with
           | inl e => (d, inl e)
           | inr d' => (d', inr tt)
           end.

(** A query that cannot fail ([os.path.exists], [os.path.isdir]). *)
Definition fs_query {A} (q : dir -> A) : PyM dir A := fun d => (d, inr (q d)).

(** A query that can fail ([os.listdir], reading a file). *)
Definition fs_read {A} (q : dir -> exn + A) : PyM dir A := fun d => (d, q d).

(** ** The calls on names of the working directory *)

Section TopLevel.
  Context (x : string) (d : dir).

Lemma lookup_path_top : lookup_path [x] d = d !! x.
  Proof. unfold lookup_path. cbn. by rewrite get_nil_opt. Qed.

Lemma put_at_top e : put_at [x] e d = inr (<[x := e]> d).
  Proof. done. Qed.

Lemma del_at_top : del_at [x] d = inr (delete x d).
  Proof. done. Qed.

Lemma os_path_exists_top : os_path_exists [x] d = bool_decide (is_Some (d !! x)).
  Proof.
    unfold os_path_exists. rewrite lookup_path_top.
    destruct (d !! x); [by rewrite bool_decide_true by eauto|].
    by rewrite bool_decide_false by (by intros []).
  Qed.

Lemma os_makedirs_top_new : d !! x = None -> os_makedirs [x] d = inr (<[x := Dir ∅]> d).
  Proof.
    intros Hx. unfold os_makedirs, os_mkdir. cbn [makedirs_parents sbind].
    by rewrite os_path_exists_top, Hx, bool_decide_false by (by intros []).
  Qed.

Lemma os_makedirs_top_exists : is_Some (d !! x) -> os_makedirs [x] d = inl (FileExistsError [x]).
  Proof.
    intros Hx. unfold os_makedirs, os_mkdir. cbn [makedirs_parents sbind].
    by rewrite os_path_exists_top, bool_decide_true.
  Qed.

Lemma open_wb_top : (forall t, d !! x <> Some (Dir t)) ->
    open_wb [x] d = inr (<[x := File []]> d).
  Proof.
    intros Hx. unfold open_wb. rewrite lookup_path_top.
    destruct (d !! x) as [[b|t]|]; [done| |done]. by destruct (Hx t).
  Qed.

Lemma open_wb_top_dir t : d !! x = Some (Dir t) -> open_wb [x] d = inl (IsADirectoryError [x]).
  Proof. intros Hx. unfold open_wb. by rewrite lookup_path_top, Hx. Qed.

Lemma file_write_top b c : d !! x = Some (File b) ->
    file_write [x] c d = inr (<[x := File (b ++ c)]> d).
  Proof. intros Hx. unfold file_write. by rewrite lookup_path_top, Hx. Qed.

Lemma os_remove_top b : d !! x = Some (File b) -> os_remove [x] d = inr (delete x d).
  Proof. intros Hx. unfold os_remove. by rewrite lookup_path_top, Hx. Qed.

Lemma os_remove_top_inv d' : os_remove [x] d = inr d' -> d' = delete x d.
Proof.
  unfold os_remove. rewrite lookup_path_top. destruct (d !! x) as [[]|]; try discriminate.
  rewrite del_at_top. congruence.
Qed.

Lemma read_file_top b : d !! x = Some (File b) -> read_file [x] d = inr b.
  Proof. intros Hx. unfold read_file. by rewrite lookup_path_top, Hx. Qed.

Lemma os_listdir_top t : d !! x = Some (Dir t) -> os_listdir [x] d = inr (map_to_list t).*1.
  Proof. intros Hx. unfold os_listdir. by rewrite lookup_path_top, Hx. Qed.
End TopLevel.

#[export] Hint Rewrite lookup_path_top put_at_top del_at_top os_path_exists_top : pyagent_rw.

(** ** Calls below a directory of the working directory *)

Lemma lookup_path_under k K q (d : dir) :
  d !! k = Some (Dir K) -> lookup_path (k :: q) d = lookup_path q K.
Proof. intros Hk. by rewrite lookup_path_cons, Hk. Qed.

Lemma update_at_single full x f (d : dir) :
  update_at full [x] f d = inr (partial_alter f x d).
Proof. done. Qed.

Lemma update_at_under k K q full f (d : dir) :
  d !! k = Some (Dir K) -> q <> [] ->
  update_at full (k :: q) f d = let? K' := update_at full q f K in inr (<[k := Dir K']> d).
Proof. intros Hk Hq. destruct q as [|y q]; [done|]. by rewrite update_at_cons2, Hk. Qed.

(** Moving the child [n] of the directory [a] to a path below the
    directory [k]. *)
Lemma relink_child a k n A K q e (d : dir) :
  a <> k -> d !! a = Some (Dir A) -> d !! k = Some (Dir K) -> q <> [] ->
  relink [a; n] (k :: q) e d =
    let? K' := update_at (k :: q) q (fun _ => Some e) K in
    inr (<[a := Dir (delete n A)]> (<[k := Dir K']> d)).
Proof.
  intros Hak Ha Hk Hq. unfold relink, del_at, put_at.
  rewrite (update_at_under a A), update_at_single by done. cbn [sbind].
  rewrite (update_at_under k K) by (by rewrite ?lookup_insert_ne). cbn [sbind].
  destruct (update_at (k :: q) q _ K) as [err|K']; [done|]. cbn.
  by rewrite insert_insert_ne.
Qed.

(** What [shutil.move(a/n, k/n)] does to the directory [K] of [k] when
    it moves the entry [e]. Into an absent name or over a file, [e]
    takes the name [n], unless [e] is a directory and [n] a file. Onto a
    directory, [e] goes inside it, as [k/n/n]. *)
Definition move_into (k n : string) (e : entry) (K : dir) : exn + dir :=
  match K !! n with
  | None => inr (<[n := e]> K)
  | Some (File _) =>
      match e with
      | File _ => inr (<[n := e]> K)
      | Dir _ => inl (FileExistsError [k; n])
      end
  | Some (Dir D) =>
      match D !! n with
      | Some _ => inl (ShutilError ("Destination path '" +:+ show_path [k; n; n]
                                    +:+ "' already exists"))
      | None => inr (<[n := Dir (<[n := e]> D)]> K)
      end
  end.

Lemma not_prefix_pair (a k n : string) (m : path) : a <> k -> ~ [a; n] `prefix_of` (k :: m).
Proof. intros Hak [r Hr]. by injection Hr. Qed.

(** Close the branches where two distinct paths would be equal or one a
    prefix of the other. *)
Ltac no_alias :=
  repeat (case_decide;
          [exfalso; first [ congruence | eapply not_prefix_pair; [|eassumption]; done ] |]).
(** [os.makedirs(k/n)] when [k/n] exists. *)
Lemma os_makedirs_child_exists k n K (d : dir) :
  d !! k = Some (Dir K) -> is_Some (K !! n) -> os_makedirs [k; n] d = inl (FileExistsError [k; n]).
Proof.
  intros Hk [e Hn]. unfold os_makedirs, os_mkdir. cbn [makedirs_parents app].
  rewrite os_path_exists_top, Hk, bool_decide_true by done. cbn [sbind makedirs_parents].
  unfold os_path_exists. by rewrite (lookup_path_under k K), lookup_path_top, Hn.
Qed.
(** [shutil.move(a/n, k/n)] acts on [k] as [move_into] says and
    removes [n] from [a]. *)
Lemma shutil_move_child a k n A K e (d : dir) :
  a <> k -> d !! a = Some (Dir A) -> d !! k = Some (Dir K) -> A !! n = Some e ->
  shutil_move [a; n] [k; n] d =
    let? K' := move_into k n e K in
    inr (<[a := Dir (delete n A)]> (<[k := Dir K']> d)).
Proof.
  intros Hak Ha Hk Hn.
  unfold shutil_move, os_path_isdir, os_path_exists, move_to, os_rename, move_into.
  cbn [basename last default app].
  rewrite !(lookup_path_under k K), !(lookup_path_under a A), !lookup_path_top, Hn by done.
  destruct (K !! n) as [[f|D]|] eqn:Hkn; cbn [get]; no_alias.
  - destruct e as [b|t].
    + by rewrite (relink_child a k n A K), update_at_single.
    + unfold move_fallback. rewrite (lookup_path_under a A), lookup_path_top, Hn by done.
      no_alias. by rewrite (os_makedirs_child_exists k n K) by (rewrite ?Hkn; eauto).
  - change (id n) with n.
    rewrite (lookup_path_under n D), lookup_path_top by done.
    destruct (D !! n) as [x|] eqn:Hdn; [done|].
    assert (Hrel : relink [a; n] [k; n; n] e d =
              inr (<[a := Dir (delete n A)]> (<[k := Dir (<[n := Dir (<[n := e]> D)]> K)]> d))).
    { rewrite (relink_child a k n A K) by done.
      by rewrite (update_at_under n D), update_at_single. }
    destruct e; by rewrite Hrel.
  - destruct e; by rewrite (relink_child a k n A K), update_at_single.
Qed.

(** ** Calls below a directory, relocated

    A call on the path [b/q] acts on the directory [b] as the same call
    on [q] acts on the contents of [b]. Its exception names [b/q] where
    the other names [q]. *)

Definition exn_under (b : string) (e : exn) : exn :=
  match e with
  | FileNotFoundError p => FileNotFoundError (b :: p)
  | FileExistsError p => FileExistsError (b :: p)
  | NotADirectoryError p => NotADirectoryError (b :: p)
  | IsADirectoryError p => IsADirectoryError (b :: p)
  | DirectoryNotEmpty p => DirectoryNotEmpty (b :: p)
  | InvalidArgument p => InvalidArgument (b :: p)
  | e => e
  end.

(** The result on [d] of a call that gave [r] on the directory [b]. *)
Definition under (b : string) (d : dir) (r : exn + dir) : exn + dir :=
  sum_map (exn_under b) (fun t' => <[b := Dir t']> d) r.

(** [op] on [d] is [op'] on the contents of [b], relocated. *)
Definition zooms (b : string) (op op' : dir -> exn + dir) : Prop :=
  forall d t, d !! b = Some (Dir t) -> op d = under b d (op' t).

Lemma update_at_full b full q f t :
  update_at (b :: full) q f t = sum_map (exn_under b) id (update_at full q f t).
Proof.
  revert t. induction q as [|x [|y q] IH]; intros t; [done|done|].
  rewrite !update_at_cons2. destruct (t !! x) as [[|t']|]; [done| |done].
  rewrite IH. by destruct (update_at full (y :: q) f t').
Qed.

Lemma update_at_zoom b q f : q <> [] -> zooms b (update_at (b :: q) (b :: q) f) (update_at q q f).
Proof.
  intros Hq d t Hb. rewrite (update_at_under b t) by done.
  rewrite update_at_full. unfold under. by destruct (update_at q q f t).
Qed.

Lemma lookup_path_zoom b q d t : d !! b = Some (Dir t) -> lookup_path (b :: q) d = lookup_path q t.
Proof. apply lookup_path_under. Qed.

Lemma os_path_exists_zoom b q d t :
  d !! b = Some (Dir t) -> os_path_exists (b :: q) d = os_path_exists q t.
Proof. intros Hb. unfold os_path_exists. by rewrite (lookup_path_zoom b q d t Hb). Qed.

Lemma os_path_isdir_zoom b q d t :
  d !! b = Some (Dir t) -> os_path_isdir (b :: q) d = os_path_isdir q t.
Proof. intros Hb. unfold os_path_isdir. by rewrite (lookup_path_zoom b q d t Hb). Qed.

Lemma under_same b d t : d !! b = Some (Dir t) -> under b d (inr t) = inr d.
Proof. intros Hb. unfold under. cbn. by rewrite insert_id. Qed.

Lemma os_mkdir_zoom b q : zooms b (os_mkdir (b :: q)) (os_mkdir q).
Proof.
  intros d t Hb. unfold os_mkdir. rewrite (os_path_exists_zoom b q d t Hb).
  destruct (os_path_exists q t) eqn:Ex; [done|].
  destruct q as [|y q]; [discriminate|]. by apply update_at_zoom.
Qed.

Lemma makedirs_parents_cons2 pre x y rest d :
  makedirs_parents pre (x :: y :: rest) d =
    let? d1 := (if os_path_exists (pre ++ [x]) d then inr d else os_mkdir (pre ++ [x]) d) in
    makedirs_parents (pre ++ [x]) (y :: rest) d1.
Proof. done. Qed.

Lemma makedirs_parents_zoom b pre rest :
  zooms b (makedirs_parents (b :: pre) rest) (makedirs_parents pre rest).
Proof.
  revert pre. induction rest as [|x [|y rest] IH]; intros pre d t Hb;
    [cbn [makedirs_parents]; by rewrite under_same..|].
  rewrite !makedirs_parents_cons2. change ((b :: pre) ++ [x]) with (b :: (pre ++ [x])).
  rewrite (os_path_exists_zoom b _ d t Hb).
  destruct (os_path_exists (pre ++ [x]) t); cbn [sbind].
  - by apply IH.
  - rewrite (os_mkdir_zoom b _ d t Hb). destruct (os_mkdir (pre ++ [x]) t) as [e|t1]; [done|].
    cbn [under sum_map sbind]. rewrite (IH _ _ t1) by apply lookup_insert_eq.
    unfold under. destruct (makedirs_parents (pre ++ [x]) (y :: rest) t1); [done|].
    cbn. by rewrite insert_insert_eq.
Qed.

Lemma os_makedirs_zoom b q : zooms b (os_makedirs (b :: q)) (os_makedirs q).
Proof.
  intros d t Hb. unfold os_makedirs.
  assert (Hp : makedirs_parents [] (b :: q) d = makedirs_parents [b] q d).
  { destruct q as [|y q]; [done|]. cbn [makedirs_parents app].
    by rewrite os_path_exists_top, bool_decide_true by (rewrite Hb; eauto). }
  rewrite Hp, (makedirs_parents_zoom b [] q d t Hb).
  destruct (makedirs_parents [] q t) as [e|t1]; [done|]. cbn [under sum_map sbind].
  rewrite (os_mkdir_zoom b q _ t1) by apply lookup_insert_eq.
  unfold under. destruct (os_mkdir q t1); [done|]. cbn. by rewrite insert_insert_eq.
Qed.

Lemma open_wb_zoom b q : zooms b (open_wb (b :: q)) (open_wb q).
Proof.
  intros d t Hb. unfold open_wb. rewrite (lookup_path_zoom b q d t Hb).
  destruct q as [|y q]; [done|].
  destruct (lookup_path (y :: q) t) as [[|]|]; [|done|]; by apply update_at_zoom.
Qed.

Lemma file_write_zoom b q c : zooms b (file_write (b :: q) c) (file_write q c).
Proof.
  intros d t Hb. unfold file_write. rewrite (lookup_path_zoom b q d t Hb).
  destruct q as [|y q]; [done|].
  destruct (lookup_path (y :: q) t) as [[|]|]; [|done..]. by apply update_at_zoom.
Qed.
