(* ===== verification/Net.v ===== *)
(** * HTTP transport: [requests.get(url, stream=True)]

    The server is outside the program. Its answer to a request for a
    URL is the input [reply]. It can refuse the connection, redirect to
    another URL, answer with any status and body, or break the
    connection after delivering some chunks of the body. [requests]
    follows redirects, at most 30 ([resolve_redirects_limit]).
    [raise_for_status] and [iter_content] are modelled as [requests]
    implements them. The chunking is proved lossless
    ([iter_content_concat]) and bounded ([iter_content_bounds]), and
    the fuel of [chunks] is shown to suffice. *)

From S2P Require Import Prelude.

(** ** Definitions *)

(** The server's answer to one GET request. [drop_after = Some k]:
    the connection breaks after [k] chunks of the body. [Redirect] is a
    response [requests] follows: a status in [REDIRECT_STATI] (301,
    302, 303, 307, 308) with a [Location] header; any other response is
    a [Reply]. *)
Inductive reply :=
| NoConnection
| Reply (status : Z) (body : list Byte.byte) (drop_after : option nat)
| Redirect (status : Z) (location : string).

(** [requests.models.DEFAULT_REDIRECT_LIMIT], the [max_redirects] of a
    [Session]. *)
Definition MAX_REDIRECTS : nat := 30.

(** [Session.send] with [Session.resolve_redirects]: the response at
    [url] is followed while it is a redirect. The [fuel]-th redirect
    after the first is one too many: [len(resp.history) >=
    self.max_redirects] raises [TooManyRedirects]. The result is the
    final response with its URL ([response.url]). *)
Fixpoint resolve_redirects (fuel : nat) (srv : string -> reply) (url : string)
    : exn + (string * Z * list Byte.byte * option nat) :=
  match srv url with
  | NoConnection => inl (ConnectionError url)
  | Reply st b k => inr (url, st, b, k)
  | Redirect _ loc =>
      match fuel with
      | O => inl TooManyRedirects
      | S f => resolve_redirects f srv loc
      end
  end.

(** [response.raise_for_status()]: only 4xx and 5xx raise. *)
Definition raise_for_status (url : string) (status : Z) : exn + unit :=
  if bool_decide (400 <= status < 600)%Z then inl (HTTPError status url) else inr tt.

(** [chunk_size=8192] in [iter_content] *)
Definition CHUNK_SIZE : nat := 8192.

Lemma CHUNK_SIZE_pos : 0 < CHUNK_SIZE.
Proof. apply Nat.ltb_lt. by vm_compute. Qed.

(** The body cut into pieces of [n] bytes, the last one shorter. [fuel]
    bounds the number of pieces. *)
Fixpoint chunks (fuel n : nat) (b : list Byte.byte) : list (list Byte.byte) :=
  match fuel with
  | O => []
  | S f => match b with
           | [] => []
           | _ => take n b :: chunks f n (drop n b)
           end
  end.

(** [response.iter_content(chunk_size=n)] on a body that arrives
    whole: one piece per [n] bytes. The fuel [length b] suffices, since
    every piece takes at least one byte ([chunks_enough_fuel] shows
    more fuel changes nothing). *)
Definition iter_content (n : nat) (b : list Byte.byte) : list (list Byte.byte) :=
  chunks (length b) n b.

(** The chunks the loop receives, and whether the stream then raises. *)
Definition delivered (n : nat) (body : list Byte.byte) (drop_after : option nat)
    : list (list Byte.byte) * bool :=
  let cs := iter_content n body in
  match drop_after with
  | Some k => if decide (k < length cs) then (take k cs, true) else (cs, false)
  | None => (cs, false)
  end.

(** ** Properties of the chunking *)

Lemma chunks_fuel_irrel f1 f2 n b :
  0 < n -> length b <= f1 -> length b <= f2 -> chunks f1 n b = chunks f2 n b.
Proof.
  intros Hn. revert f2 b. induction f1 as [|f1 IH]; intros [|f2] [|x b'] H1 H2;
    cbn -[take drop] in *; try done; try lia.
  f_equal. apply IH; rewrite length_drop; cbn; lia.
Qed.

(** Any fuel above the length of the body gives the same chunks. *)
Lemma chunks_enough_fuel fuel n b :
  0 < n -> length b <= fuel -> chunks fuel n b = iter_content n b.
Proof. intros. by apply chunks_fuel_irrel. Qed.

Lemma chunks_concat fuel n b :
  0 < n -> length b <= fuel -> mjoin (chunks fuel n b) = b.
Proof.
  intros Hn. revert b. induction fuel as [|fuel IH]; intros b Hf.
  - by destruct b; [|cbn in Hf; lia].
  - destruct b as [|x b']; [done|]. cbn [chunks mjoin]. cbn -[take drop].
    rewrite IH; [apply take_drop|]. rewrite length_drop. cbn in *. lia.
Qed.

Lemma chunks_nonempty fuel n b c : 0 < n -> c ∈ chunks fuel n b -> c <> [].
Proof.
  intros Hn. revert b. induction fuel as [|fuel IH]; intros b Hc; [by apply elem_of_nil in Hc|].
  destruct b as [|x b']; [by apply elem_of_nil in Hc|].
  cbn -[take drop] in Hc. apply elem_of_cons in Hc as [->|Hc]; [|by eapply IH].
  destruct n as [|n]; [lia|]. done.
Qed.

(** Writing the chunks one after the other gives the whole body. *)
Lemma iter_content_concat n b : 0 < n -> mjoin (iter_content n b) = b.
Proof. intros Hn. by apply chunks_concat. Qed.

(** Every chunk is non-empty and at most [n] bytes long. *)
Lemma iter_content_bounds n b c :
  0 < n -> c ∈ iter_content n b -> 0 < length c <= n.
Proof.
  unfold iter_content. generalize (length b) as fuel. intros fuel Hn.
  revert b. induction fuel as [|fuel IH]; intros b Hc; [by apply elem_of_nil in Hc|].
  destruct b as [|x b']; [by apply elem_of_nil in Hc|].
  cbn -[take drop] in Hc. apply elem_of_cons in Hc as [->|Hc]; [|by eapply IH].
  rewrite length_take. cbn. lia.
Qed.

(** Taking one piece of [n] bytes off [L > 0] bytes takes one off
    [ceil(L / n)]. *)
Lemma ceil_step L n : 0 < n -> 1 <= L -> (L + n - 1) / n = S ((L - n + n - 1) / n).
Proof.
  intros Hn HL. replace (L + n - 1) with (1 * n + (L - 1)) by lia.
  rewrite Nat.div_add_l by lia. f_equal. destruct (decide (n <= L)).
  - f_equal. lia.
  - rewrite !Nat.div_small; lia.
Qed.

(** A body of [L] bytes is cut in [ceil(L / n)] pieces. *)
Lemma chunks_length fuel n b :
  0 < n -> length b <= fuel -> length (chunks fuel n b) = (length b + n - 1) / n.
Proof.
  intros Hn. revert b. induction fuel as [|fuel IH]; intros b Hf.
  - destruct b; [|cbn in Hf; lia]. cbn. symmetry. apply Nat.div_small. lia.
  - destruct b as [|x b']; [cbn; symmetry; apply Nat.div_small; lia|].
    change (length (chunks (S fuel) n (x :: b')))
      with (S (length (chunks fuel n (drop n (x :: b'))))).
    rewrite IH by (rewrite length_drop; cbn in *; lia).
    rewrite length_drop, (ceil_step (length (x :: b')) n) by (cbn; lia). done.
Qed.

(** The first [k] chunks of a body cut in more than [k] pieces are a
    strict prefix of it. *)
Lemma iter_content_take_prefix n b k :
  0 < n -> k < length (iter_content n b) ->
  mjoin (take k (iter_content n b)) `prefix_of` b /\
  length (mjoin (take k (iter_content n b))) < length b.
Proof.
  intros Hn Hk. set (cs := iter_content n b).
  assert (Hsplit : mjoin (take k cs) ++ mjoin (drop k cs) = b).
  { rewrite <- join_app, take_drop. by apply chunks_concat. }
  destruct (drop k cs) as [|c rest] eqn:Hd.
  { apply (f_equal length) in Hd. rewrite length_drop in Hd. cbn in Hd. unfold cs in Hd. lia. }
  assert (Hc : 0 < length c).
  { destruct c; [|cbn; lia]. exfalso. apply (chunks_nonempty (length b) n b [] Hn); [|done].
    change (chunks (length b) n b) with cs.
    rewrite <- (take_drop k cs), Hd. apply elem_of_app. right. constructor. }
  split.
  - exists (mjoin (c :: rest)). by rewrite Hsplit.
  - rewrite <- Hsplit. change (mjoin (c :: rest)) with (c ++ mjoin rest).
    rewrite !length_app. lia.
Qed.

(** The loop of line 29 writes [ceil(len(body) / 8192)] chunks,
    each of 1 to 8192 bytes. *)
Lemma iter_content_chunk_size body :
  length (iter_content CHUNK_SIZE body) = (length body + CHUNK_SIZE - 1) / CHUNK_SIZE /\
  (forall c, c ∈ iter_content CHUNK_SIZE body -> 0 < length c <= CHUNK_SIZE).
Proof.
  split.
  - by apply chunks_length; [apply CHUNK_SIZE_pos|].
  - intros c Hc. exact (iter_content_bounds CHUNK_SIZE body c CHUNK_SIZE_pos Hc).
Qed.

(** ** Redirects *)

(** [n] redirects from [url] lead to [Some u]; [None] when a response
    on the way is not a redirect. *)
Fixpoint hops (n : nat) (srv : string -> reply) (url : string) : option string :=
  match n with
  | O => Some url
  | S m => match srv url with Redirect _ loc => hops m srv loc | _ => None end
  end.

(** Following [n] redirects takes [n] of the budget. *)
Lemma resolve_hops srv url u n fuel :
  hops n srv url = Some u -> n <= fuel ->
  resolve_redirects fuel srv url = resolve_redirects (fuel - n) srv u.
Proof.
  revert url fuel. induction n as [|n IH]; intros url fuel Hh Hn.
  - injection Hh as ->. by rewrite Nat.sub_0_r.
  - cbn in Hh. destruct (srv url) as [| |st loc] eqn:Hs; try done.
    destruct fuel as [|fuel]; [lia|]. cbn. rewrite Hs. apply IH; [done|lia].
Qed.

(** C21: [requests] follows at most 30 redirects. A response reached
    after at most 30 redirects is the one [requests.get] returns, with
    its URL; when the 30th redirect leads to yet another redirect,
    [TooManyRedirects] is raised. *)
Theorem resolve_redirects_limit srv url n u :
  hops n srv url = Some u ->
  (n <= MAX_REDIRECTS -> forall st b k, srv u = Reply st b k ->
     resolve_redirects MAX_REDIRECTS srv url = inr (u, st, b, k)) /\
  (n = MAX_REDIRECTS -> forall st loc, srv u = Redirect st loc ->
     resolve_redirects MAX_REDIRECTS srv url = inl TooManyRedirects).
Proof.
  intros Hh. split.
  - intros Hn st b k Hu. rewrite (resolve_hops srv url u n MAX_REDIRECTS Hh Hn).
    destruct (MAX_REDIRECTS - n); cbn; by rewrite Hu.
  - intros -> st loc Hu. rewrite (resolve_hops srv url u MAX_REDIRECTS MAX_REDIRECTS Hh (le_n _)).
    rewrite Nat.sub_diag. cbn. by rewrite Hu.
Qed.

(** A URL that redirects to itself: after 30 redirects, the same URL
    redirects again. *)
Lemma resolve_redirects_limit_witness :
  (30 <= MAX_REDIRECTS -> forall st b k, (fun _ : string => Redirect 302 "a") "a" = Reply st b k ->
     resolve_redirects MAX_REDIRECTS (fun _ => Redirect 302 "a") "a" = inr ("a", st, b, k)) /\
  (30 = MAX_REDIRECTS -> forall st loc, (fun _ : string => Redirect 302 "a") "a" = Redirect st loc ->
     resolve_redirects MAX_REDIRECTS (fun _ => Redirect 302 "a") "a" = inl TooManyRedirects).
Proof. apply resolve_redirects_limit. vm_compute. reflexivity. Defined.
