(* ===== verification/Crc32.v ===== *)
(** * CRC-32: [binascii.crc32], as [zipfile] checks a member

    [ZipExtFile] keeps a running [crc32(data, running)] of the bytes it
    reads and compares it with the [CRC] field of the member's
    [ZipInfo] when it reaches the end ([ZipExtFile._update_crc]).
    [binascii.crc32] is zlib's [crc32]: the reflected CRC-32 of
    polynomial [0xEDB88320], computed a byte at a time with a table of
    256 words, the initial value and the result complemented. The
    values are 32-bit words, here [Z] in [0 .. 2^32).

    [crc_byte] is zlib's table-driven step and [crc_byte_ref] the
    definition of the CRC bit by bit; [crc32_table_ref] shows they
    agree. The running CRC stays a 32-bit word ([crc32_bounds]), and
    feeding the data piece by piece gives the CRC of the whole
    ([crc32_app]), which is why the check of [ZipExtFile] on the
    pieces it reads is a check of the whole member. *)

From Stdlib Require Import ZArith Lia Btauto.
From S2P Require Import Prelude.

Local Open Scope Z_scope.

(** ** Definitions *)

Definition CRC_POLY : Z := 0xEDB88320.
Definition MASK32 : Z := 0xFFFFFFFF.

Definition byte_Z (b : Byte.byte) : Z := Z.of_N (Byte.to_N b).

(** One bit of the division by the reflected polynomial. *)
Definition crc_bit (c : Z) : Z :=
  if Z.odd c then Z.lxor (Z.shiftr c 1) CRC_POLY else Z.shiftr c 1.

(** The CRC of one byte, bit by bit. *)
Definition crc_byte_ref (c : Z) (b : Byte.byte) : Z :=
  Nat.iter 8 crc_bit (Z.lxor c (byte_Z b)).

(** zlib's [crc_table[0]] ([crc32.h]). *)
Definition crc_table : list Z := [
  0x00000000; 0x77073096; 0xee0e612c; 0x990951ba;
  0x076dc419; 0x706af48f; 0xe963a535; 0x9e6495a3;
  0x0edb8832; 0x79dcb8a4; 0xe0d5e91e; 0x97d2d988;
  0x09b64c2b; 0x7eb17cbd; 0xe7b82d07; 0x90bf1d91;
  0x1db71064; 0x6ab020f2; 0xf3b97148; 0x84be41de;
  0x1adad47d; 0x6ddde4eb; 0xf4d4b551; 0x83d385c7;
  0x136c9856; 0x646ba8c0; 0xfd62f97a; 0x8a65c9ec;
  0x14015c4f; 0x63066cd9; 0xfa0f3d63; 0x8d080df5;
  0x3b6e20c8; 0x4c69105e; 0xd56041e4; 0xa2677172;
  0x3c03e4d1; 0x4b04d447; 0xd20d85fd; 0xa50ab56b;
  0x35b5a8fa; 0x42b2986c; 0xdbbbc9d6; 0xacbcf940;
  0x32d86ce3; 0x45df5c75; 0xdcd60dcf; 0xabd13d59;
  0x26d930ac; 0x51de003a; 0xc8d75180; 0xbfd06116;
  0x21b4f4b5; 0x56b3c423; 0xcfba9599; 0xb8bda50f;
  0x2802b89e; 0x5f058808; 0xc60cd9b2; 0xb10be924;
  0x2f6f7c87; 0x58684c11; 0xc1611dab; 0xb6662d3d;
  0x76dc4190; 0x01db7106; 0x98d220bc; 0xefd5102a;
  0x71b18589; 0x06b6b51f; 0x9fbfe4a5; 0xe8b8d433;
  0x7807c9a2; 0x0f00f934; 0x9609a88e; 0xe10e9818;
  0x7f6a0dbb; 0x086d3d2d; 0x91646c97; 0xe6635c01;
  0x6b6b51f4; 0x1c6c6162; 0x856530d8; 0xf262004e;
  0x6c0695ed; 0x1b01a57b; 0x8208f4c1; 0xf50fc457;
  0x65b0d9c6; 0x12b7e950; 0x8bbeb8ea; 0xfcb9887c;
  0x62dd1ddf; 0x15da2d49; 0x8cd37cf3; 0xfbd44c65;
  0x4db26158; 0x3ab551ce; 0xa3bc0074; 0xd4bb30e2;
  0x4adfa541; 0x3dd895d7; 0xa4d1c46d; 0xd3d6f4fb;
  0x4369e96a; 0x346ed9fc; 0xad678846; 0xda60b8d0;
  0x44042d73; 0x33031de5; 0xaa0a4c5f; 0xdd0d7cc9;
  0x5005713c; 0x270241aa; 0xbe0b1010; 0xc90c2086;
  0x5768b525; 0x206f85b3; 0xb966d409; 0xce61e49f;
  0x5edef90e; 0x29d9c998; 0xb0d09822; 0xc7d7a8b4;
  0x59b33d17; 0x2eb40d81; 0xb7bd5c3b; 0xc0ba6cad;
  0xedb88320; 0x9abfb3b6; 0x03b6e20c; 0x74b1d29a;
  0xead54739; 0x9dd277af; 0x04db2615; 0x73dc1683;
  0xe3630b12; 0x94643b84; 0x0d6d6a3e; 0x7a6a5aa8;
  0xe40ecf0b; 0x9309ff9d; 0x0a00ae27; 0x7d079eb1;
  0xf00f9344; 0x8708a3d2; 0x1e01f268; 0x6906c2fe;
  0xf762575d; 0x806567cb; 0x196c3671; 0x6e6b06e7;
  0xfed41b76; 0x89d32be0; 0x10da7a5a; 0x67dd4acc;
  0xf9b9df6f; 0x8ebeeff9; 0x17b7be43; 0x60b08ed5;
  0xd6d6a3e8; 0xa1d1937e; 0x38d8c2c4; 0x4fdff252;
  0xd1bb67f1; 0xa6bc5767; 0x3fb506dd; 0x48b2364b;
  0xd80d2bda; 0xaf0a1b4c; 0x36034af6; 0x41047a60;
  0xdf60efc3; 0xa867df55; 0x316e8eef; 0x4669be79;
  0xcb61b38c; 0xbc66831a; 0x256fd2a0; 0x5268e236;
  0xcc0c7795; 0xbb0b4703; 0x220216b9; 0x5505262f;
  0xc5ba3bbe; 0xb2bd0b28; 0x2bb45a92; 0x5cb36a04;
  0xc2d7ffa7; 0xb5d0cf31; 0x2cd99e8b; 0x5bdeae1d;
  0x9b64c2b0; 0xec63f226; 0x756aa39c; 0x026d930a;
  0x9c0906a9; 0xeb0e363f; 0x72076785; 0x05005713;
  0x95bf4a82; 0xe2b87a14; 0x7bb12bae; 0x0cb61b38;
  0x92d28e9b; 0xe5d5be0d; 0x7cdcefb7; 0x0bdbdf21;
  0x86d3d2d4; 0xf1d4e242; 0x68ddb3f8; 0x1fda836e;
  0x81be16cd; 0xf6b9265b; 0x6fb077e1; 0x18b74777;
  0x88085ae6; 0xff0f6a70; 0x66063bca; 0x11010b5c;
  0x8f659eff; 0xf862ae69; 0x616bffd3; 0x166ccf45;
  0xa00ae278; 0xd70dd2ee; 0x4e048354; 0x3903b3c2;
  0xa7672661; 0xd06016f7; 0x4969474d; 0x3e6e77db;
  0xaed16a4a; 0xd9d65adc; 0x40df0b66; 0x37d83bf0;
  0xa9bcae53; 0xdebb9ec5; 0x47b2cf7f; 0x30b5ffe9;
  0xbdbdf21c; 0xcabac28a; 0x53b39330; 0x24b4a3a6;
  0xbad03605; 0xcdd70693; 0x54de5729; 0x23d967bf;
  0xb3667a2e; 0xc4614ab8; 0x5d681b02; 0x2a6f2b94;
  0xb40bbe37; 0xc30c8ea1; 0x5a05df1b; 0x2d02ef8d].

(** zlib's byte loop:
    [crc = crc_table[0][(crc ^ *buf++) & 0xff] ^ (crc >> 8)] *)
Definition crc_byte (c : Z) (b : Byte.byte) : Z :=
  Z.lxor (nth (Z.to_nat (Z.land (Z.lxor c (byte_Z b)) 255)) crc_table 0) (Z.shiftr c 8).

(** [binascii.crc32(data, value)]: [value] is taken as an unsigned
    32-bit int, complemented, the bytes are folded in, and the result
    complemented again. *)
Definition crc32 (value : Z) (data : list Byte.byte) : Z :=
  Z.lxor (fold_left crc_byte data (Z.lxor (Z.land value MASK32) MASK32)) MASK32.

(** The same with the bit-by-bit step. *)
Definition crc32_ref (value : Z) (data : list Byte.byte) : Z :=
  Z.lxor (fold_left crc_byte_ref data (Z.lxor (Z.land value MASK32) MASK32)) MASK32.

(** A 32-bit word. *)
Definition w32 (x : Z) : Prop := 0 <= x < 2 ^ 32.

(** ** Bits of 32-bit words *)

Lemma testbit_high x n i : 0 <= x < 2 ^ n -> n <= i -> Z.testbit x i = false.
Proof.
  intros [Hx Hn] Hi. destruct (Z.eq_dec x 0) as [->|Hx0]; [apply Z.bits_0|].
  apply Z.bits_above_log2; [lia|]. apply Z.log2_lt_pow2 in Hn; lia.
Qed.

Lemma bits_bound x n : 0 <= n -> 0 <= x -> (forall i, n <= i -> Z.testbit x i = false) -> x < 2 ^ n.
Proof.
  intros Hn Hx Hb. assert (E : x = x mod 2 ^ n).
  { apply Z.bits_inj'. intros i Hi. destruct (Z.lt_ge_cases i n).
    - by rewrite Z.mod_pow2_bits_low by lia.
    - rewrite Z.mod_pow2_bits_high by lia. by apply Hb. }
  rewrite E. apply Z.mod_pos_bound, Z.pow_pos_nonneg; lia.
Qed.

Lemma w32_lxor a b : w32 a -> w32 b -> w32 (Z.lxor a b).
Proof.
  intros Ha Hb. split; [apply Z.lxor_nonneg; unfold w32 in *; lia|].
  apply bits_bound; [lia|apply Z.lxor_nonneg; unfold w32 in *; lia|].
  intros i Hi. by rewrite Z.lxor_spec, (testbit_high a 32), (testbit_high b 32).
Qed.

Lemma w32_shiftr a k : 0 <= k -> w32 a -> w32 (Z.shiftr a k).
Proof.
  intros Hk [Ha Hb]. rewrite Z.shiftr_div_pow2 by done. split; [apply Z.div_pos; lia|].
  apply (Z.le_lt_trans _ a); [apply Z.div_le_upper_bound; nia|done].
Qed.

Lemma w32_poly : w32 CRC_POLY.
Proof. unfold w32, CRC_POLY. lia. Qed.

Lemma w32_mask : w32 MASK32.
Proof. unfold w32, MASK32. lia. Qed.

Lemma w32_land_mask v : w32 (Z.land v MASK32).
Proof.
  change MASK32 with (Z.ones 32). rewrite Z.land_ones by lia.
  apply Z.mod_pos_bound. lia.
Qed.

Lemma land_mask_w32 v : w32 v -> Z.land v MASK32 = v.
Proof.
  intros Hv. change MASK32 with (Z.ones 32). rewrite Z.land_ones by lia.
  apply Z.mod_small, Hv.
Qed.

Lemma lxor_lxor_cancel a b : Z.lxor (Z.lxor a b) b = a.
Proof. by rewrite Z.lxor_assoc, Z.lxor_nilpotent, Z.lxor_0_r. Qed.

Create HintDb crc.
#[export] Hint Resolve w32_lxor w32_shiftr w32_poly w32_mask w32_land_mask : crc.
#[export] Hint Extern 1 (0 <= _) => lia : crc.

(** ** The bit-by-bit CRC is linear over xor *)

Lemma crc_bit_lxor a b : crc_bit (Z.lxor a b) = Z.lxor (crc_bit a) (crc_bit b).
Proof.
  unfold crc_bit. rewrite <- !Z.bit0_odd, Z.lxor_spec, Z.shiftr_lxor.
  destruct (Z.testbit a 0), (Z.testbit b 0); cbn;
    apply Z.bits_inj'; intros i _; rewrite ?Z.lxor_spec; btauto.
Qed.

Lemma crc_iter_lxor n a b :
  Nat.iter n crc_bit (Z.lxor a b) = Z.lxor (Nat.iter n crc_bit a) (Nat.iter n crc_bit b).
Proof. induction n as [|n IH]; [done|]. by rewrite !Nat.iter_succ, IH, crc_bit_lxor. Qed.

(** A word whose low [k] bits are zero loses them in [k] steps. *)
Lemma crc_iter_shiftl k h : Nat.iter k crc_bit (Z.shiftl h (Z.of_nat k)) = h.
Proof.
  induction k as [|k IH]; [by rewrite Z.shiftl_0_r|].
  rewrite Nat.iter_succ_r. unfold crc_bit at 2.
  replace (Z.odd (Z.shiftl h (Z.of_nat (S k)))) with false.
  - rewrite Z.shiftr_shiftl_l by lia. replace (Z.of_nat (S k) - 1) with (Z.of_nat k) by lia. apply IH.
  - rewrite <- Z.bit0_odd, Z.shiftl_spec_low; [done|lia].
Qed.

Lemma crc_bit_w32 c : w32 c -> w32 (crc_bit c).
Proof. intros Hc. unfold crc_bit. destruct (Z.odd c); auto with crc. Qed.

Lemma crc_iter_w32 n c : w32 c -> w32 (Nat.iter n crc_bit c).
Proof. intros Hc. induction n as [|n IH]; [done|]. by apply crc_bit_w32. Qed.

Lemma byte_Z_bound b : 0 <= byte_Z b < 2 ^ 8.
Proof.
  unfold byte_Z. pose proof (Byte.to_N_bounded b) as Hb. split; [lia|].
  change (2 ^ 8) with (Z.of_N 256). apply N2Z.inj_lt. lia.
Qed.

(** ** zlib's table is the bit-by-bit CRC of each byte *)

Lemma crc_table_spec : crc_table = map (fun n => Nat.iter 8 crc_bit (Z.of_nat n)) (seq 0 256).
Proof. vm_compute. reflexivity. Qed.

Lemma land_255_bound y : 0 <= Z.land y 255 < 256.
Proof. change 255 with (Z.ones 8). rewrite Z.land_ones by lia. apply Z.mod_pos_bound. lia. Qed.

Lemma crc_table_nth k : 0 <= k < 256 -> nth (Z.to_nat k) crc_table 0 = Nat.iter 8 crc_bit k.
Proof.
  intros Hk. rewrite crc_table_spec.
  set (f := fun n : nat => Nat.iter 8 crc_bit (Z.of_nat n)).
  rewrite (nth_indep _ _ (f 0%nat)) by (rewrite length_map, length_seq; lia).
  rewrite map_nth, seq_nth by lia. unfold f. cbn [Nat.add]. by rewrite Z2Nat.id by lia.
Qed.

(** The low byte of [c ^ x] and the rest of [c]. *)
Lemma lxor_split c x :
  0 <= x < 2 ^ 8 -> Z.lxor c x = Z.lxor (Z.shiftl (Z.shiftr c 8) 8) (Z.land (Z.lxor c x) 255).
Proof.
  intros Hx. apply Z.bits_inj'. intros i Hi. change 255 with (Z.ones 8).
  rewrite !Z.lxor_spec, Z.land_spec, Z.lxor_spec. destruct (Z.lt_ge_cases i 8).
  - rewrite Z.shiftl_spec_low, Z.ones_spec_low by lia. btauto.
  - rewrite Z.shiftl_spec_high, Z.shiftr_spec, Z.ones_spec_high, (testbit_high x 8) by lia.
    replace (i - 8 + 8) with i by lia. btauto.
Qed.

(** One step of zlib's loop is eight steps of the division. *)
Lemma crc_byte_eq c b : crc_byte c b = crc_byte_ref c b.
Proof.
  unfold crc_byte, crc_byte_ref. rewrite crc_table_nth by apply land_255_bound.
  rewrite (lxor_split c (byte_Z b)) at 2 by apply byte_Z_bound.
  replace (Z.shiftl (Z.shiftr c 8) 8) with (Z.shiftl (Z.shiftr c 8) (Z.of_nat 8)) by done.
  by rewrite crc_iter_lxor, crc_iter_shiftl, Z.lxor_comm.
Qed.

Lemma crc_byte_w32 c b : w32 c -> w32 (crc_byte c b).
Proof.
  intros Hc. rewrite crc_byte_eq. apply crc_iter_w32, w32_lxor; [done|].
  pose proof (byte_Z_bound b). unfold w32. lia.
Qed.

Lemma fold_crc_w32 data c : w32 c -> w32 (fold_left crc_byte data c).
Proof.
  revert c. induction data as [|b data IH]; intros c Hc; [done|]. cbn. by apply IH, crc_byte_w32.
Qed.

Lemma crc32_w32 v data : w32 (crc32 v data).
Proof. unfold crc32. auto using fold_crc_w32 with crc. Qed.

(** ** The CRC-32 of [binascii] *)

(** zlib's table-driven [crc32] is the CRC-32 defined bit by bit,
    for every initial value and every data. *)
Lemma crc32_table_ref v data : crc32 v data = crc32_ref v data.
Proof.
  unfold crc32, crc32_ref. f_equal. generalize (Z.lxor (Z.land v MASK32) MASK32).
  induction data as [|b data IH]; intros c; [done|]. cbn. by rewrite crc_byte_eq.
Qed.

(** [crc32(data, value)] is a 32-bit word, and only the low 32 bits
    of [value] count, as for the C [unsigned int] it is passed as. *)
Lemma crc32_bounds v data :
  0 <= crc32 v data < 2 ^ 32 /\ crc32 v data = crc32 (Z.land v MASK32) data.
Proof.
  split; [apply crc32_w32|]. unfold crc32. by rewrite (land_mask_w32 (Z.land v MASK32)) by auto with crc.
Qed.

(** Feeding the data in two pieces, the second with the running CRC
    of the first, gives the CRC of the whole:
    [crc32(d2, crc32(d1, v)) == crc32(d1 + d2, v)]. *)
Lemma crc32_app v d1 d2 : crc32 (crc32 v d1) d2 = crc32 v (d1 ++ d2).
Proof.
  unfold crc32 at 1. rewrite (land_mask_w32 (crc32 v d1)) by apply crc32_w32.
  unfold crc32. by rewrite lxor_lxor_cancel, fold_left_app.
Qed.

(** The check value of CRC-32: [binascii.crc32(b"123456789") == 0xCBF43926]. *)
Example crc32_check :
  crc32 0 [Byte.x31; Byte.x32; Byte.x33; Byte.x34; Byte.x35; Byte.x36; Byte.x37; Byte.x38; Byte.x39]
  = 0xCBF43926.
Proof. vm_compute. reflexivity. Qed.
