(* ===== verification/Zip.v ===== *)
(** * Archive extraction: [zipfile.ZipFile] and [extractall]

    The byte layout of a ZIP file is the library's business. The class
    [ZipCodec] stands for it: it decodes the bytes of a file into its
    members, or fails. For each member, [extractall] follows CPython's
    [ZipFile._extract_member]. The member name is split on ["/"] and
    its empty, ["."] and [".."] components are dropped. Missing parent
    directories are created, a directory member is made with [mkdir],
    and a file member is copied by [shutil.copyfileobj] from a
    [ZipExtFile]: reads of [COPY_BUFSIZE] bytes, each written, with a
    running [crc32] ([Crc32]). The read that reaches the end of the
    member raises [BadZipFile] before returning its bytes when the CRC
    differs from the member's [CRC] field, so a bad member is left with
    every read but the last ([copy_member_crc]). Members are extracted
    in archive order, so two whose names sanitise to the same path
    overwrite each other ([extractall_same_path]). The reads are those of
    a stored member; for a deflated one the end can be detected one read
    earlier when the last read ends on a decompressor block. *)

From S2P Require Import Prelude PyStr FS Net Crc32.

(** ** Definitions *)

(** One member of the archive ([ZipInfo] with its data). *)
Record zipinfo := mkZipInfo {
  zi_filename : string;
  zi_data : list Byte.byte;
  zi_CRC : Z
}.

(** The archive format: what [ZipFile.__init__] reads from the file. *)
Class ZipCodec := {
  zip_decode : list Byte.byte -> option (list zipinfo)
}.

(** [s.endswith(c)] *)
Fixpoint ends_with (c : ascii) (s : string) : bool :=
  match s with
  | EmptyString => false
  | String a EmptyString => bool_decide (a = c)
  | String _ s' => ends_with c s'
  end.

(** [ZipInfo.is_dir()] *)
Definition is_dir_member (zi : zipinfo) : bool := ends_with "/"%char (zi_filename zi).

(** [shutil.COPY_BUFSIZE] outside Windows: [64 * 1024]. *)
Definition COPY_BUFSIZE : nat := 65536.

Lemma COPY_BUFSIZE_pos : 0 < COPY_BUFSIZE.
Proof. apply Nat.ltb_lt. by vm_compute. Qed.

(** What the calls [source.read(COPY_BUFSIZE)] of [copyfileobj] return
    on a stored member, up to the one that reaches its end: pieces of
    [COPY_BUFSIZE] bytes, the last one shorter, and for an empty member
    the one empty read that finds the end. *)
Definition member_reads (data : list Byte.byte) : list (list Byte.byte) :=
  match chunks (length data) COPY_BUFSIZE data with
  | [] => [[]]
  | cs => cs
  end.

(** The components [_extract_member] keeps of a member name. *)
Definition member_path (name : string) : path :=
  filter (fun x => x ∉ ["."; ".."; ""]) (py_split "/"%char name).

Section Extract.
  Context `{ZipCodec}.

  (** [ZipFile(p, 'r')]: read the file and decode it. *)
Definition zipfile_open (p : path) : PyM dir (list zipinfo) :=
    let* bytes := fs_read (read_file p) in
    match zip_decode bytes with
    | Some ms => py_ret ms
    | None => py_raise (BadZipFile "File is not a zip file")
    end.

  (** [upperdirs = os.path.dirname(targetpath); if upperdirs and not
      os.path.exists(upperdirs): os.makedirs(upperdirs)] *)
Definition ensure_upperdirs (tp : path) : PyM dir unit :=
    let up := removelast tp in
    let* up_exists := fs_query (os_path_exists up) in
    if bool_decide (up <> []) && negb up_exists then fs_do (os_makedirs up) else py_ret tt.

  (** [shutil.copyfileobj(source, target)] on a [ZipExtFile]: each read
      updates the running CRC ([ZipExtFile._update_crc]); the read that
      reaches the end raises when it is not [expected]; a non-empty read
      is written. *)
Fixpoint copy_reads (tp : path) (name : string) (expected running : Z)
      (reads : list (list Byte.byte)) : PyM dir unit :=
    match reads with
    | [] => py_ret tt
    | buf :: rest =>
        let running' := crc32 running buf in
        if bool_decide (rest = []) && negb (bool_decide (running' = expected))
        then py_raise (BadZipFile ("Bad CRC-32 for file '" +:+ name +:+ "'"))
        else let* _ := (if bool_decide (buf = []) then py_ret tt else fs_do (file_write tp buf)) in
             copy_reads tp name expected running' rest
    end.

  (** [ZipFile._extract_member(member, target)] *)
Definition extract_member (target : path) (zi : zipinfo) : PyM dir unit :=
    let tp := target ++ member_path (zi_filename zi) in
    let* _ := ensure_upperdirs tp in
    if is_dir_member zi then
      let* isd := fs_query (os_path_isdir tp) in
      if isd then py_ret tt else fs_do (os_mkdir tp)
    else
      let* _ := fs_do (open_wb tp) in
      copy_reads tp (zi_filename zi) (zi_CRC zi) (crc32 0 []) (member_reads (zi_data zi)).

  (** [ZipFile.extractall(target)]: the members in archive order. *)
Definition extractall (target : path) (members : list zipinfo) : PyM dir unit :=
    py_for (extract_member target) members.
End Extract.

(** Opening an archive reads the tree and changes nothing. *)
Lemma zipfile_open_state `{ZipCodec} p d : (zipfile_open p d).1 = d.
Proof. unfold zipfile_open, py_bind, fs_read. destruct (read_file p d); [done|]. by destruct zip_decode. Qed.

(** ** Extraction into a directory is extraction into its own tree

    [extractall([b], ms)] on a tree whose [b] is a directory acts on the
    contents of [b] as [extractall([], ms)] acts on a tree of its own,
    and leaves the rest of the tree alone. *)

(** [m] on a tree whose [b] is a directory is [m'] on the contents of
    [b], relocated. *)
Definition zoom_eq {A} (b : string) (m m' : PyM dir A) : Prop :=
  forall d t, d !! b = Some (Dir t) ->
    m d = let '(t', r) := m' t in (<[b := Dir t']> d, sum_map (exn_under b) id r).

Section Zoom.
  Context (b : string).

Lemma zoom_fs_do op op' : zooms b op op' -> zoom_eq b (fs_do op) (fs_do op').
  Proof.
    intros Hz d t Hb. unfold fs_do. rewrite (Hz d t Hb). unfold under.
    destruct (op' t); cbn; [by rewrite insert_id|done].
  Qed.

Lemma zoom_query {A} (q q' : dir -> A) :
    (forall d t, d !! b = Some (Dir t) -> q d = q' t) -> zoom_eq b (fs_query q) (fs_query q').
  Proof. intros Hq d t Hb. unfold fs_query. by rewrite (Hq d t Hb), insert_id. Qed.

  (** A query with the same answer on both sides. *)
Lemma zoom_bind_query_const {A B} (q q' : dir -> A) a0 (k k' : A -> PyM dir B) :
    (forall d t, d !! b = Some (Dir t) -> q d = a0 /\ q' t = a0) ->
    zoom_eq b (k a0) (k' a0) -> zoom_eq b (py_bind (fs_query q) k) (py_bind (fs_query q') k').
  Proof.
    intros Hq Hk d t Hb. unfold py_bind, fs_query.
    destruct (Hq d t Hb) as [-> ->]. by apply Hk.
  Qed.

Lemma zoom_ret {A} (a : A) : zoom_eq b (py_ret a) (py_ret a).
  Proof. intros d t Hb. unfold py_ret. by rewrite insert_id. Qed.

Lemma zoom_raise {A} e : exn_under b e = e -> zoom_eq b (@py_raise _ A e) (py_raise e).
  Proof. intros He d t Hb. unfold py_raise. cbn. by rewrite He, insert_id. Qed.

Lemma zoom_bind {A B} m m' (k k' : A -> PyM dir B) :
    zoom_eq b m m' -> (forall a, zoom_eq b (k a) (k' a)) -> zoom_eq b (py_bind m k) (py_bind m' k').
  Proof.
    intros Hm Hk d t Hb. unfold py_bind. rewrite (Hm d t Hb).
    destruct (m' t) as [t1 [e|a]]; [done|]. cbn.
    rewrite (Hk a _ t1) by apply lookup_insert_eq. destruct (k' a t1). by rewrite insert_insert_eq.
  Qed.

Lemma zoom_for {A} (f f' : A -> PyM dir unit) l :
    (forall x, zoom_eq b (f x) (f' x)) -> zoom_eq b (py_for f l) (py_for f' l).
  Proof.
    intros Hf. induction l as [|x l IH]; [apply zoom_ret|]. by apply zoom_bind.
  Qed.
End Zoom.

Lemma ensure_upperdirs_zoom b cs : zoom_eq b (ensure_upperdirs (b :: cs)) (ensure_upperdirs cs).
Proof.
  unfold ensure_upperdirs. destruct cs as [|c [|c' cs]].
  - apply zoom_bind; [by apply zoom_query|intros ex]. apply zoom_ret.
  - (* [b/c]: the parent [b] exists, and [c] has no parent to make *)
    apply (zoom_bind_query_const b _ _ true).
    + intros d t Hb. cbn [removelast]. rewrite os_path_exists_top, Hb. done.
    + apply zoom_ret.
  - change (removelast (b :: c :: c' :: cs)) with (b :: removelast (c :: c' :: cs)).
    apply zoom_bind; [apply zoom_query; intros; by apply os_path_exists_zoom|intros ex].
    rewrite !bool_decide_true by (destruct cs; discriminate).
    destruct ex; cbn [negb andb]; [apply zoom_ret|apply zoom_fs_do, os_makedirs_zoom].
Qed.

Lemma copy_reads_zoom b tp name exp r reads :
  zoom_eq b (copy_reads (b :: tp) name exp r reads) (copy_reads tp name exp r reads).
Proof.
  revert r. induction reads as [|buf rest IH]; intros r; [apply zoom_ret|]. cbn [copy_reads].
  case_match; [by apply zoom_raise|]. apply zoom_bind; [|intros _; apply IH].
  case_match; [apply zoom_ret|apply zoom_fs_do, file_write_zoom].
Qed.

Lemma extract_member_zoom b zi : zoom_eq b (extract_member [b] zi) (extract_member [] zi).
Proof.
  unfold extract_member. cbn [app]. apply zoom_bind; [apply ensure_upperdirs_zoom|intros _].
  destruct (is_dir_member zi).
  - apply zoom_bind; [apply zoom_query; intros; by apply os_path_isdir_zoom|].
    intros []; [apply zoom_ret|apply zoom_fs_do, os_mkdir_zoom].
  - apply zoom_bind; [apply zoom_fs_do, open_wb_zoom|intros _].
    apply copy_reads_zoom.
Qed.

(** Extracting into the directory [b] gives [b] the tree a fresh
    extraction into its own contents gives. *)
Lemma extractall_zoom b ms : zoom_eq b (extractall [b] ms) (extractall [] ms).
Proof. apply zoom_for. intros. apply extract_member_zoom. Qed.

(** ** Copying a member and checking its CRC *)

Lemma write_piece_top x acc buf d :
  d !! x = Some (File acc) ->
  (if bool_decide (buf = []) then py_ret tt else fs_do (file_write [x] buf)) d =
    (<[x := File (acc ++ buf)]> d, inr tt).
Proof.
  intros Hx. case_bool_decide as Hb.
  - subst buf. by rewrite app_nil_r, insert_id.
  - unfold fs_do. by rewrite (file_write_top x d acc buf Hx).
Qed.

(** The copy loop on a file [x] that holds [acc]: all the reads are
    written when the CRC of their bytes is [exp], and all but the last
    one otherwise. *)
Lemma copy_reads_top x name exp reads :
  reads <> [] -> forall acc r d, d !! x = Some (File acc) ->
  copy_reads [x] name exp r reads d =
    if bool_decide (crc32 r (mjoin reads) = exp)
    then (<[x := File (acc ++ mjoin reads)]> d, inr tt)
    else (<[x := File (acc ++ mjoin (removelast reads))]> d,
          inl (BadZipFile ("Bad CRC-32 for file '" +:+ name +:+ "'"))).
Proof.
  induction reads as [|buf rest IH]; intros Hne acc r d Hx; [done|]. cbn [copy_reads].
  destruct (decide (rest = [])) as [->|Hrest].
  - change (mjoin [buf]) with (buf ++ []). change (mjoin (removelast [buf])) with (@nil Byte.byte).
    rewrite !app_nil_r, (bool_decide_true (@nil (list Byte.byte) = [])) by done.
    case_bool_decide as Hc; cbn [andb negb].
    + unfold py_bind. by rewrite (write_piece_top x acc buf d Hx).
    + by rewrite insert_id.
  - rewrite (bool_decide_false (rest = [])) by done. cbn [andb].
    unfold py_bind. rewrite (write_piece_top x acc buf d Hx).
    rewrite (IH Hrest (acc ++ buf) (crc32 r buf)) by apply lookup_insert_eq.
    rewrite crc32_app. change (mjoin (buf :: rest)) with (buf ++ mjoin rest).
    destruct rest as [|b' rest']; [done|]. change (removelast (buf :: b' :: rest')) with (buf :: removelast (b' :: rest')).
    change (mjoin (buf :: removelast (b' :: rest'))) with (buf ++ mjoin (removelast (b' :: rest'))).
    by case_bool_decide; rewrite insert_insert_eq, app_assoc.
Qed.

Lemma member_reads_concat data : mjoin (member_reads data) = data.
Proof.
  unfold member_reads. pose proof (chunks_concat (length data) COPY_BUFSIZE data COPY_BUFSIZE_pos (le_n _)) as Hc.
  destruct (chunks _ _ _); [by rewrite <- Hc|done].
Qed.

(** The reads of a member are the reads before the last and a last
    read of at most [COPY_BUFSIZE] bytes, empty only for an empty
    member. *)
Lemma member_reads_split data :
  exists piece, mjoin (removelast (member_reads data)) ++ piece = data /\
    length piece <= COPY_BUFSIZE /\ (data <> [] -> 0 < length piece).
Proof.
  assert (Hne : member_reads data <> []) by (unfold member_reads; by destruct chunks).
  destruct (exists_last Hne) as (pre & piece & Hl).
  exists piece. pose proof (member_reads_concat data) as Hc.
  rewrite Hl, join_app in Hc. cbn in Hc. rewrite app_nil_r in Hc.
  rewrite Hl, removelast_last. split; [done|].
  unfold member_reads in Hl. destruct (chunks (length data) COPY_BUFSIZE data) as [|c cs] eqn:Hch.
  - destruct pre as [|? []]; simplify_eq/=. split; [lia|]. intros Hd. by destruct Hd.
  - assert (Hin : piece ∈ iter_content COPY_BUFSIZE data).
    { unfold iter_content. rewrite Hch, Hl. apply elem_of_app. right. by constructor. }
    pose proof (iter_content_bounds COPY_BUFSIZE data piece COPY_BUFSIZE_pos Hin). lia.
Qed.

(** The copy of a member on a file just opened, by its CRC. *)
Lemma copy_member_top x name exp data d :
  d !! x = Some (File []) ->
  copy_reads [x] name exp (crc32 0 []) (member_reads data) d =
    if bool_decide (crc32 0 data = exp) then (<[x := File data]> d, inr tt)
    else (<[x := File (mjoin (removelast (member_reads data)))]> d,
          inl (BadZipFile ("Bad CRC-32 for file '" +:+ name +:+ "'"))).
Proof.
  intros Hx. assert (Hne : member_reads data <> []) by (unfold member_reads; by destruct chunks).
  by rewrite (copy_reads_top x name exp _ Hne [] _ d Hx), crc32_app, member_reads_concat.
Qed.

(** C18: the copy of one member by [_extract_member], on the file
    [open(targetpath, "wb")] has just created. When the CRC of the
    member's bytes is its [CRC] field, the file gets the whole member.
    Otherwise [BadZipFile] is raised and the file keeps the member
    without its last read: all but at most [COPY_BUFSIZE] bytes, and
    at least one byte less when the member is not empty. *)
Theorem copy_member_crc x name exp data d :
  d !! x = Some (File []) ->
  (crc32 0 data = exp -> copy_reads [x] name exp (crc32 0 []) (member_reads data) d =
                           (<[x := File data]> d, inr tt)) /\
  (crc32 0 data <> exp -> exists part piece,
     copy_reads [x] name exp (crc32 0 []) (member_reads data) d =
       (<[x := File part]> d, inl (BadZipFile ("Bad CRC-32 for file '" +:+ name +:+ "'"))) /\
     part ++ piece = data /\ length piece <= COPY_BUFSIZE /\ (data <> [] -> 0 < length piece)).
Proof.
  intros Hx. rewrite (copy_member_top x name exp data d Hx).
  split; intros Hc.
  - by rewrite bool_decide_true.
  - rewrite bool_decide_false by done. destruct (member_reads_split data) as (piece & Hp).
    by exists (mjoin (removelast (member_reads data))), piece.
Qed.

(** A one-byte member [07] whose [CRC] field says 0: the file stays empty. *)
Lemma copy_member_crc_witness :
  (crc32 0 [Byte.x07] = 0%Z ->
     copy_reads ["f"] "f" 0 (crc32 0 []) (member_reads [Byte.x07]) {["f" := File []]} =
       (<["f" := File [Byte.x07]]> {["f" := File []]}, inr tt)) /\
  (crc32 0 [Byte.x07] <> 0%Z -> exists part piece,
     copy_reads ["f"] "f" 0 (crc32 0 []) (member_reads [Byte.x07]) {["f" := File []]} =
       (<["f" := File part]> {["f" := File []]},
        inl (BadZipFile ("Bad CRC-32 for file '" +:+ "f" +:+ "'"))) /\
     part ++ piece = [Byte.x07] /\ length piece <= COPY_BUFSIZE /\ ([Byte.x07] <> [] -> 0 < length piece)).
Proof. apply copy_member_crc. reflexivity. Defined.

(** ** Members that land on the same path *)

Section SamePath.
  (** A file member whose name keeps one component [x], with a right
      CRC, extracted where [x] is not a directory: [x] becomes the
      member's data. *)
Lemma extract_member_top x zi d :
    member_path (zi_filename zi) = [x] -> is_dir_member zi = false ->
    (forall t, d !! x <> Some (Dir t)) -> crc32 0 (zi_data zi) = zi_CRC zi ->
    extract_member [] zi d = (<[x := File (zi_data zi)]> d, inr tt).
  Proof.
    intros Hp Hdir Hx Hc. unfold extract_member. cbn [app]. rewrite Hp, Hdir.
    unfold ensure_upperdirs, py_bind, fs_query. cbn [removelast].
    rewrite (bool_decide_false ([] <> [])) by (intros Hn; by apply Hn). cbn [andb].
    unfold py_ret, fs_do. rewrite (open_wb_top x d Hx).
    rewrite (copy_member_top x _ _ _ _ (lookup_insert_eq _ _ _)), bool_decide_true by done.
    by rewrite insert_insert_eq.
  Qed.

  (** C19: two file members whose names keep the same single component
      [x] (such as ["a"] and ["../a"], or ["a"] twice) are both
      extracted, in archive order, to [x]: the second overwrites the
      first without an error, and [x] holds the data of the later
      member. *)
Theorem extractall_same_path x zi1 zi2 d :
    member_path (zi_filename zi1) = [x] -> member_path (zi_filename zi2) = [x] ->
    is_dir_member zi1 = false -> is_dir_member zi2 = false ->
    crc32 0 (zi_data zi1) = zi_CRC zi1 -> crc32 0 (zi_data zi2) = zi_CRC zi2 ->
    (forall t, d !! x <> Some (Dir t)) ->
    extractall [] [zi1; zi2] d = (<[x := File (zi_data zi2)]> d, inr tt).
  Proof.
    intros Hp1 Hp2 Hd1 Hd2 Hc1 Hc2 Hx. unfold extractall. cbn [py_for].
    rewrite (py_bind_inr _ _ _ _ _ (extract_member_top x zi1 d Hp1 Hd1 Hx Hc1)).
    rewrite (py_bind_inr _ _ _ _ _ (extract_member_top x zi2 (<[x := File (zi_data zi1)]> d) Hp2 Hd2
               ltac:(intros t; by rewrite lookup_insert_eq) Hc2)).
    by rewrite insert_insert_eq.
  Qed.
End SamePath.

(** ["a"] and then ["../a"]: the second member's byte [05] is what
    [a] holds. *)
Lemma extractall_same_path_witness :
  extractall []
    [mkZipInfo "a" [Byte.x07] 0x4c667a2e%Z; mkZipInfo "../a" [Byte.x05] (crc32 0 [Byte.x05])] ∅ =
    (<["a" := File [Byte.x05]]> ∅, inr tt).
Proof.
  apply (extractall_same_path "a"); try (vm_compute; reflexivity).
  intros t. discriminate.
Defined.
