(* ===== verification/Logger.v ===== *)
(** * The logger: [log(msg)] of [src/printerAgent.py]

    [log] prints [f"[{datetime.now().strftime('%Y-%m-%d %H:%M:%S')}] {msg}"].
    A reading of the clock is a [datetime]. [log_line] renders one
    line the way [strftime] does for years 1000 to 9999, the years of
    a real clock (with four digits, [%Y] needs no padding). *)

From S2P Require Import Prelude PyStr.

Record datetime := mkDatetime {
  dt_year : N; dt_month : N; dt_day : N;
  dt_hour : N; dt_minute : N; dt_second : N
}.

(** [t.strftime('%Y-%m-%d %H:%M:%S')] *)
Definition strftime_log (t : datetime) : string :=
  zpad 4 (dt_year t) +:+ "-" +:+ zpad 2 (dt_month t) +:+ "-" +:+ zpad 2 (dt_day t)
  +:+ " " +:+ zpad 2 (dt_hour t) +:+ ":" +:+ zpad 2 (dt_minute t)
  +:+ ":" +:+ zpad 2 (dt_second t).

(** The line [log] prints at time [t]. *)
Definition log_line (t : datetime) (msg : string) : string :=
  "[" +:+ strftime_log t +:+ "] " +:+ msg.

(** The values a [datetime] can hold, within the four-digit years of
    a real clock. *)
Definition valid_datetime (t : datetime) : Prop :=
  (1000 <= dt_year t <= 9999 /\ 1 <= dt_month t <= 12 /\ 1 <= dt_day t <= 31 /\
   dt_hour t <= 23 /\ dt_minute t <= 59 /\ dt_second t <= 59)%N.

#[export] Instance valid_datetime_dec t : Decision (valid_datetime t).
Proof. unfold valid_datetime. apply _. Defined.

(** ** Properties of the log format *)

Lemma strftime_log_length t : String.length (strftime_log t) = 19.
Proof. unfold strftime_log. by rewrite !string_length_app, !zpad_length. Qed.

(** Split an equation between two concatenations whose first parts
    have the same length. *)
Ltac peel H :=
  let E := fresh "E" in
  apply string_app_inj_len in H as [E H];
    [| rewrite ?zpad_length, ?strftime_log_length; reflexivity].

(** C23: a printed line determines the time and the message: two lines
    printed at valid times are equal only when the times and the
    messages are. *)
Theorem log_line_inj t1 t2 m1 m2 :
  valid_datetime t1 -> valid_datetime t2 -> log_line t1 m1 = log_line t2 m2 -> t1 = t2 /\ m1 = m2.
Proof.
  intros V1 V2 H. unfold log_line in H. peel H. peel H. peel H. split; [|done].
  destruct t1 as [y1 mo1 d1 h1 mi1 s1], t2 as [y2 mo2 d2 h2 mi2 s2].
  unfold valid_datetime in V1, V2. unfold strftime_log in *. cbn [dt_year dt_month dt_day dt_hour dt_minute dt_second] in *.
  repeat match goal with Hs : _ +:+ _ = _ +:+ _ |- _ => peel Hs end.
  repeat match goal with
         | Hz : zpad ?w ?a = zpad ?w ?b |- _ => apply zpad_inj in Hz; [|cbn; lia|cbn; lia]
         end.
  by subst.
Qed.

Lemma log_line_inj_witness :
  mkDatetime 2026 11 9 10 0 7 = mkDatetime 2026 11 9 10 0 7 /\ "ZIP file downloaded." = "ZIP file downloaded.".
Proof.
  apply (log_line_inj _ _ "ZIP file downloaded." "ZIP file downloaded.");
    [apply (bool_decide_unpack _); vm_compute; reflexivity..|reflexivity].
Defined.
