(* ===== verification/Agent.v ===== *)
(** * The update agent: [src/printerAgent.py]

    The world of one run ([World]) holds the working directory's tree,
    the lines printed so far, the server's replies and the clock. The
    script is [main]: the five stages of lines 23-59 inside the
    [try/except Exception] of lines 22 and 61-62. Each stage is one
    definition, [download], [ensure_backup_folder], [backup_build],
    [extract_update] and [cleanup], made of the same calls in the same
    order as the source.

    The theorems describe whole runs: what a successful run leaves on
    disk, what a failed fetch, a dropped connection, an archive that
    does not open and an extraction that stops at a member leave, and
    that nothing is moved before the archive is downloaded.
    For the stages, they show that the order of [os.listdir] does not
    matter, what [shutil.move] does to a name the backup already holds,
    and that the download writes the body whole. *)

From S2P Require Import Prelude PyStr FS Net Zip Logger.

(** ** The world and the statements that act on it *)

Record World := mkWorld {
  w_fs : dir;                    (** the working directory *)
  w_stdout : list string;        (** lines printed, oldest first *)
  w_server : string -> reply;    (** the server's answer to a GET of a URL *)
  w_clock : nat -> datetime;     (** the n-th reading of [datetime.now()] *)
  w_reads : nat                  (** readings taken so far *)
}.

Definition set_fs (d : dir) (w : World) : World :=
  mkWorld d (w_stdout w) (w_server w) (w_clock w) (w_reads w).

(** Run a block of filesystem calls on the world's tree. *)
Definition on_fs {A} (m : PyM dir A) : PyM World A :=
  fun w => let '(d', r) := m (w_fs w) in (set_fs d' w, r).

(** [log(msg)], lines 17-18 *)
Definition log (msg : string) : PyM World unit :=
  fun w => (mkWorld (w_fs w) (w_stdout w ++ [log_line (w_clock w (w_reads w)) msg])
                    (w_server w) (w_clock w) (S (w_reads w)), inr tt).

(** ** Configuration, lines 9-13 *)

Definition SERVER_URL : string := "http://142.93.218.85:3000/download?dir=v1".
Definition ZIP_FILE : path := ["update.zip"].
Definition BUILD_FOLDER : path := ["build"].
Definition BACKUP_FOLDER : path := ["backup"].

(** [str(e)] of the exceptions, as the [except] clause prints them.
    The [OSError] texts and [TooManyRedirects] are CPython's and
    [requests]' own. Three texts are abstracted, since the model does
    not have what [requests] puts in them: the reason phrase of an HTTP
    status ([HTTPError]); the urllib3 pool and connection objects, with
    their memory addresses, of a [ConnectionError], for which the model
    prints the URL after a fixed text; the byte counts read and still
    expected of a [ChunkedEncodingError], for which it prints a fixed
    text. *)
Definition exn_str (e : exn) : string :=
  match e with
  | FileNotFoundError p => "[Errno 2] No such file or directory: '" +:+ show_path p +:+ "'"
  | FileExistsError p => "[Errno 17] File exists: '" +:+ show_path p +:+ "'"
  | NotADirectoryError p => "[Errno 20] Not a directory: '" +:+ show_path p +:+ "'"
  | IsADirectoryError p => "[Errno 21] Is a directory: '" +:+ show_path p +:+ "'"
  | DirectoryNotEmpty p => "[Errno 39] Directory not empty: '" +:+ show_path p +:+ "'"
  | InvalidArgument p => "[Errno 22] Invalid argument: '" +:+ show_path p +:+ "'"
  | ShutilError m => m
  | ConnectionError u => "Connection refused for url: " +:+ u
  | HTTPError s u =>
      py_str_Z s +:+ (if bool_decide (s < 500)%Z then " Client Error" else " Server Error")
      +:+ " for url: " +:+ u
  | TooManyRedirects => "Exceeded 30 redirects."
  | ChunkedEncodingError => "Connection broken: IncompleteRead"
  | BadZipFile m => m
  | ValueError m => m
  | IndexError m => m
  end.

(** ** The stages of the script *)

(** The response [requests.get(url)] ends with on the world's server,
    redirects followed. *)
Definition get_response (w : World) (url : string) : exn + (string * Z * list Byte.byte * option nat) :=
  resolve_redirects MAX_REDIRECTS (w_server w) url.

(** [requests.get(url, stream=True)]: the final URL, the status line
    and the body stream, or [ConnectionError] or [TooManyRedirects]. *)
Definition requests_get (url : string) : PyM World (string * Z * list Byte.byte * option nat) :=
  fun w => (w, get_response w url).

(** Lines 28-30: [with open(ZIP_FILE, "wb") as f: for chunk in
    response.iter_content(chunk_size=8192): f.write(chunk)] *)
Definition write_stream (p : path) (body : list Byte.byte) (drop : option nat)
    : PyM World unit :=
  let '(cs, broken) := delivered CHUNK_SIZE body drop in
  let* _ := on_fs (fs_do (open_wb p)) in
  let* _ := py_for (fun c => on_fs (fs_do (file_write p c))) cs in
  if broken then py_raise ChunkedEncodingError else py_ret tt.

(** Lines 23-32 *)
Definition download : PyM World unit :=
  let* _ := log "Downloading zip file..." in
  let* '(response_url, status, body, drop) := requests_get SERVER_URL in
  let* _ := py_lift (raise_for_status response_url status) in
  let* _ := write_stream ZIP_FILE body drop in
  log "ZIP file downloaded.".

(** Lines 34-37 *)
Definition ensure_backup_folder : PyM World unit :=
  let* ex := on_fs (fs_query (os_path_exists BACKUP_FOLDER)) in
  if ex then py_ret tt
  else let* _ := on_fs (fs_do (os_makedirs BACKUP_FOLDER)) in
       log "Created 'backup' folder.".

(** Lines 42-45, the body of the loop *)
Definition move_one (filename : string) : PyM World unit :=
  let src := BUILD_FOLDER ++ [filename] in
  let dst := BACKUP_FOLDER ++ [filename] in
  let* _ := on_fs (fs_do (shutil_move src dst)) in
  log ("Moved " +:+ filename +:+ " to backup folder.").

(** Lines 39-48 *)
Definition backup_build : PyM World unit :=
  let* ex := on_fs (fs_query (os_path_exists BUILD_FOLDER)) in
  if ex then
    let* names := on_fs (fs_read (os_listdir BUILD_FOLDER)) in
    py_for move_one names
  else
    let* _ := on_fs (fs_do (os_makedirs BUILD_FOLDER)) in
    log "Created 'build' folder.".

Section WithCodec.
  Context `{ZipCodec}.

  (** Lines 50-53 *)
Definition extract_update : PyM World unit :=
    let* members := on_fs (zipfile_open ZIP_FILE) in
    let* _ := on_fs (extractall BUILD_FOLDER members) in
    log "Extracted zip contents to 'build'.".

  (** Lines 55-57 *)
Definition cleanup : PyM World unit :=
    let* _ := on_fs (fs_do (os_remove ZIP_FILE)) in
    log "Deleted downloaded zip file.".

  (** Lines 23-59, the body of the [try] *)
Definition update_steps : PyM World unit :=
    let* _ := download in
    let* _ := ensure_backup_folder in
    let* _ := backup_build in
    let* _ := extract_update in
    let* _ := cleanup in
    log "✅ Update complete.".

  (** Lines 22-62, the whole script *)
Definition main : PyM World unit :=
    py_try update_steps (fun e => log ("❌ ERROR: " +:+ exn_str e)).
End WithCodec.

(** ** Laws of the world's statements *)

Lemma set_fs_same w : set_fs (w_fs w) w = w.
Proof. by destruct w. Qed.

Lemma set_fs_set_fs d1 d2 w : set_fs d1 (set_fs d2 w) = set_fs d1 w.
Proof. done. Qed.

Lemma on_fs_run {A} (m : PyM dir A) w d' r :
  m (w_fs w) = (d', r) -> on_fs m w = (set_fs d' w, r).
Proof. unfold on_fs. by intros ->. Qed.

Lemma on_fs_do_ok op w d' :
  op (w_fs w) = inr d' -> on_fs (fs_do op) w = (set_fs d' w, inr tt).
Proof. intros H. unfold on_fs, fs_do. by rewrite H. Qed.

Lemma on_fs_do_err op w e :
  op (w_fs w) = inl e -> on_fs (fs_do op) w = (w, inl e).
Proof. intros H. unfold on_fs, fs_do. by rewrite H, set_fs_same. Qed.

Lemma on_fs_do_inv op w w' :
  on_fs (fs_do op) w = (w', inr tt) -> exists d', op (w_fs w) = inr d' /\ w' = set_fs d' w.
Proof. unfold on_fs, fs_do. destruct (op (w_fs w)); intros H; inversion H; eauto. Qed.

Lemma on_fs_query {A} (q : dir -> A) w : on_fs (fs_query q) w = (w, inr (q (w_fs w))).
Proof. unfold on_fs, fs_query. by rewrite set_fs_same. Qed.

Lemma on_fs_read {A} (q : dir -> exn + A) w : on_fs (fs_read q) w = (w, q (w_fs w)).
Proof. unfold on_fs, fs_read. by rewrite set_fs_same. Qed.

(** The world after [log msg]: the same tree and one more line. *)
Definition logged (msg : string) (w : World) : World :=
  mkWorld (w_fs w) (w_stdout w ++ [log_line (w_clock w (w_reads w)) msg])
          (w_server w) (w_clock w) (S (w_reads w)).

Lemma log_run msg w : log msg w = (logged msg w, inr tt).
Proof. done. Qed.

Lemma py_try_inl {S A} (m : PyM S A) h s s' e :
  m s = (s', inl e) -> py_try m h s = h e s'.
Proof. unfold py_try. by intros ->. Qed.

Lemma py_try_inr {S A} (m : PyM S A) h s s' a :
  m s = (s', inr a) -> py_try m h s = (s', inr a).
Proof. unfold py_try. by intros ->. Qed.

#[export] Hint Rewrite set_fs_same set_fs_set_fs @on_fs_query @on_fs_read log_run : pyagent_rw.

(** ** The download, lines 23-32 *)

(** The loop of line 29 appends every chunk to the open file. *)
Lemma write_chunks_run x b cs w :
  w_fs w !! x = Some (File b) ->
  py_for (fun c => on_fs (fs_do (file_write [x] c))) cs w =
    (set_fs (<[x := File (b ++ mjoin cs)]> (w_fs w)) w, inr tt).
Proof.
  revert b w. induction cs as [|c cs IH]; intros b w Hx.
  - unfold py_for, py_ret. by rewrite app_nil_r, (insert_id (w_fs w) x (File b) Hx), set_fs_same.
  - cbn [py_for]. py_step (on_fs_do_ok _ w _ (file_write_top x (w_fs w) b c Hx)).
    rewrite (IH (b ++ c)) by (cbn; by rewrite lookup_insert_eq).
    cbn [w_fs set_fs]. by rewrite insert_insert_eq, <- app_assoc.
Qed.

(** The [with] block of lines 28-30 when the stream delivers the chunks
    [cs], then raises or not. *)
Lemma write_stream_run body drop cs broken w :
  delivered CHUNK_SIZE body drop = (cs, broken) ->
  (forall t, w_fs w !! "update.zip" <> Some (Dir t)) ->
  write_stream ZIP_FILE body drop w =
    (set_fs (<["update.zip" := File (mjoin cs)]> (w_fs w)) w,
     if broken then inl ChunkedEncodingError else inr tt).
Proof.
  intros Hdel Hzip. unfold write_stream. rewrite Hdel.
  py_step (on_fs_do_ok _ _ _ (open_wb_top _ _ Hzip)).
  py_step (write_chunks_run "update.zip" [] cs (set_fs (<["update.zip" := File []]> (w_fs w)) w)
             ltac:(apply lookup_insert_eq)).
  cbn [w_fs set_fs]. rewrite insert_insert_eq. by destruct broken.
Qed.

(** A reply is received whole when no drop is scheduled before its
    last chunk. *)
Definition received_whole (body : list Byte.byte) (drop : option nat) : Prop :=
  match drop with
  | None => True
  | Some k => length (iter_content CHUNK_SIZE body) <= k
  end.

Lemma delivered_whole body drop :
  received_whole body drop -> delivered CHUNK_SIZE body drop = (iter_content CHUNK_SIZE body, false).
Proof.
  unfold received_whole, delivered. destruct drop as [k|]; [|done].
  intros Hk. by rewrite decide_False by lia.
Qed.

Lemma delivered_broken body k :
  k < length (iter_content CHUNK_SIZE body) ->
  delivered CHUNK_SIZE body (Some k) = (take k (iter_content CHUNK_SIZE body), true).
Proof. intros Hk. unfold delivered. by rewrite decide_True. Qed.

(** C20: when the stream delivers the whole body, lines 28-30 leave
    [update.zip] holding exactly the body: the chunks of 8192 bytes,
    written in order, put it back together, whatever was there before. *)
Theorem write_stream_whole body drop w :
  received_whole body drop -> (forall t, w_fs w !! "update.zip" <> Some (Dir t)) ->
  write_stream ZIP_FILE body drop w = (set_fs (<["update.zip" := File body]> (w_fs w)) w, inr tt).
Proof.
  intros Hwhole Hzip. rewrite (write_stream_run body drop _ false w (delivered_whole body drop Hwhole) Hzip).
  unfold iter_content. by rewrite chunks_concat by (apply CHUNK_SIZE_pos || done).
Qed.

Lemma raise_for_status_ok u st : ~ (400 <= st < 600)%Z -> raise_for_status u st = inr tt.
Proof. intros H. unfold raise_for_status. by rewrite bool_decide_false. Qed.

Lemma raise_for_status_err u st : (400 <= st < 600)%Z -> raise_for_status u st = inl (HTTPError st u).
Proof. intros H. unfold raise_for_status. by rewrite bool_decide_true. Qed.

Lemma requests_get_run w u st body drop :
  get_response w SERVER_URL = inr (u, st, body, drop) ->
  requests_get SERVER_URL w = (w, inr (u, st, body, drop)).
Proof. unfold requests_get. by intros ->. Qed.

(** The world after the first line of the download and the request. *)
Definition w_requested (w : World) : World := logged "Downloading zip file..." w.

(** A reply received whole leaves the body in [update.zip]. *)
Lemma download_whole w u st body drop :
  get_response w SERVER_URL = inr (u, st, body, drop) ->
  ~ (400 <= st < 600)%Z -> received_whole body drop ->
  (forall t, w_fs w !! "update.zip" <> Some (Dir t)) ->
  download w =
    (logged "ZIP file downloaded."
       (set_fs (<["update.zip" := File body]> (w_fs w)) (w_requested w)), inr tt).
Proof.
  intros Hs Hst Hwhole Hzip. unfold download.
  py_step (log_run "Downloading zip file..." w).
  py_step (requests_get_run (w_requested w) u st body drop Hs). cbn beta iota.
  py_step (f_equal (fun r => (w_requested w, r)) (raise_for_status_ok u st Hst)).
  py_step (write_stream_run body drop _ _ (w_requested w) (delivered_whole body drop Hwhole) Hzip).
  unfold iter_content. by rewrite chunks_concat by (apply CHUNK_SIZE_pos || done).
Qed.

(** A connection that breaks after [k] chunks leaves the first [k]
    chunks in [update.zip] and raises. *)
Lemma download_broken w u st body k :
  get_response w SERVER_URL = inr (u, st, body, Some k) ->
  ~ (400 <= st < 600)%Z -> k < length (iter_content CHUNK_SIZE body) ->
  (forall t, w_fs w !! "update.zip" <> Some (Dir t)) ->
  download w =
    (set_fs (<["update.zip" := File (mjoin (take k (iter_content CHUNK_SIZE body)))]> (w_fs w))
            (w_requested w), inl ChunkedEncodingError).
Proof.
  intros Hs Hst Hk Hzip. unfold download.
  py_step (log_run "Downloading zip file..." w).
  py_step (requests_get_run (w_requested w) u st body (Some k) Hs). cbn beta iota.
  py_step (f_equal (fun r => (w_requested w, r)) (raise_for_status_ok u st Hst)).
  by py_step (write_stream_run body (Some k) _ _ (w_requested w) (delivered_broken body k Hk) Hzip).
Qed.

(** A 4xx or 5xx status raises before anything is written. *)
Lemma download_http_error w u st body drop :
  get_response w SERVER_URL = inr (u, st, body, drop) -> (400 <= st < 600)%Z ->
  download w = (w_requested w, inl (HTTPError st u)).
Proof.
  intros Hs Hst. unfold download.
  py_step (log_run "Downloading zip file..." w).
  py_step (requests_get_run (w_requested w) u st body drop Hs). cbn beta iota.
  by py_step (f_equal (fun r => (w_requested w, r)) (raise_for_status_err u st Hst)).
Qed.

(** A refused connection or too many redirects raise before anything
    is written. *)
Lemma download_no_response w e :
  get_response w SERVER_URL = inl e ->
  download w = (w_requested w, inl e).
Proof.
  intros Hs. unfold download. py_step (log_run "Downloading zip file..." w).
  unfold py_bind at 1, requests_get.
  change (get_response (logged "Downloading zip file..." w) SERVER_URL) with (get_response w SERVER_URL).
  by rewrite Hs.
Qed.

(** ** Creating the folders, lines 34-37 and 46-48 *)

Lemma ensure_backup_folder_run w :
  ensure_backup_folder w =
    match w_fs w !! "backup" with
    | Some _ => (w, inr tt)
    | None => (logged "Created 'backup' folder." (set_fs (<["backup" := Dir ∅]> (w_fs w)) w), inr tt)
    end.
Proof.
  unfold ensure_backup_folder. py_step (on_fs_query (os_path_exists BACKUP_FOLDER) w).
  unfold BACKUP_FOLDER. rewrite os_path_exists_top.
  destruct (w_fs w !! "backup") eqn:E; [by rewrite bool_decide_true|].
  rewrite bool_decide_false by (by intros []).
  by py_step (on_fs_do_ok _ w _ (os_makedirs_top_new "backup" (w_fs w) E)).
Qed.

(** ** The backup loop, lines 39-45 *)

(** What the backup keeps under the name [n] when the build had [e]
    there and the backup had [old]. A directory [backup/n] receives
    [e] inside it, as [backup/n/n]: [shutil.move] moves into
    directories. *)
Definition backup_entry (n : string) (e : entry) (old : option entry) : entry :=
  match old with
  | Some (Dir D) => Dir (<[n := e]> D)
  | _ => e
  end.

(** The move of [n] succeeds. *)
Definition move_okb (n : string) (e : entry) (old : option entry) : bool :=
  match old with
  | None => true
  | Some (File _) => match e with File _ => true | Dir _ => false end
  | Some (Dir D) => bool_decide (D !! n = None)
  end.

(** Every entry of the build can be moved into the backup. *)
Definition movable (B K : dir) : Prop :=
  map_Forall (fun n e => move_okb n e (K !! n) = true) B.

(** The backup after every entry of [B] was moved into [K]. *)
Definition backup_merge (B K : dir) : dir :=
  map_imap (fun n _ => Some (match B !! n with
                              | Some e => backup_entry n e (K !! n)
                              | None => match K !! n with Some o => o | None => File [] end
                              end)) (B ∪ K).

Lemma backup_merge_lookup B K n :
  backup_merge B K !! n =
    match B !! n with Some e => Some (backup_entry n e (K !! n)) | None => K !! n end.
Proof.
  unfold backup_merge. rewrite map_lookup_imap, lookup_union.
  destruct (B !! n), (K !! n); done.
Qed.

Lemma move_into_ok k n e K :
  move_okb n e (K !! n) = true ->
  move_into k n e K = inr (<[n := backup_entry n e (K !! n)]> K).
Proof.
  unfold move_into, move_okb, backup_entry.
  destruct (K !! n) as [[f|D]|]; [by destruct e| |done].
  intros HD. apply bool_decide_eq_true_1 in HD. by rewrite HD.
Qed.

(** One turn of the loop, lines 42-45: [shutil.move] acts on the
    backup as [move_into] says; on success [build/n] is gone and the
    move is logged, on failure nothing has changed. *)
Lemma move_one_result n e B K w :
  w_fs w !! "build" = Some (Dir B) -> w_fs w !! "backup" = Some (Dir K) -> B !! n = Some e ->
  move_one n w =
    match move_into "backup" n e K with
    | inr K' => (logged ("Moved " +:+ n +:+ " to backup folder.")
                   (set_fs (<["build" := Dir (delete n B)]> (<["backup" := Dir K']> (w_fs w))) w),
                 inr tt)
    | inl err => (w, inl err)
    end.
Proof.
  intros Hb Hk Hn. unfold move_one, BUILD_FOLDER, BACKUP_FOLDER. cbn [app].
  assert (Hm := shutil_move_child "build" "backup" n B K e (w_fs w) ltac:(done) Hb Hk Hn).
  destruct (move_into "backup" n e K) as [err|K']; cbn [sbind] in Hm.
  - by py_step (on_fs_do_err _ w _ Hm).
  - by py_step (on_fs_do_ok _ w _ Hm).
Qed.

Lemma move_one_run n e B K w :
  w_fs w !! "build" = Some (Dir B) -> w_fs w !! "backup" = Some (Dir K) ->
  B !! n = Some e -> move_okb n e (K !! n) = true ->
  move_one n w =
    (logged ("Moved " +:+ n +:+ " to backup folder.")
       (set_fs (<["build" := Dir (delete n B)]>
                 (<["backup" := Dir (<[n := backup_entry n e (K !! n)]> K)]> (w_fs w))) w),
     inr tt).
Proof. intros Hb Hk Hn Hok. by rewrite (move_one_result n e B K w), move_into_ok by done. Qed.

(** Two tests of the same truth value select the same branch. *)
Lemma decide_ext {A} (P Q : Prop) `{Decision P} `{Decision Q} (x y : A) :
  (P <-> Q) -> (if decide P then x else y) = (if decide Q then x else y).
Proof. intros HPQ. by repeat case_decide; tauto. Qed.

Lemma insert_insert_pair (k1 k2 : string) (v1 v2 v1' v2' : entry) (d : dir) :
  k1 <> k2 ->
  <[k1 := v1]> (<[k2 := v2]> (<[k1 := v1']> (<[k2 := v2']> d))) = <[k1 := v1]> (<[k2 := v2]> d).
Proof.
  intros Hne. apply map_eq. intros i. rewrite !lookup_insert.
  by repeat case_decide; simplify_eq.
Qed.

(** The loop over any list of distinct names of the build: each name
    leaves the build and takes its backup entry. *)
Lemma move_loop_run names B K w :
  NoDup names ->
  w_fs w !! "build" = Some (Dir B) -> w_fs w !! "backup" = Some (Dir K) ->
  Forall (fun n => exists e, B !! n = Some e /\ move_okb n e (K !! n) = true) names ->
  exists w' B' K', py_for move_one names w = (w', inr tt) /\
    w_fs w' = <["build" := Dir B']> (<["backup" := Dir K']> (w_fs w)) /\
    (forall m, B' !! m = if decide (m ∈ names) then None else B !! m) /\
    (forall m, K' !! m = if decide (m ∈ names)
                         then (fun e => backup_entry m e (K !! m)) <$> B !! m
                         else K !! m).
Proof.
  intros Hnd. revert B K w. induction Hnd as [|n names Hn Hnd IH]; intros B K w Hb Hk Hall.
  - exists w, B, K. split; [done|]. split; [|split; intros m; by rewrite decide_False by set_solver].
    by rewrite (insert_id (w_fs w) "backup" (Dir K) Hk), (insert_id (w_fs w) "build" (Dir B) Hb).
  - inversion Hall as [|? ? [e [He Hok]] Hall']; subst.
    cbn [py_for]. py_step (move_one_run n e B K w Hb Hk He Hok).
    set (B1 := delete n B). set (K1 := <[n := backup_entry n e (K !! n)]> K).
    edestruct (IH B1 K1 (logged ("Moved " +:+ n +:+ " to backup folder.")
                          (set_fs (<["build" := Dir B1]> (<["backup" := Dir K1]> (w_fs w))) w)))
      as (w' & B' & K' & Hrun & Hfs & HB & HK).
    { cbn [w_fs logged set_fs]. by rewrite lookup_insert_eq. }
    { cbn [w_fs logged set_fs]. by rewrite lookup_insert_ne, lookup_insert_eq. }
    { rewrite Forall_forall in Hall' |- *. intros m Hm.
      destruct (Hall' m Hm) as [em [Hem Hokm]].
      assert (m <> n) by (intros ->; contradiction).
      exists em. unfold B1, K1. by rewrite lookup_delete_ne, lookup_insert_ne. }
    exists w', B', K'. split; [done|]. split.
    { rewrite Hfs. cbn [w_fs logged set_fs]. by apply insert_insert_pair. }
    split; intros m; [rewrite HB|rewrite HK]; unfold B1, K1;
      destruct (decide (m = n)) as [->|Hmn].
    + by rewrite decide_False, decide_True, lookup_delete_eq by set_solver.
    + rewrite lookup_delete_ne by done. by apply decide_ext; set_solver.
    + rewrite (decide_False (P := n ∈ names)), (decide_True (P := n ∈ n :: names)) by set_solver.
      by rewrite lookup_insert_eq, He.
    + rewrite !lookup_insert_ne, lookup_delete_ne by done. by apply decide_ext; set_solver.
Qed.

(** The names [os.listdir] returns are the keys of the directory. *)
Lemma map_to_list_keys (B : dir) n : n ∈ (map_to_list B).*1 <-> is_Some (B !! n).
Proof.
  rewrite list_elem_of_fmap. split.
  - intros [[m e] [-> Hin]]. apply elem_of_map_to_list in Hin. cbn. eauto.
  - intros [e He]. exists (n, e). split; [done|]. by apply elem_of_map_to_list.
Qed.

(** When the loop ran over all the names of the build, the build is
    empty and the backup is [backup_merge B K]. *)
Lemma loop_final_maps (names : list string) (B K B' K' : dir) :
  (forall n, n ∈ names <-> is_Some (B !! n)) ->
  (forall m, B' !! m = if decide (m ∈ names) then None else B !! m) ->
  (forall m, K' !! m = if decide (m ∈ names)
                       then (fun e => backup_entry m e (K !! m)) <$> B !! m
                       else K !! m) ->
  B' = ∅ /\ K' = backup_merge B K.
Proof.
  intros Hnames HB HK. split; apply map_eq; intros m.
  - rewrite HB, lookup_empty. case_decide as Hm; [done|].
    destruct (B !! m) eqn:E; [|done]. destruct Hm. apply Hnames. by rewrite E.
  - rewrite HK, backup_merge_lookup. case_decide as Hm.
    + by destruct (proj1 (Hnames m) Hm) as [e ->].
    + destruct (B !! m) eqn:E; [|done]. destruct Hm. apply Hnames. by rewrite E.
Qed.

(** Every name of the build passes the test of [movable]. *)
Lemma movable_names (names : list string) (B K : dir) :
  (forall n, n ∈ names <-> is_Some (B !! n)) -> movable B K ->
  Forall (fun n => exists e, B !! n = Some e /\ move_okb n e (K !! n) = true) names.
Proof.
  intros Hnames Hmov. apply Forall_forall. intros n Hn.
  destruct (proj1 (Hnames n) Hn) as [e He].
  exists e. split; [done|]. exact (map_Forall_lookup_1 _ _ _ _ Hmov He).
Qed.

(** C13: whatever order [os.listdir] returns the names of the build in,
    the loop empties the build and leaves the backup [backup_merge B K]. *)
Theorem backup_loop_any_order names B K w :
  NoDup names -> (forall n, n ∈ names <-> is_Some (B !! n)) ->
  w_fs w !! "build" = Some (Dir B) -> w_fs w !! "backup" = Some (Dir K) -> movable B K ->
  exists w', py_for move_one names w = (w', inr tt) /\
    w_fs w' = <["build" := Dir ∅]> (<["backup" := Dir (backup_merge B K)]> (w_fs w)).
Proof.
  intros Hnd Hnames Hb Hk Hmov.
  destruct (move_loop_run names B K w Hnd Hb Hk (movable_names names B K Hnames Hmov))
    as (w' & B' & K' & Hrun & Hfs & HB & HK).
  destruct (loop_final_maps names B K B' K' Hnames HB HK) as [-> ->]. eauto.
Qed.

(** Lines 39-45 on an existing build. *)
Lemma backup_build_existing B K w :
  w_fs w !! "build" = Some (Dir B) -> w_fs w !! "backup" = Some (Dir K) -> movable B K ->
  exists w', backup_build w = (w', inr tt) /\
    w_fs w' = <["build" := Dir ∅]> (<["backup" := Dir (backup_merge B K)]> (w_fs w)).
Proof.
  intros Hb Hk Hmov. unfold backup_build, BUILD_FOLDER.
  py_step (on_fs_query (os_path_exists ["build"]) w).
  rewrite os_path_exists_top, bool_decide_true by (rewrite Hb; eauto).
  assert (Hl : on_fs (fs_read (os_listdir ["build"])) w = (w, inr (map_to_list B).*1))
    by (by rewrite on_fs_read, (os_listdir_top _ _ B Hb)).
  py_step Hl.
  destruct (move_loop_run _ B K w (NoDup_fst_map_to_list B) Hb Hk
              (movable_names _ B K (map_to_list_keys B) Hmov)) as (w' & B' & K' & Hrun & Hfs & HB & HK).
  destruct (loop_final_maps _ B K B' K' (map_to_list_keys B) HB HK) as [-> ->]. eauto.
Qed.

(** Lines 46-48: the first run, without a build. *)
Lemma backup_build_first w :
  w_fs w !! "build" = None ->
  backup_build w = (logged "Created 'build' folder." (set_fs (<["build" := Dir ∅]> (w_fs w)) w), inr tt).
Proof.
  intros Hb. unfold backup_build, BUILD_FOLDER.
  py_step (on_fs_query (os_path_exists ["build"]) w).
  rewrite os_path_exists_top, bool_decide_false by (rewrite Hb; by intros []).
  by py_step (on_fs_do_ok _ w _ (os_makedirs_top_new "build" (w_fs w) Hb)).
Qed.

(** ** What one move does to the backup, line 44 *)

Lemma move_into_fail k n e K :
  move_okb n e (K !! n) = false -> exists err, move_into k n e K = inl err.
Proof.
  unfold move_okb, move_into. destruct (K !! n) as [[f|D]|]; [destruct e| |]; try discriminate; eauto.
  intros HD. apply bool_decide_eq_false_1 in HD. destruct (D !! n); [eauto|done].
Qed.

(** C14: a move that fails stops the loop. The entries moved before it
    stay in the backup (nothing is rolled back), and the failing entry
    and every later one stay in the build. *)
Theorem backup_loop_stops names1 n names2 e B K w :
  NoDup names1 -> n ∉ names1 ->
  w_fs w !! "build" = Some (Dir B) -> w_fs w !! "backup" = Some (Dir K) ->
  Forall (fun m => exists em, B !! m = Some em /\ move_okb m em (K !! m) = true) names1 ->
  B !! n = Some e -> move_okb n e (K !! n) = false ->
  exists w' err B' K', py_for move_one (names1 ++ n :: names2) w = (w', inl err) /\
    w_fs w' = <["build" := Dir B']> (<["backup" := Dir K']> (w_fs w)) /\
    (forall m, B' !! m = if decide (m ∈ names1) then None else B !! m) /\
    (forall m, K' !! m = if decide (m ∈ names1)
                         then (fun e => backup_entry m e (K !! m)) <$> B !! m
                         else K !! m).
Proof.
  intros Hnd Hn Hb Hk Hall He Hbad.
  destruct (move_loop_run names1 B K w Hnd Hb Hk Hall) as (w1 & B' & K' & Hrun & Hfs & HB & HK).
  assert (HKn : K' !! n = K !! n) by (rewrite HK; by rewrite decide_False).
  assert (HBn : B' !! n = Some e) by (rewrite HB; by rewrite decide_False).
  rewrite <- HKn in Hbad. destruct (move_into_fail "backup" n e K' Hbad) as [err Herr].
  assert (Hm : move_one n w1 = (w1, inl err)).
  { assert (Hb1 : w_fs w1 !! "build" = Some (Dir B')) by (rewrite Hfs; by simplify_map_eq).
    assert (Hk1 : w_fs w1 !! "backup" = Some (Dir K')) by (rewrite Hfs; by simplify_map_eq).
    by rewrite (move_one_result n e B' K' w1 Hb1 Hk1 HBn), Herr. }
  exists w1, err, B', K'. split; [|done].
  rewrite py_for_app, (py_bind_inr _ _ _ _ _ Hrun). cbn [py_for]. by py_step Hm.
Qed.


(** C15: an entry of the build moved onto a backup entry of the same
    name that is a directory does not replace it: [shutil.move] puts it
    inside, as [backup/n/n]. If [backup/n/n] already exists the move
    raises [shutil.Error] and nothing changes. *)
Theorem move_one_into_dir n e D B K w :
  w_fs w !! "build" = Some (Dir B) -> w_fs w !! "backup" = Some (Dir K) ->
  B !! n = Some e -> K !! n = Some (Dir D) ->
  move_one n w =
    match D !! n with
    | None => (logged ("Moved " +:+ n +:+ " to backup folder.")
                 (set_fs (<["build" := Dir (delete n B)]>
                           (<["backup" := Dir (<[n := Dir (<[n := e]> D)]> K)]> (w_fs w))) w),
               inr tt)
    | Some _ => (w, inl (ShutilError ("Destination path '" +:+ show_path ["backup"; n; n]
                                      +:+ "' already exists")))
    end.
Proof.
  intros Hb Hk Hn Hkn. rewrite (move_one_result n e B K w) by done.
  unfold move_into. rewrite Hkn. by destruct (D !! n).
Qed.

(** C16: a file of the build moved onto a file of the backup with the
    same name replaces it. *)
Theorem move_one_file_over_file n f g B K w :
  w_fs w !! "build" = Some (Dir B) -> w_fs w !! "backup" = Some (Dir K) ->
  B !! n = Some (File f) -> K !! n = Some (File g) ->
  move_one n w =
    (logged ("Moved " +:+ n +:+ " to backup folder.")
       (set_fs (<["build" := Dir (delete n B)]>
                 (<["backup" := Dir (<[n := File f]> K)]> (w_fs w))) w), inr tt).
Proof.
  intros Hb Hk Hn Hkn. rewrite (move_one_result n (File f) B K w) by done.
  unfold move_into. by rewrite Hkn.
Qed.

(** C17: a directory of the build moved onto a file of the backup with
    the same name raises [FileExistsError] (from the [makedirs] of the
    [copytree] fallback) and nothing changes. *)
Theorem move_one_dir_over_file n t g B K w :
  w_fs w !! "build" = Some (Dir B) -> w_fs w !! "backup" = Some (Dir K) ->
  B !! n = Some (Dir t) -> K !! n = Some (File g) ->
  move_one n w = (w, inl (FileExistsError ["backup"; n])).
Proof.
  intros Hb Hk Hn Hkn. rewrite (move_one_result n (Dir t) B K w) by done.
  unfold move_into. by rewrite Hkn.
Qed.

(** ** Extraction and cleanup, lines 50-57 *)

Section Stages.
  Context `{ZipCodec}.

Lemma zipfile_open_ok d body ms :
    d !! "update.zip" = Some (File body) -> zip_decode body = Some ms ->
    zipfile_open ZIP_FILE d = (d, inr ms).
  Proof.
    intros Hz Hd. unfold zipfile_open, ZIP_FILE.
    by py_step (f_equal (fun r => (d, r)) (read_file_top "update.zip" d body Hz)); rewrite Hd.
  Qed.

  (** The archive is extracted into the empty build. [E] is what the
      archive gives when extracted into a tree of its own. *)
Lemma extract_update_run w body ms E :
    w_fs w !! "update.zip" = Some (File body) -> zip_decode body = Some ms ->
    w_fs w !! "build" = Some (Dir ∅) -> extractall [] ms ∅ = (E, inr tt) ->
    extract_update w =
      (logged "Extracted zip contents to 'build'." (set_fs (<["build" := Dir E]> (w_fs w)) w), inr tt).
  Proof.
    intros Hz Hd Hb He. unfold extract_update.
    py_step (on_fs_run _ w _ _ (zipfile_open_ok _ body ms Hz Hd)). rewrite set_fs_same.
    py_step (on_fs_run _ w _ _ (eq_trans (extractall_zoom "build" ms (w_fs w) ∅ Hb)
                                          (f_equal (fun p => let '(t', r) := p in
                                             (<["build" := Dir t']> (w_fs w), sum_map (exn_under "build") id r)) He))).
    done.
  Qed.

(** An archive the codec rejects raises [BadZipFile] and changes nothing. *)
Lemma extract_update_bad w body :
    w_fs w !! "update.zip" = Some (File body) -> zip_decode body = None ->
    extract_update w = (w, inl (BadZipFile "File is not a zip file")).
  Proof.
    intros Hz Hd. unfold extract_update.
    assert (Ho : zipfile_open ZIP_FILE (w_fs w) = (w_fs w, inl (BadZipFile "File is not a zip file"))).
    { unfold zipfile_open, ZIP_FILE.
      py_step (f_equal (fun r => (w_fs w, r)) (read_file_top "update.zip" _ body Hz)). by rewrite Hd. }
    py_step (on_fs_run _ w _ _ Ho). by rewrite set_fs_same.
  Qed.

Lemma cleanup_run w body :
    w_fs w !! "update.zip" = Some (File body) ->
    cleanup w = (logged "Deleted downloaded zip file." (set_fs (delete "update.zip" (w_fs w)) w), inr tt).
  Proof.
    intros Hz. unfold cleanup, ZIP_FILE.
    by py_step (on_fs_do_ok _ w _ (os_remove_top "update.zip" (w_fs w) body Hz)).
  Qed.
End Stages.

(** ** Whole runs *)

Lemma backup_merge_empty_l K : backup_merge ∅ K = K.
Proof. apply map_eq. intros n. by rewrite backup_merge_lookup, lookup_empty. Qed.

(** Lines 34-48 together: the backup exists afterwards, the build is
    empty, and the backup is [backup_merge B K]. A missing build counts
    as an empty one, and a missing backup as an empty one. *)
Lemma backup_stages_run w B K :
  (w_fs w !! "build" = Some (Dir B) \/ w_fs w !! "build" = None /\ B = ∅) ->
  (w_fs w !! "backup" = Some (Dir K) \/ w_fs w !! "backup" = None /\ K = ∅) ->
  movable B K ->
  exists w2 w3, ensure_backup_folder w = (w2, inr tt) /\ backup_build w2 = (w3, inr tt) /\
    w_fs w3 = <["build" := Dir ∅]> (<["backup" := Dir (backup_merge B K)]> (w_fs w)).
Proof.
  intros Hb Hk Hmov. rewrite ensure_backup_folder_run.
  set (w2 := match w_fs w !! "backup" with
             | Some _ => w
             | None => logged "Created 'backup' folder." (set_fs (<["backup" := Dir ∅]> (w_fs w)) w)
             end).
  assert (Hk2 : w_fs w2 !! "backup" = Some (Dir K) /\
                w_fs w2 = <["backup" := Dir K]> (w_fs w)).
  { unfold w2. destruct Hk as [Hk|[Hk ->]]; rewrite Hk; cbn [w_fs logged set_fs].
    - split; [done|]. by rewrite insert_id.
    - by rewrite lookup_insert_eq. }
  destruct Hk2 as [Hk2 Hfs2].
  assert (Hb2 : w_fs w2 !! "build" = w_fs w !! "build") by (rewrite Hfs2; by rewrite lookup_insert_ne).
  destruct Hb as [Hb|[Hb ->]].
  - rewrite Hb in Hb2. destruct (backup_build_existing B K w2 Hb2 Hk2 Hmov) as (w3 & Hrun & Hfs3).
    exists w2, w3. do 2 (split; [by destruct (w_fs w !! "backup")|]).
    rewrite Hfs3, Hfs2. map_by_keys.
  - rewrite Hb in Hb2. eexists w2, _. split; [by destruct (w_fs w !! "backup")|].
    split; [apply (backup_build_first w2 Hb2)|].
    cbn [w_fs logged set_fs]. rewrite Hfs2, backup_merge_empty_l. map_by_keys.
Qed.

Section Runs.
  Context `{ZipCodec}.

  (** The body of the [try] on a successful run. *)
Lemma update_steps_success w u st body drop B K ms E :
    get_response w SERVER_URL = inr (u, st, body, drop) -> ~ (400 <= st < 600)%Z ->
    received_whole body drop ->
    (forall t, w_fs w !! "update.zip" <> Some (Dir t)) ->
    (w_fs w !! "build" = Some (Dir B) \/ w_fs w !! "build" = None /\ B = ∅) ->
    (w_fs w !! "backup" = Some (Dir K) \/ w_fs w !! "backup" = None /\ K = ∅) ->
    movable B K -> zip_decode body = Some ms -> extractall [] ms ∅ = (E, inr tt) ->
    exists w', update_steps w = (w', inr tt) /\
      w_fs w' = <["build" := Dir E]> (<["backup" := Dir (backup_merge B K)]>
                  (delete "update.zip" (w_fs w))) /\
      exists t, last (w_stdout w') = Some (log_line t "✅ Update complete.").
  Proof.
    intros Hs Hst Hwhole Hzip Hb Hk Hmov Hdec Hext.
    set (w1 := logged "ZIP file downloaded."
                 (set_fs (<["update.zip" := File body]> (w_fs w)) (w_requested w))).
    assert (Hfs1 : w_fs w1 = <["update.zip" := File body]> (w_fs w)) by done.
    destruct (backup_stages_run w1 B K) as (w2 & w3 & E2 & E3 & Hfs3);
      [by rewrite Hfs1, lookup_insert_ne..|done|].
    assert (Hz3 : w_fs w3 !! "update.zip" = Some (File body)) by (rewrite Hfs3, Hfs1; by simplify_map_eq).
    assert (Hb3 : w_fs w3 !! "build" = Some (Dir ∅)) by (rewrite Hfs3; by simplify_map_eq).
    eexists. split; [|split].
    - unfold update_steps.
      py_step (download_whole w u st body drop Hs Hst Hwhole Hzip).
      py_step E2. py_step E3. py_step (extract_update_run w3 body ms E Hz3 Hdec Hb3 Hext).
      py_step (cleanup_run (logged "Extracted zip contents to 'build'."
                              (set_fs (<["build" := Dir E]> (w_fs w3)) w3)) body
                 ltac:(cbn [w_fs logged set_fs]; by rewrite lookup_insert_ne)).
      apply log_run.
    - cbn [w_fs logged set_fs]. rewrite Hfs3, Hfs1. map_by_keys.
    - cbn [w_stdout logged]. eexists. apply last_snoc.
  Qed.
  (** C1: a successful run. When the server sends a whole archive with
      a status below 400, every entry of the build can be moved into
      the backup, and the archive extracts without error, the script
      prints "Update complete" last. The build then holds exactly what
      the archive gives when extracted into an empty directory. The
      backup holds [backup_merge] of the old build and old backup.
      [update.zip] is gone, and every other name is as before. A
      missing build counts as an empty one (the first run), and so does
      a missing backup. *)
Theorem main_success w u st body drop B K ms E :
    get_response w SERVER_URL = inr (u, st, body, drop) -> ~ (400 <= st < 600)%Z ->
    received_whole body drop ->
    (forall t, w_fs w !! "update.zip" <> Some (Dir t)) ->
    (w_fs w !! "build" = Some (Dir B) \/ w_fs w !! "build" = None /\ B = ∅) ->
    (w_fs w !! "backup" = Some (Dir K) \/ w_fs w !! "backup" = None /\ K = ∅) ->
    movable B K -> zip_decode body = Some ms -> extractall [] ms ∅ = (E, inr tt) ->
    exists w', main w = (w', inr tt) /\
      w_fs w' = <["build" := Dir E]> (<["backup" := Dir (backup_merge B K)]>
                  (delete "update.zip" (w_fs w))) /\
      exists t, last (w_stdout w') = Some (log_line t "✅ Update complete.").
  Proof.
    intros Hs Hst Hwhole Hzip Hb Hk Hmov Hdec Hext.
    destruct (update_steps_success w u st body drop B K ms E Hs Hst Hwhole Hzip Hb Hk Hmov Hdec Hext)
      as (w' & Hu & Hrest).
    exists w'. split; [unfold main; by apply py_try_inr|done].
  Qed.
End Runs.

(** An [update.zip] that is a directory makes [open] raise. *)
Lemma download_zip_dir w u st body drop t :
  get_response w SERVER_URL = inr (u, st, body, drop) -> ~ (400 <= st < 600)%Z ->
  w_fs w !! "update.zip" = Some (Dir t) ->
  download w = (w_requested w, inl (IsADirectoryError ZIP_FILE)).
Proof.
  intros Hs Hst Hz. unfold download.
  py_step (log_run "Downloading zip file..." w).
  py_step (requests_get_run (w_requested w) u st body drop Hs). cbn beta iota.
  py_step (f_equal (fun r => (w_requested w, r)) (raise_for_status_ok u st Hst)).
  unfold write_stream. destruct (delivered CHUNK_SIZE body drop).
  assert (Ho : open_wb ZIP_FILE (w_fs (w_requested w)) = inl (IsADirectoryError ZIP_FILE)).
  { unfold open_wb, ZIP_FILE. rewrite lookup_path_top. cbn [w_fs w_requested logged]. by rewrite Hz. }
  by rewrite (py_bind_assoc _ _ _ (w_requested w)), (py_bind_inl _ _ _ _ _ (on_fs_do_err _ _ _ Ho)).
Qed.

(** A download that succeeds got a final response with a status below
    400, received its body whole, and saved it as [update.zip]. *)
Lemma download_ok_spec w w' :
  download w = (w', inr tt) ->
  exists u st body drop, get_response w SERVER_URL = inr (u, st, body, drop) /\
    ~ (400 <= st < 600)%Z /\ received_whole body drop /\
    w' = logged "ZIP file downloaded." (set_fs (<["update.zip" := File body]> (w_fs w)) (w_requested w)).
Proof.
  intros Hd. destruct (get_response w SERVER_URL) as [e|[[[u st] body] drop]] eqn:Hs.
  { by rewrite (download_no_response w e Hs) in Hd. }
  destruct (decide (400 <= st < 600)%Z) as [Herr|Hok].
  { by rewrite (download_http_error w u st body drop Hs Herr) in Hd. }
  assert (Hnd : forall t, w_fs w !! "update.zip" <> Some (Dir t)).
  { intros t Ht. by rewrite (download_zip_dir w u st body drop t Hs Hok Ht) in Hd. }
  assert (Hwhole : received_whole body drop).
  { destruct drop as [k|]; [|done]. cbn.
    destruct (decide (length (iter_content CHUNK_SIZE body) <= k)) as [|Hk]; [done|].
    by rewrite (download_broken w u st body k Hs Hok ltac:(lia) Hnd) in Hd. }
  rewrite (download_whole w u st body drop Hs Hok Hwhole Hnd) in Hd. injection Hd as <-.
  by exists u, st, body, drop.
Qed.

(** ** Every run *)

(** The last line printed by a run that failed with [e]. *)
Definition ends_with_error (w' : World) (e : exn) : Prop :=
    exists t, last (w_stdout w') = Some (log_line t ("❌ ERROR: " +:+ exn_str e)).

Lemma logged_error_last w e : ends_with_error (logged ("❌ ERROR: " +:+ exn_str e) w) e.
  Proof. eexists. apply last_snoc. Qed.

Lemma cleanup_ok_inv w w' : cleanup w = (w', inr tt) -> w_fs w' !! "update.zip" = None.
Proof.
  unfold cleanup, ZIP_FILE. intros H. py_inv H. destruct a.
  apply on_fs_do_inv in Hm as (d' & Hd & ->). rewrite log_run in H. injection H; intros <-.
  cbn. apply os_remove_top_inv in Hd as ->. apply lookup_delete_eq.
Qed.

Section Every.
  Context `{ZipCodec}.

  (** A body of the [try] that completes has removed the archive and
      then printed the success line. *)
Lemma update_steps_ok_inv w w' :
    update_steps w = (w', inr tt) ->
    exists w4 w5, cleanup w4 = (w5, inr tt) /\ w' = logged "✅ Update complete." w5.
  Proof.
    unfold update_steps. intros Hu. do 5 py_inv Hu. rewrite log_run in Hu. injection Hu; intros <-.
    match goal with Hc : cleanup _ = (_, inr ?u) |- _ => destruct u; eauto end.
  Qed.

  (** C8: whenever the body of the [try] completes, [update.zip] is
      gone from the working directory, whatever the server, the archive
      and the tree were. *)
Theorem update_steps_no_archive w w' :
    update_steps w = (w', inr tt) -> w_fs w' !! "update.zip" = None.
  Proof.
    intros Hu. destruct (update_steps_ok_inv w w' Hu) as (w4 & w5 & Hc & ->).
    exact (cleanup_ok_inv w4 w5 Hc).
  Qed.
End Every.

Section Failures.
  Context `{ZipCodec}.

Lemma main_after_download_error w w1 e :
    download w = (w1, inl e) -> main w = (logged ("❌ ERROR: " +:+ exn_str e) w1, inr tt).
  Proof.
    intros Hd. unfold main. rewrite (py_try_inl _ _ _ w1 e); [apply log_run|].
    unfold update_steps. by py_step Hd.
  Qed.

  (** C3: a refused connection, a chain of more than 30 redirects, or
      a 4xx/5xx status ends the run before any file is touched: the tree
      is exactly as before and the error is printed last. *)
Theorem main_fetch_fails w e :
    get_response w SERVER_URL = inl e \/
    (exists u st body drop, get_response w SERVER_URL = inr (u, st, body, drop) /\
                            (400 <= st < 600)%Z /\ e = HTTPError st u) ->
    exists w', main w = (w', inr tt) /\ w_fs w' = w_fs w /\ ends_with_error w' e.
  Proof.
    intros Hf. exists (logged ("❌ ERROR: " +:+ exn_str e) (w_requested w)).
    split; [|split; [done|apply logged_error_last]].
    apply main_after_download_error. destruct Hf as [Hs|(u & st & body & drop & Hs & Hst & ->)].
    - by apply download_no_response.
    - by apply (download_http_error w u st body drop).
  Qed.

  (** C4: a connection that breaks after [k] of the chunks leaves a
      truncated [update.zip], a strict prefix of the body, on disk,
      and nothing else changes. *)
Theorem main_stream_broken w u st body k :
    get_response w SERVER_URL = inr (u, st, body, Some k) -> ~ (400 <= st < 600)%Z ->
    k < length (iter_content CHUNK_SIZE body) ->
    (forall t, w_fs w !! "update.zip" <> Some (Dir t)) ->
    exists w' part, main w = (w', inr tt) /\
      w_fs w' = <["update.zip" := File part]> (w_fs w) /\
      part `prefix_of` body /\ length part < length body /\
      ends_with_error w' ChunkedEncodingError.
  Proof.
    intros Hs Hst Hk Hz.
    set (part := mjoin (take k (iter_content CHUNK_SIZE body))).
    exists (logged ("❌ ERROR: " +:+ exn_str ChunkedEncodingError)
              (set_fs (<["update.zip" := File part]> (w_fs w)) (w_requested w))), part. split.
    { apply main_after_download_error. by apply (download_broken w u st body k). }
    split; [done|]. split; [|split; [|apply logged_error_last]];
      apply (iter_content_take_prefix CHUNK_SIZE body k CHUNK_SIZE_pos Hk).
  Qed.

  (** C7: when [update.zip] is a directory, [open(ZIP_FILE, "wb")]
      raises [IsADirectoryError] once the request has succeeded: the
      run ends with the tree unchanged and the error printed last. *)
Theorem main_zip_is_dir w u st body drop t :
    get_response w SERVER_URL = inr (u, st, body, drop) -> ~ (400 <= st < 600)%Z ->
    w_fs w !! "update.zip" = Some (Dir t) ->
    exists w', main w = (w', inr tt) /\ w_fs w' = w_fs w /\ ends_with_error w' (IsADirectoryError ZIP_FILE).
  Proof.
    intros Hs Hst Hz. eexists. split.
    - apply main_after_download_error. by apply (download_zip_dir w u st body drop t).
    - split; [done|apply logged_error_last].
  Qed.

  (** The run up to the extraction, on a whole archive with a good
      status and a build that can be moved: what [update_steps] has left
      to do, and the tree it does it on. *)
Lemma update_steps_at_extract w u st body drop B K :
    get_response w SERVER_URL = inr (u, st, body, drop) -> ~ (400 <= st < 600)%Z ->
    received_whole body drop ->
    (forall t, w_fs w !! "update.zip" <> Some (Dir t)) ->
    (w_fs w !! "build" = Some (Dir B) \/ w_fs w !! "build" = None /\ B = ∅) ->
    (w_fs w !! "backup" = Some (Dir K) \/ w_fs w !! "backup" = None /\ K = ∅) ->
    movable B K ->
    exists w3, w_fs w3 = <["build" := Dir ∅]> (<["backup" := Dir (backup_merge B K)]>
                            (<["update.zip" := File body]> (w_fs w))) /\
      update_steps w = (let* _ := extract_update in let* _ := cleanup in log "✅ Update complete.") w3.
  Proof.
    intros Hs Hst Hwhole Hzip Hb Hk Hmov.
    set (w1 := logged "ZIP file downloaded."
                 (set_fs (<["update.zip" := File body]> (w_fs w)) (w_requested w))).
    destruct (backup_stages_run w1 B K) as (w2 & w3 & E2 & E3 & Hfs3);
      [by cbn; rewrite lookup_insert_ne..|done|].
    exists w3. split; [done|]. unfold update_steps.
    py_step (download_whole w u st body drop Hs Hst Hwhole Hzip). py_step E2. by py_step E3.
  Qed.

Lemma extract_update_fail w body ms E e :
    w_fs w !! "update.zip" = Some (File body) -> zip_decode body = Some ms ->
    w_fs w !! "build" = Some (Dir ∅) -> extractall [] ms ∅ = (E, inl e) ->
    extract_update w = (set_fs (<["build" := Dir E]> (w_fs w)) w, inl (exn_under "build" e)).
  Proof.
    intros Hz Hd Hb He. unfold extract_update.
    py_step (on_fs_run _ w _ _ (zipfile_open_ok _ body ms Hz Hd)). rewrite set_fs_same.
    py_step (on_fs_run _ w _ _ (eq_trans (extractall_zoom "build" ms (w_fs w) ∅ Hb)
                                          (f_equal (fun p => let '(t', r) := p in
                                             (<["build" := Dir t']> (w_fs w), sum_map (exn_under "build") id r)) He))).
    done.
  Qed.

  (** C5: an archive the codec rejects (any status below 400 with a body
      that is not a ZIP file, such as an empty 204 reply) fails after
      the backup. The build is then left empty, the old build is in the
      backup, and [update.zip] stays. *)
Theorem main_bad_archive w u st body drop B K :
    get_response w SERVER_URL = inr (u, st, body, drop) -> ~ (400 <= st < 600)%Z ->
    received_whole body drop ->
    (forall t, w_fs w !! "update.zip" <> Some (Dir t)) ->
    (w_fs w !! "build" = Some (Dir B) \/ w_fs w !! "build" = None /\ B = ∅) ->
    (w_fs w !! "backup" = Some (Dir K) \/ w_fs w !! "backup" = None /\ K = ∅) ->
    movable B K -> zip_decode body = None ->
    exists w', main w = (w', inr tt) /\
      w_fs w' = <["build" := Dir ∅]> (<["backup" := Dir (backup_merge B K)]>
                  (<["update.zip" := File body]> (w_fs w))) /\
      ends_with_error w' (BadZipFile "File is not a zip file").
  Proof.
    intros Hs Hst Hwhole Hzip Hb Hk Hmov Hdec.
    destruct (update_steps_at_extract w u st body drop B K Hs Hst Hwhole Hzip Hb Hk Hmov)
      as (w3 & Hfs3 & Hu).
    assert (Hz3 : w_fs w3 !! "update.zip" = Some (File body)) by (rewrite Hfs3; by simplify_map_eq).
    rewrite (py_bind_inl _ _ _ _ _ (extract_update_bad w3 body Hz3 Hdec)) in Hu.
    eexists. split; [unfold main; rewrite (py_try_inl _ _ _ _ _ Hu); apply log_run|].
    split; [|apply logged_error_last]. cbn [w_fs logged]. by rewrite Hfs3.
  Qed.

  (** C6: an archive that opens but whose extraction fails (a member
      with a bad CRC, a member whose path is taken by a file) ends the
      run at that member. The build holds what the extraction wrote
      before it stopped, the old build is in the backup, [update.zip]
      stays, and the error, naming its path under [build/], is printed
      last. *)
Theorem main_extract_fails w u st body drop B K ms E e :
    get_response w SERVER_URL = inr (u, st, body, drop) -> ~ (400 <= st < 600)%Z ->
    received_whole body drop ->
    (forall t, w_fs w !! "update.zip" <> Some (Dir t)) ->
    (w_fs w !! "build" = Some (Dir B) \/ w_fs w !! "build" = None /\ B = ∅) ->
    (w_fs w !! "backup" = Some (Dir K) \/ w_fs w !! "backup" = None /\ K = ∅) ->
    movable B K -> zip_decode body = Some ms -> extractall [] ms ∅ = (E, inl e) ->
    exists w', main w = (w', inr tt) /\
      w_fs w' = <["build" := Dir E]> (<["backup" := Dir (backup_merge B K)]>
                  (<["update.zip" := File body]> (w_fs w))) /\
      ends_with_error w' (exn_under "build" e).
  Proof.
    intros Hs Hst Hwhole Hzip Hb Hk Hmov Hdec Hext.
    destruct (update_steps_at_extract w u st body drop B K Hs Hst Hwhole Hzip Hb Hk Hmov)
      as (w3 & Hfs3 & Hu).
    assert (Hz3 : w_fs w3 !! "update.zip" = Some (File body)) by (rewrite Hfs3; by simplify_map_eq).
    assert (Hb3 : w_fs w3 !! "build" = Some (Dir ∅)) by (rewrite Hfs3; by simplify_map_eq).
    rewrite (py_bind_inl _ _ _ _ _ (extract_update_fail w3 body ms E e Hz3 Hdec Hb3 Hext)) in Hu.
    eexists. split; [unfold main; rewrite (py_try_inl _ _ _ _ _ Hu); apply log_run|].
    split; [|apply logged_error_last]. cbn [w_fs logged set_fs]. rewrite Hfs3. map_by_keys.
  Qed.

  (** C2: the build and the backup are touched only after the whole
      archive has arrived with a status below 400. Whatever the server
      does, a run in which either of them changed received that. *)
Theorem main_no_early_mutation w :
    w_fs (fst (main w)) !! "build" <> w_fs w !! "build" \/
    w_fs (fst (main w)) !! "backup" <> w_fs w !! "backup" ->
    exists u st body drop, get_response w SERVER_URL = inr (u, st, body, drop) /\
      ~ (400 <= st < 600)%Z /\ received_whole body drop.
  Proof.
    intros Hch.
    assert (Hsame : forall w', main w = (w', inr tt) ->
                    (forall x, x <> "update.zip" -> w_fs w' !! x = w_fs w !! x) -> False).
    { intros w' Hm Hx. rewrite Hm in Hch. cbn [fst] in Hch.
      by destruct Hch as [Hc|Hc]; apply Hc, Hx. }
    destruct (get_response w SERVER_URL) as [e|[[[u st] body] drop]] eqn:Hs.
    { destruct (Hsame _ (main_after_download_error _ _ _ (download_no_response w e Hs))).
      intros x _. done. }
    destruct (decide (400 <= st < 600)%Z) as [Herr|Hok].
    { destruct (Hsame _ (main_after_download_error _ _ _ (download_http_error w u st body drop Hs Herr))).
      intros x _. done. }
    exists u, st, body, drop. do 2 (split; [done|]).
    destruct drop as [k|]; [|done]. cbn.
    destruct (decide (length (iter_content CHUNK_SIZE body) <= k)) as [|Hk]; [done|exfalso].
    destruct (w_fs w !! "update.zip") as [[f|t]|] eqn:Hz.
    2: { apply (Hsame _ (main_after_download_error _ _ _ (download_zip_dir w u st body (Some k) t Hs Hok Hz))).
         done. }
    all: apply (Hsame _ (main_after_download_error _ _ _
                  (download_broken w u st body k Hs Hok ltac:(lia) ltac:(by rewrite Hz))));
         intros x Hx; cbn [w_fs logged set_fs]; by rewrite lookup_insert_ne.
  Qed.
End Failures.

(** ** Concrete runs

    A codec for the examples: the one-byte file [01] is an archive with
    a file [c] and a file [sub/d]; every other file is not an archive. *)

Definition ex_members : list zipinfo :=
  [mkZipInfo "c" [Byte.x07] 0x4c667a2e%Z; mkZipInfo "sub/d" [] 0%Z].

Definition ex_codec : ZipCodec :=
  {| zip_decode b := match b with [Byte.x01] => Some ex_members | _ => None end |}.

Definition ex_clock (n : nat) : datetime := mkDatetime 2026 11 9 10 0 (N.of_nat n).

Definition ex_world (rep : reply) (d : dir) : World := mkWorld d [] (fun _ => rep) ex_clock 0.

(** A build with a file [a] and a directory [lib]. *)
Definition ex_build : dir := <["a" := File [Byte.x03]]> {["lib" := Dir ∅]}.

Definition ex_root : dir := {["build" := Dir ex_build]}.

(** What the archive gives in an empty directory. *)
Definition ex_extracted : dir := <["c" := File [Byte.x07]]> {["sub" := Dir {["d" := File []]}]}.

Lemma main_success_witness :
  exists w', @main ex_codec (ex_world (Reply 200 [Byte.x01] None) ex_root) = (w', inr tt) /\
    w_fs w' = <["build" := Dir ex_extracted]> (<["backup" := Dir (backup_merge ex_build ∅)]>
                (delete "update.zip" ex_root)) /\
    exists t, last (w_stdout w') = Some (log_line t "✅ Update complete.").
Proof.
  apply (@main_success ex_codec (ex_world (Reply 200 [Byte.x01] None) ex_root) SERVER_URL
           200 [Byte.x01] None ex_build ∅ ex_members ex_extracted).
  - reflexivity.
  - lia.
  - exact I.
  - intros t. vm_compute. discriminate.
  - left. reflexivity.
  - right. split; reflexivity.
  - apply (bool_decide_unpack _). vm_compute. reflexivity.
  - reflexivity.
  - vm_compute. reflexivity.
Defined.

Lemma main_no_early_mutation_witness :
  exists u st body drop, get_response (ex_world (Reply 200 [Byte.x01] None) ∅) SERVER_URL = inr (u, st, body, drop) /\
    ~ (400 <= st < 600)%Z /\ received_whole body drop.
Proof.
  apply (@main_no_early_mutation ex_codec (ex_world (Reply 200 [Byte.x01] None) ∅)).
  left. vm_compute. discriminate.
Defined.

(** A server whose URL redirects to itself: the 31st redirect raises. *)
Lemma main_fetch_fails_witness :
  exists w', @main ex_codec (ex_world (Redirect 302 SERVER_URL) ex_root) = (w', inr tt) /\
    w_fs w' = ex_root /\ ends_with_error w' TooManyRedirects.
Proof.
  apply (@main_fetch_fails ex_codec (ex_world (Redirect 302 SERVER_URL) ex_root)).
  left. vm_compute. reflexivity.
Defined.

(** A body of one chunk and one byte, cut after the first chunk. *)
Definition ex_long_body : list Byte.byte := repeat Byte.x01 8193.

Lemma main_stream_broken_witness :
  exists w' part, @main ex_codec (ex_world (Reply 200 ex_long_body (Some 1)) ex_root) = (w', inr tt) /\
    w_fs w' = <["update.zip" := File part]> ex_root /\
    part `prefix_of` ex_long_body /\ length part < length ex_long_body /\
    ends_with_error w' ChunkedEncodingError.
Proof.
  apply (@main_stream_broken ex_codec (ex_world (Reply 200 ex_long_body (Some 1)) ex_root) SERVER_URL 200 ex_long_body 1).
  - reflexivity.
  - lia.
  - apply Nat.ltb_lt. vm_compute. reflexivity.
  - intros t. vm_compute. discriminate.
Defined.

(** An empty 204 reply passes [raise_for_status]: the build is emptied
    into the backup, then the archive is rejected. *)
Lemma main_bad_archive_witness :
  exists w', @main ex_codec (ex_world (Reply 204 [] None) ex_root) = (w', inr tt) /\
    w_fs w' = <["build" := Dir ∅]> (<["backup" := Dir (backup_merge ex_build ∅)]>
                (<["update.zip" := File []]> ex_root)) /\
    ends_with_error w' (BadZipFile "File is not a zip file").
Proof.
  apply (@main_bad_archive ex_codec (ex_world (Reply 204 [] None) ex_root) SERVER_URL 204 [] None ex_build ∅).
  - reflexivity.
  - lia.
  - exact I.
  - intros t. vm_compute. discriminate.
  - left. reflexivity.
  - right. split; reflexivity.
  - apply (bool_decide_unpack _). vm_compute. reflexivity.
  - reflexivity.
Defined.

(** The backup loop over the names in the reverse of the map's order. *)
Lemma backup_loop_any_order_witness :
  exists w', py_for move_one ["lib"; "a"]
               (ex_world NoConnection (<["backup" := Dir ∅]> ex_root)) = (w', inr tt) /\
    w_fs w' = <["build" := Dir ∅]> (<["backup" := Dir (backup_merge ex_build ∅)]>
                (<["backup" := Dir ∅]> ex_root)).
Proof.
  apply backup_loop_any_order.
  - apply (bool_decide_unpack _). vm_compute. reflexivity.
  - intros n. unfold ex_build. rewrite lookup_insert, lookup_singleton.
    split.
    + intros Hn. repeat case_decide; [eauto|eauto|exfalso; set_solver].
    + repeat case_decide; subst; intros [? ?]; try discriminate; set_solver.
  - reflexivity.
  - reflexivity.
  - apply (bool_decide_unpack _). vm_compute. reflexivity.
Defined.

Lemma write_stream_whole_witness :
  write_stream ZIP_FILE ex_long_body None (ex_world NoConnection ex_root) =
    (set_fs (<["update.zip" := File ex_long_body]> ex_root) (ex_world NoConnection ex_root), inr tt).
Proof.
  apply (write_stream_whole ex_long_body None (ex_world NoConnection ex_root)).
  - exact I.
  - intros t. vm_compute. discriminate.
Defined.

(** A backup that already holds [a] and [lib]. *)
Definition ex_backup : dir := <["a" := File [Byte.x02]]> {["lib" := Dir ∅]}.

Definition ex_both : dir := <["backup" := Dir ex_backup]> ex_root.

Lemma move_one_into_dir_witness :
  move_one "lib" (ex_world NoConnection ex_both) =
    (logged "Moved lib to backup folder."
       (set_fs (<["build" := Dir (delete "lib" ex_build)]>
                 (<["backup" := Dir (<["lib" := Dir {["lib" := Dir ∅]}]> ex_backup)]> ex_both))
          (ex_world NoConnection ex_both)), inr tt).
Proof.
  rewrite (move_one_into_dir "lib" (Dir ∅) ∅ ex_build ex_backup); reflexivity.
Defined.

Lemma move_one_file_over_file_witness :
  move_one "a" (ex_world NoConnection ex_both) =
    (logged "Moved a to backup folder."
       (set_fs (<["build" := Dir (delete "a" ex_build)]>
                 (<["backup" := Dir (<["a" := File [Byte.x03]]> ex_backup)]> ex_both))
          (ex_world NoConnection ex_both)), inr tt).
Proof. apply (move_one_file_over_file "a" [Byte.x03] [Byte.x02] ex_build ex_backup); reflexivity. Defined.

Lemma move_one_dir_over_file_witness :
  move_one "lib" (ex_world NoConnection (<["backup" := Dir {["lib" := File []]}]> ex_root)) =
    (ex_world NoConnection (<["backup" := Dir {["lib" := File []]}]> ex_root),
     inl (FileExistsError ["backup"; "lib"])).
Proof. apply (move_one_dir_over_file "lib" ∅ [] ex_build {["lib" := File []]}); reflexivity. Defined.

(** An archive whose only member is named ["../evil"]. *)
Definition ex_escape_codec : ZipCodec :=
  {| zip_decode _ := Some [mkZipInfo "../evil" [Byte.x01] 0xa505df1b%Z] |}.

Lemma update_steps_no_archive_witness :
  w_fs (@update_steps ex_codec (ex_world (Reply 200 [Byte.x01] None) ex_root)).1 !! "update.zip" = None.
Proof.
  apply (@update_steps_no_archive ex_codec (ex_world (Reply 200 [Byte.x01] None) ex_root)
           (@update_steps ex_codec (ex_world (Reply 200 [Byte.x01] None) ex_root)).1).
  vm_compute. reflexivity.
Defined.

(** The build's directory [lib] cannot replace the backup's file [lib]:
    the loop moves [a], then stops. *)
Lemma backup_loop_stops_witness :
  exists w' err B' K',
    py_for move_one (["a"] ++ ["lib"]) (ex_world NoConnection (<["backup" := Dir {["lib" := File []]}]> ex_root))
      = (w', inl err) /\
    w_fs w' = <["build" := Dir B']> (<["backup" := Dir K']> (<["backup" := Dir {["lib" := File []]}]> ex_root)) /\
    (forall m, B' !! m = if decide (m ∈ ["a"]) then None else ex_build !! m) /\
    (forall m, K' !! m = if decide (m ∈ ["a"])
                         then (fun e => backup_entry m e (({["lib" := File []]} : dir) !! m)) <$> ex_build !! m
                         else ({["lib" := File []]} : dir) !! m).
Proof.
  refine (backup_loop_stops ["a"] "lib" [] (Dir ∅) ex_build {["lib" := File []]}
           (ex_world NoConnection (<["backup" := Dir {["lib" := File []]}]> ex_root)) _ _ _ _ _ _ _).
  - apply NoDup_singleton.
  - apply (bool_decide_unpack _). vm_compute. reflexivity.
  - reflexivity.
  - reflexivity.
  - constructor; [|constructor]. eexists. split; reflexivity.
  - reflexivity.
  - reflexivity.
Defined.

Lemma main_zip_is_dir_witness :
  exists w', @main ex_codec (ex_world (Reply 200 [] None) (<["update.zip" := Dir ∅]> ex_root)) = (w', inr tt) /\
    w_fs w' = w_fs (ex_world (Reply 200 [] None) (<["update.zip" := Dir ∅]> ex_root)) /\
    ends_with_error w' (IsADirectoryError ZIP_FILE).
Proof.
  apply (@main_zip_is_dir ex_codec _ SERVER_URL 200 [] None ∅); [reflexivity|lia|reflexivity].
Defined.

(** An archive whose second member [d] carries a wrong CRC. *)
Definition ex_badcrc_codec : ZipCodec :=
  {| zip_decode b := match b with
                     | [Byte.x01] => Some [mkZipInfo "c" [Byte.x07] 0x4c667a2e%Z; mkZipInfo "d" [Byte.x05] 0%Z]
                     | _ => None
                     end |}.

(** [c] is extracted, [d] is created and left empty, and the run
    prints the [BadZipFile] of [d]. *)
Lemma main_extract_fails_witness :
  exists w', @main ex_badcrc_codec (ex_world (Reply 200 [Byte.x01] None) ex_root) = (w', inr tt) /\
    w_fs w' = <["build" := Dir (<["d" := File []]> {["c" := File [Byte.x07]]})]>
                (<["backup" := Dir (backup_merge ex_build ∅)]>
                  (<["update.zip" := File [Byte.x01]]> ex_root)) /\
    ends_with_error w' (exn_under "build" (BadZipFile "Bad CRC-32 for file 'd'")).
Proof.
  apply (@main_extract_fails ex_badcrc_codec (ex_world (Reply 200 [Byte.x01] None) ex_root) SERVER_URL 200 [Byte.x01] None
           ex_build ∅ [mkZipInfo "c" [Byte.x07] 0x4c667a2e%Z; mkZipInfo "d" [Byte.x05] 0%Z]);
    [reflexivity|lia|exact I|intros t; discriminate|left; reflexivity|right; split; reflexivity
    |apply (bool_decide_unpack _); vm_compute; reflexivity|reflexivity|vm_compute; reflexivity].
Defined.
