(* ===== verification/Trace.v ===== *)
(** * The printed log of a run

    The only output of [src/printerAgent.py] is the lines [log] prints.
    [log_lines] is the text of a list of messages printed from the
    [r]-th reading of the clock on, and [prints w w' msgs] says that
    going from [w] to [w'] printed exactly [msgs], one clock reading
    each, and changed nothing of the world but the tree. The main
    theorem gives the whole log of every successful run. *)

From S2P Require Import Prelude PyStr FS Net Zip Logger Agent.

(** ** Definitions *)

Fixpoint log_lines (clk : nat -> datetime) (r : nat) (msgs : list string) : list string :=
  match msgs with
  | [] => []
  | m :: ms => log_line (clk r) m :: log_lines clk (S r) ms
  end.

Definition prints (w w' : World) (msgs : list string) : Prop :=
  w_stdout w' = w_stdout w ++ log_lines (w_clock w) (w_reads w) msgs /\
  w_reads w' = w_reads w + length msgs /\
  w_clock w' = w_clock w /\ w_server w' = w_server w.

(** The message of line 45. *)
Definition moved_msg (filename : string) : string := "Moved " +:+ filename +:+ " to backup folder.".

(** The messages of each stage of a successful run from the tree [d]. *)
Definition download_msgs : list string := ["Downloading zip file..."; "ZIP file downloaded."].

Definition backup_folder_msgs (d : dir) : list string :=
  match d !! "backup" with Some _ => [] | None => ["Created 'backup' folder."] end.

Definition build_msgs (d : dir) : list string :=
  match d !! "build" with
  | Some (Dir B) => map moved_msg (map_to_list B).*1
  | Some (File _) => []
  | None => ["Created 'build' folder."]
  end.

Definition tail_msgs : list string :=
  ["Extracted zip contents to 'build'."; "Deleted downloaded zip file."; "✅ Update complete."].

(** The messages of a successful run from the tree [d], in order. *)
Definition success_msgs (d : dir) : list string :=
  download_msgs ++ backup_folder_msgs d ++ build_msgs d ++ tail_msgs.

(** ** The algebra of [prints] *)

Lemma log_lines_app clk r m1 m2 :
  log_lines clk r (m1 ++ m2) = log_lines clk r m1 ++ log_lines clk (r + length m1) m2.
Proof.
  revert r. induction m1 as [|m m1 IH]; intros r; cbn; [by rewrite Nat.add_0_r|].
  by rewrite IH, Nat.add_succ_r.
Qed.

Lemma prints_refl w : prints w w [].
Proof. unfold prints. cbn. by rewrite app_nil_r, Nat.add_0_r. Qed.

Lemma prints_set_fs w d : prints w (set_fs d w) [].
Proof. unfold prints. cbn. by rewrite app_nil_r, Nat.add_0_r. Qed.

Lemma prints_logged w m : prints w (logged m w) [m].
Proof. unfold prints. cbn. by rewrite Nat.add_1_r. Qed.

Lemma prints_trans w1 w2 w3 m1 m2 :
  prints w1 w2 m1 -> prints w2 w3 m2 -> prints w1 w3 (m1 ++ m2).
Proof.
  intros (Ho1 & Hr1 & Hc1 & Hs1) (Ho2 & Hr2 & Hc2 & Hs2). unfold prints.
  rewrite Ho2, Ho1, Hr2, Hr1, Hc2, Hc1, Hs2, Hs1, log_lines_app, length_app, <- app_assoc.
  split; [done|]. split; [lia|done].
Qed.

(** A statement that prints [m1] then [m2], written either way. *)
Lemma prints_trans' w1 w2 w3 m1 m2 m :
  prints w1 w2 m1 -> prints w2 w3 m2 -> m = m1 ++ m2 -> prints w1 w3 m.
Proof. intros H1 H2 ->. by eapply prints_trans. Qed.

#[export] Hint Resolve prints_refl prints_set_fs prints_logged : pyagent.

(** Chain the steps of a world built by [logged] and [set_fs]. *)
Ltac prints_step :=
  first [ apply prints_refl | apply prints_set_fs | apply prints_logged
        | eapply prints_trans'; [ | first [ apply prints_logged | apply prints_set_fs ] | ] ].

Ltac prints_chain := repeat prints_step; try reflexivity.

(** ** What each stage prints when it succeeds *)

Lemma on_fs_inv {A} (m : PyM dir A) w w' r : on_fs m w = (w', r) -> exists d, w' = set_fs d w.
Proof. unfold on_fs. destruct (m (w_fs w)). intros H. inversion H. eauto. Qed.

(** A download that succeeds received the whole body with a status
    below 400 and saved it. *)
Lemma download_ok_inv w w' :
  download w = (w', inr tt) ->
  exists body, w' = logged "ZIP file downloaded."
                      (set_fs (<["update.zip" := File body]> (w_fs w)) (w_requested w)).
Proof. intros Hd. destruct (download_ok_spec w w' Hd) as (u & st & body & drop & _ & _ & _ & ->). eauto. Qed.

Lemma move_one_prints n w w' : move_one n w = (w', inr tt) -> prints w w' [moved_msg n].
Proof.
  unfold move_one. intros H. py_inv H. destruct a.
  apply on_fs_do_inv in Hm as (d & _ & ->). rewrite log_run in H. injection H; intros <-. prints_chain.
Qed.

(** A failing move prints nothing. *)
Lemma move_one_fail_prints n w w' e : move_one n w = (w', inl e) -> prints w w' [].
Proof.
  unfold move_one. intros H. apply py_bind_inl_inv in H as [H|(w1 & [] & _ & H)].
  - apply on_fs_inv in H as [d ->]. prints_chain.
  - by rewrite log_run in H.
Qed.

Lemma move_loop_prints names w w' :
  py_for move_one names w = (w', inr tt) -> prints w w' (map moved_msg names).
Proof.
  revert w. induction names as [|n names IH]; intros w H.
  - injection H; intros <-. apply prints_refl.
  - cbn [py_for] in H. py_inv H. destruct a.
    eapply prints_trans'; [apply move_one_prints, Hm|apply IH, H|done].
Qed.

(** A loop that fails printed the moves of the names before the
    failing one. *)
Lemma move_loop_fail_prints names w w' e :
  py_for move_one names w = (w', inl e) ->
  exists j, j < length names /\ prints w w' (map moved_msg (take j names)).
Proof.
  revert w. induction names as [|n names IH]; intros w H; [discriminate|].
  cbn [py_for] in H. apply py_bind_inl_inv in H as [H|(w1 & [] & Hm & H)].
  - exists 0. split; [cbn; lia|]. by eapply move_one_fail_prints.
  - destruct (IH w1 H) as (j & Hj & Hp). exists (S j). split; [cbn; lia|].
    eapply prints_trans'; [apply move_one_prints, Hm|exact Hp|done].
Qed.

Lemma backup_build_prints w w' :
  backup_build w = (w', inr tt) ->
  prints w w' (build_msgs (w_fs w)).
Proof.
  intros H. unfold build_msgs. destruct (w_fs w !! "build") as [[f|B]|] eqn:Hb.
  - unfold backup_build, BUILD_FOLDER in H. py_step_in (on_fs_query (os_path_exists ["build"]) w) H.
    rewrite os_path_exists_top, bool_decide_true in H by (rewrite Hb; eauto).
    rewrite (py_bind_inl _ _ _ w (NotADirectoryError ["build"])) in H; [discriminate|].
    rewrite on_fs_read. unfold os_listdir. by rewrite lookup_path_top, Hb.
  - unfold backup_build, BUILD_FOLDER in H. py_step_in (on_fs_query (os_path_exists ["build"]) w) H.
    rewrite os_path_exists_top, bool_decide_true in H by (rewrite Hb; eauto).
    rewrite (py_bind_inr _ _ _ w ((map_to_list B).*1)) in H.
    + by apply move_loop_prints.
    + by rewrite on_fs_read, (os_listdir_top _ _ B Hb).
  - rewrite (backup_build_first w Hb) in H. injection H; intros <-. prints_chain.
Qed.

Lemma cleanup_prints w w' : cleanup w = (w', inr tt) -> prints w w' ["Deleted downloaded zip file."].
Proof.
  unfold cleanup. intros H. py_inv H. apply on_fs_inv in Hm as [d ->].
  rewrite log_run in H. injection H; intros <-. prints_chain.
Qed.

Lemma backup_build_fail_prints w w' e :
  backup_build w = (w', inl e) ->
  exists j, j <= length (build_msgs (w_fs w)) /\ prints w w' (take j (build_msgs (w_fs w))).
Proof.
  intros H. unfold build_msgs. destruct (w_fs w !! "build") as [[f|B]|] eqn:Hb.
  - unfold backup_build, BUILD_FOLDER in H. py_step_in (on_fs_query (os_path_exists ["build"]) w) H.
    rewrite os_path_exists_top, bool_decide_true in H by (rewrite Hb; eauto).
    rewrite (py_bind_inl _ _ _ w (NotADirectoryError ["build"])) in H.
    + injection H; intros _ <-. exists 0. split; [lia|apply prints_refl].
    + rewrite on_fs_read. unfold os_listdir. by rewrite lookup_path_top, Hb.
  - unfold backup_build, BUILD_FOLDER in H. py_step_in (on_fs_query (os_path_exists ["build"]) w) H.
    rewrite os_path_exists_top, bool_decide_true in H by (rewrite Hb; eauto).
    rewrite (py_bind_inr _ _ _ w ((map_to_list B).*1)) in H
      by (by rewrite on_fs_read, (os_listdir_top _ _ B Hb)).
    destruct (move_loop_fail_prints _ w w' e H) as (j & Hj & Hp).
    exists j. rewrite length_map, firstn_map. split; [lia|done].
  - by rewrite (backup_build_first w Hb) in H.
Qed.

(** A download that fails printed its first line only. *)
Lemma download_fail_prints w w' e : download w = (w', inl e) -> prints w w' ["Downloading zip file..."].
Proof.
  intros Hd. destruct (get_response w SERVER_URL) as [e'|[[[u st] body] drop]] eqn:Hs.
  { rewrite (download_no_response w e' Hs) in Hd. injection Hd; intros _ <-.
    unfold w_requested. prints_chain. }
  destruct (decide (400 <= st < 600)%Z) as [Herr|Hok].
  { rewrite (download_http_error w u st body drop Hs Herr) in Hd. injection Hd; intros _ <-.
    unfold w_requested. prints_chain. }
  destruct (w_fs w !! "update.zip") as [[f|t]|] eqn:Hz.
  2: { rewrite (download_zip_dir w u st body drop t Hs Hok Hz) in Hd. injection Hd; intros _ <-.
       unfold w_requested. prints_chain. }
  all: assert (Hnd : forall t, w_fs w !! "update.zip" <> Some (Dir t)) by (intros t; by rewrite Hz).
  all: assert (Hbroken : exists k, drop = Some k /\ k < length (iter_content CHUNK_SIZE body))
         by (destruct drop as [k|]; [destruct (decide (k < length (iter_content CHUNK_SIZE body)))|];
             [eauto| |]; rewrite (download_whole w u st body _ Hs Hok) in Hd;
             first [congruence | done | unfold received_whole; lia]).
  all: destruct Hbroken as (k & -> & Hk).
  all: rewrite (download_broken w u st body k Hs Hok Hk Hnd) in Hd; injection Hd; intros _ <-.
  all: unfold w_requested; prints_chain.
Qed.

(** Lines 23-37 when the download succeeds: the first messages are
    printed and the build is as before. *)
Lemma first_stages w w1 w2 :
  download w = (w1, inr tt) -> ensure_backup_folder w1 = (w2, inr tt) ->
  prints w w2 (download_msgs ++ backup_folder_msgs (w_fs w)) /\ w_fs w2 !! "build" = w_fs w !! "build".
Proof.
  intros Hd He. destruct (download_ok_inv w w1 Hd) as [body ->].
  rewrite ensure_backup_folder_run in He. cbn [w_fs logged set_fs w_requested] in He.
  rewrite lookup_insert_ne in He by done. unfold backup_folder_msgs.
  destruct (w_fs w !! "backup"); injection He; intros <-; (split; [unfold w_requested; prints_chain|]);
    cbn; by rewrite ?lookup_insert_ne.
Qed.

Lemma ensure_backup_folder_ok w : exists w', ensure_backup_folder w = (w', inr tt).
Proof. rewrite ensure_backup_folder_run. destruct (w_fs w !! "backup"); eauto. Qed.

Lemma cleanup_fail_prints w w' e : cleanup w = (w', inl e) -> prints w w' [].
Proof.
  unfold cleanup. intros H. apply py_bind_inl_inv in H as [H|(w1 & [] & _ & H)].
  - apply on_fs_inv in H as [d ->]. prints_chain.
  - by rewrite log_run in H.
Qed.

(** A log that is the first [length P + j] messages of [P ++ Q]. *)
Lemma conclude_prefix w w' d P Q j :
  success_msgs d = P ++ Q -> j < length Q -> prints w w' (P ++ take j Q) ->
  exists k, k < length (success_msgs d) /\ prints w w' (take k (success_msgs d)).
Proof.
  intros HPQ Hj Hp. exists (length P + j). rewrite HPQ, length_app. split; [lia|].
  enough (take (length P + j) (P ++ Q) = P ++ take j Q) as -> by done.
  clear. induction P as [|x P IH]; cbn; [done|by rewrite IH].
Qed.

Section Runs.
  Context `{codec : ZipCodec}.

Lemma extract_update_prints w w' :
    extract_update w = (w', inr tt) -> prints w w' ["Extracted zip contents to 'build'."].
  Proof.
    unfold extract_update. intros H. py_inv H. py_inv H.
    apply on_fs_inv in Hm as [d1 ->]. apply on_fs_inv in Hm0 as [d2 ->].
    rewrite log_run in H. injection H; intros <-. prints_chain.
  Qed.

Lemma extract_update_fail_prints w w' e : extract_update w = (w', inl e) -> prints w w' [].
  Proof.
    unfold extract_update. intros H. apply py_bind_inl_inv in H as [H|(w1 & a & Hm & H)].
    { apply on_fs_inv in H as [d ->]. prints_chain. }
    apply on_fs_inv in Hm as [d1 ->]. apply py_bind_inl_inv in H as [H|(w2 & [] & _ & H)].
    - apply on_fs_inv in H as [d2 ->]. prints_chain.
    - by rewrite log_run in H.
  Qed.

  (** Every run whose [try] body completes prints exactly the
      script's messages in the script's order, one clock reading each:
      the two download lines, ["Created 'backup' folder."] if there was
      no backup, one ["Moved ..."] line per entry of the build in the
      order of [os.listdir] (or ["Created 'build' folder."] if there was
      no build), then the extraction, cleanup and success lines. *)
Lemma update_steps_prints w w' :
    update_steps w = (w', inr tt) -> prints w w' (success_msgs (w_fs w)).
  Proof.
    unfold update_steps. intros Hu.
    apply py_bind_inr_inv in Hu as (w1 & [] & Hd & Hu).
    apply py_bind_inr_inv in Hu as (w2 & [] & He & Hu).
    apply py_bind_inr_inv in Hu as (w3 & [] & Hb & Hu).
    apply py_bind_inr_inv in Hu as (w4 & [] & Hx & Hu).
    apply py_bind_inr_inv in Hu as (w5 & [] & Hc & Hu).
    rewrite log_run in Hu. injection Hu; intros <-.
    destruct (first_stages w w1 w2 Hd He) as [H1 Hb2].
    apply backup_build_prints in Hb. unfold build_msgs in Hb. rewrite Hb2 in Hb. fold (build_msgs (w_fs w)) in Hb.
    apply extract_update_prints in Hx. apply cleanup_prints in Hc.
    pose proof (prints_trans _ _ _ _ _ H1 Hb) as H2.
    pose proof (prints_trans _ _ _ _ _ H2 Hx) as H3.
    pose proof (prints_trans _ _ _ _ _ H3 Hc) as H4.
    pose proof (prints_trans _ _ _ _ _ H4 (prints_logged w5 "✅ Update complete.")) as H5.
    unfold success_msgs. rewrite <- !app_assoc in H5. exact H5.
  Qed.

  (** A body of the [try] that fails printed the first [k] messages of
      a successful run, for some [k] short of all of them. *)
Lemma update_steps_fail_prints w w' e :
    update_steps w = (w', inl e) ->
    exists k, k < length (success_msgs (w_fs w)) /\ prints w w' (take k (success_msgs (w_fs w))).
  Proof.
    unfold update_steps. intros Hu.
    apply py_bind_inl_inv in Hu as [Hd|(w1 & [] & Hd & Hu)].
    { apply (conclude_prefix w w' _ [] (success_msgs (w_fs w)) 1); [done|unfold success_msgs; cbn; lia|].
      by apply download_fail_prints in Hd. }
    destruct (ensure_backup_folder_ok w1) as [w2 He].
    rewrite (py_bind_inr _ _ _ _ _ He) in Hu.
    destruct (first_stages w w1 w2 Hd He) as [H1 Hb2].
    assert (Hsplit : success_msgs (w_fs w) =
              (download_msgs ++ backup_folder_msgs (w_fs w)) ++ build_msgs (w_fs w) ++ tail_msgs)
      by (unfold success_msgs; by rewrite <- app_assoc).
    apply py_bind_inl_inv in Hu as [Hb|(w3 & [] & Hb & Hu)].
    { destruct (backup_build_fail_prints w2 w' e Hb) as (j & Hj & Hp).
      unfold build_msgs in Hj, Hp. rewrite Hb2 in Hj, Hp. fold (build_msgs (w_fs w)) in Hj, Hp.
      apply (conclude_prefix w w' _ _ _ j Hsplit); [rewrite length_app; cbn; lia|].
      rewrite take_app_le by done. by eapply prints_trans. }
    apply backup_build_prints in Hb. unfold build_msgs in Hb. rewrite Hb2 in Hb.
    fold (build_msgs (w_fs w)) in Hb.
    pose proof (prints_trans _ _ _ _ _ H1 Hb) as H2.
    rewrite app_assoc in Hsplit.
    apply py_bind_inl_inv in Hu as [Hx|(w4 & [] & Hx & Hu)].
    { apply (conclude_prefix w w' _ _ _ 0 Hsplit); [cbn; lia|].
      rewrite app_nil_r. eapply prints_trans'; [exact H2|by eapply extract_update_fail_prints|].
      by rewrite app_nil_r. }
    apply extract_update_prints in Hx.
    apply py_bind_inl_inv in Hu as [Hc|(w5 & [] & Hc & Hu)].
    { apply (conclude_prefix w w' _ _ _ 1 Hsplit); [cbn; lia|].
      eapply prints_trans'; [exact (prints_trans _ _ _ _ _ H2 Hx)|by eapply cleanup_fail_prints|].
      by rewrite app_nil_r. }
    by rewrite log_run in Hu.
  Qed.

End Runs.
