(* ===== verification/Contract.v ===== *)
(** * The spec's contract for an update, and the code against it

    The spec describes a run on three things: the Build Directory, the
    Backup Directory and the Local Archive File. [contract_state] is
    that view of the working directory, and [abs] takes it from the
    tree. A successful update, as the spec states it ([contract_apply]),
    makes the build the new tree, moves the outgoing build into the
    backup with same-named entries overwritten, and removes the archive.

    [main_refines_contract] shows that a successful run of the script
    implements this contract when no entry of the build meets a
    directory of the same name in the backup ([overwrite_ok]). Where an
    entry does, [shutil.move] nests it or fails instead (the theorems
    [move_one_into_dir] and [move_one_dir_over_file] of [Agent]). *)

From S2P Require Import Prelude PyStr FS Net Zip Logger Agent.

(** ** The abstract state and the contract *)

Record contract_state := mkCState {
  c_build : dir;      (** the contents of [build/], empty if absent *)
  c_backup : dir;     (** the contents of [backup/], empty if absent *)
  c_archive : bool    (** [update.zip] exists *)
}.

(** The contents of the directory [x] of the tree, empty if there is
    none. *)
Definition dir_at (d : dir) (x : string) : dir :=
  match d !! x with Some (Dir t) => t | _ => ∅ end.

Definition abs (d : dir) : contract_state :=
  mkCState (dir_at d "build") (dir_at d "backup") (bool_decide (is_Some (d !! "update.zip"))).

(** A successful update that installs the tree [E]. *)
Definition contract_apply (a : contract_state) (E : dir) : contract_state :=
  mkCState E (c_build a ∪ c_backup a) false.

(** The entry [e] of the build can overwrite what the backup has under
    its name. *)
Definition overwrite_okb (e : entry) (old : option entry) : bool :=
  match old, e with
  | Some (Dir _), _ => false
  | Some (File _), Dir _ => false
  | _, _ => true
  end.

Definition overwrite_ok (B K : dir) : Prop :=
  map_Forall (fun n e => overwrite_okb e (K !! n) = true) B.

#[export] Instance overwrite_ok_dec B K : Decision (overwrite_ok B K).
Proof. unfold overwrite_ok. apply _. Defined.

(** ** Lemmas *)

Lemma overwrite_ok_movable B K : overwrite_ok B K -> movable B K.
Proof.
  unfold overwrite_ok, movable. intros Hok. apply (map_Forall_impl _ _ _ Hok). intros n e.
  unfold overwrite_okb, move_okb. by destruct (K !! n) as [[]|], e.
Qed.

(** Without directory collisions the backup is the old build written
    over the old backup. *)
Lemma backup_merge_union B K : overwrite_ok B K -> backup_merge B K = B ∪ K.
Proof.
  intros Hok. apply map_eq. intros n. rewrite backup_merge_lookup, lookup_union.
  destruct (B !! n) as [e|] eqn:Hn; [|by destruct (K !! n)].
  specialize (Hok n e Hn). unfold overwrite_okb in Hok. unfold backup_entry.
  by destruct (K !! n) as [[]|], e.
Qed.

Lemma dir_at_spec d x t :
  d !! x = Some (Dir t) \/ d !! x = None /\ t = ∅ -> dir_at d x = t.
Proof. unfold dir_at. by intros [->|[-> ->]]. Qed.

(** ** Refinement *)

Section Refinement.
  Context `{codec : ZipCodec}.

  (** C10: a successful run implements the spec's contract. Under the
      conditions of [main_success] with no directory collision between
      the build and the backup, the abstract state after the run is
      [contract_apply] of the abstract state before it: the build holds
      the new tree, the backup the old build written over the old
      backup, and the archive is gone. *)
Theorem main_refines_contract w u st body drop B K ms E :
    get_response w SERVER_URL = inr (u, st, body, drop) -> ~ (400 <= st < 600)%Z ->
    received_whole body drop ->
    (forall t, w_fs w !! "update.zip" <> Some (Dir t)) ->
    (w_fs w !! "build" = Some (Dir B) \/ w_fs w !! "build" = None /\ B = ∅) ->
    (w_fs w !! "backup" = Some (Dir K) \/ w_fs w !! "backup" = None /\ K = ∅) ->
    overwrite_ok B K -> zip_decode body = Some ms -> extractall [] ms ∅ = (E, inr tt) ->
    exists w', main w = (w', inr tt) /\ abs (w_fs w') = contract_apply (abs (w_fs w)) E.
  Proof.
    intros Hs Hst Hwhole Hzip Hb Hk Hok Hdec Hext.
    destruct (update_steps_success w u st body drop B K ms E Hs Hst Hwhole Hzip Hb Hk
                (overwrite_ok_movable B K Hok) Hdec Hext) as (w' & Hu & Hfs & _).
    exists w'. split; [unfold main; by apply py_try_inr|].
    unfold abs, contract_apply. rewrite Hfs, (dir_at_spec _ "build" B Hb), (dir_at_spec _ "backup" K Hk).
    rewrite (backup_merge_union B K Hok). unfold dir_at. cbn [c_build c_backup]. f_equal.
    - by rewrite lookup_insert_eq.
    - by rewrite lookup_insert_ne, lookup_insert_eq.
    - rewrite !lookup_insert_ne, lookup_delete_eq by done. by apply bool_decide_false; intros [].
  Qed.
End Refinement.

(** ** A run that overwrites [a] in the backup and keeps [z] *)

Definition ex_old_backup : dir := <["a" := File [Byte.x02]]> {["z" := File []]}.

Definition ex_tree2 : dir := <["backup" := Dir ex_old_backup]> ex_root.

Lemma main_refines_contract_witness :
  exists w', @main ex_codec (ex_world (Reply 200 [Byte.x01] None) ex_tree2) = (w', inr tt) /\
    abs (w_fs w') = contract_apply (abs (w_fs (ex_world (Reply 200 [Byte.x01] None) ex_tree2))) ex_extracted.
Proof.
  apply (@main_refines_contract ex_codec _ SERVER_URL 200 [Byte.x01] None ex_build ex_old_backup ex_members ex_extracted).
  - reflexivity.
  - lia.
  - exact I.
  - intros t. vm_compute. discriminate.
  - left. reflexivity.
  - left. reflexivity.
  - apply (bool_decide_unpack _). vm_compute. reflexivity.
  - reflexivity.
  - vm_compute. reflexivity.
Defined.
