(* ===== verification/Wf.v ===== *)
(** * Well-formed trees: an invariant of every run

    A name of the working directory is never empty, never ["."] or
    [".."], and never contains ["/"]: the kernel refuses such names,
    and a tree that had one would not be a directory tree. [wf_tree]
    says every name at every depth is valid. Each call the script makes
    keeps the tree well formed when it is given paths of valid names
    ([preserves]), the monad's combinators keep it ([keeps] of
    [Prelude]), and so every run of [main] keeps it ([main_keeps_wf]),
    whatever the member names of the archive. *)

From S2P Require Import Prelude PyStr FS Net Zip Logger Agent.

#[local] Set Warnings "-register-all".

(** ** Definitions *)

Definition valid_name (k : string) : Prop :=
  k <> "" /\ k <> "." /\ k <> ".." /\ ~ has_char "/" k.

#[export] Instance valid_name_dec k : Decision (valid_name k).
Proof. unfold valid_name. apply _. Defined.

Inductive wf_entry : entry -> Prop :=
| wf_file b : wf_entry (File b)
| wf_dir t : (forall k e, t !! k = Some e -> valid_name k /\ wf_entry e) -> wf_entry (Dir t).

Definition wf_tree (d : dir) : Prop := wf_entry (Dir d).

Definition wf_opt (o : option entry) : Prop :=
  match o with Some e => wf_entry e | None => True end.

(** A call that, on a well-formed tree, returns a well-formed tree. *)
Definition preserves (op : dir -> exn + dir) : Prop :=
  forall d d', wf_tree d -> op d = inr d' -> wf_tree d'.

(** ** Trees *)

Lemma wf_tree_lookup d k e : wf_tree d -> d !! k = Some e -> valid_name k /\ wf_entry e.
Proof. intros Hd. inversion Hd as [|? Ht]. apply Ht. Qed.

Lemma wf_tree_lookup_opt d k : wf_tree d -> wf_opt (d !! k).
Proof. intros Hd. destruct (d !! k) eqn:E; [|done]. by eapply wf_tree_lookup. Qed.

Lemma wf_tree_empty : wf_tree ∅.
Proof. constructor. intros k e. by rewrite lookup_empty. Qed.

Lemma wf_tree_partial_alter d k f :
  wf_tree d -> valid_name k -> wf_opt (f (d !! k)) -> wf_tree (partial_alter f k d).
Proof.
  intros Hd Hk Hf. constructor. intros k' e'. rewrite lookup_partial_alter.
  case_decide as Hkk; [subst k'; intros He; by rewrite He in Hf|]. by apply wf_tree_lookup.
Qed.

Lemma wf_tree_insert d k e : wf_tree d -> valid_name k -> wf_entry e -> wf_tree (<[k := e]> d).
Proof. intros. by apply wf_tree_partial_alter. Qed.

Lemma wf_tree_singleton k e : valid_name k -> wf_entry e -> wf_tree {[k := e]}.
Proof. intros. apply wf_tree_insert; [apply wf_tree_empty|done..]. Qed.

Lemma wf_get p e e' : wf_entry e -> get p e = Some e' -> wf_entry e'.
Proof.
  revert e. induction p as [|x p IH]; intros e He; cbn; [by intros [= <-]|].
  destruct e as [|t]; [done|]. destruct (t !! x) as [ex|] eqn:Ex; [|done].
  apply IH. exact (proj2 (wf_tree_lookup t x ex He Ex)).
Qed.

Lemma wf_lookup_path d p e : wf_tree d -> lookup_path p d = Some e -> wf_entry e.
Proof. apply wf_get. Qed.

#[export] Hint Resolve wf_tree_empty wf_tree_insert wf_tree_singleton : pyagent.

(** ** The calls of [os], [os.path] and [shutil] *)

Lemma update_at_wf full p f :
  Forall valid_name p -> (forall o, wf_opt o -> wf_opt (f o)) -> preserves (update_at full p f).
Proof.
  intros Hp Hf. induction Hp as [|x p Hx Hp IH]; intros d d' Hd; [done|].
  destruct p as [|y p].
  - intros [= <-]. apply wf_tree_partial_alter; [done..|]. by apply Hf, wf_tree_lookup_opt.
  - rewrite update_at_cons2. destruct (d !! x) as [[|t]|] eqn:Ex; [done| |done].
    intros H. sbind_inv H. injection H; intros <-.
    apply wf_tree_insert; [done..|]. apply (IH t); [|done].
    exact (proj2 (wf_tree_lookup d x _ Hd Ex)).
Qed.

Lemma put_at_wf p e : Forall valid_name p -> wf_entry e -> preserves (put_at p e).
Proof. intros Hp He. by apply update_at_wf. Qed.

Lemma del_at_wf p : Forall valid_name p -> preserves (del_at p).
Proof. intros Hp. by apply update_at_wf. Qed.

Lemma os_mkdir_wf p : Forall valid_name p -> preserves (os_mkdir p).
Proof.
  intros Hp d d' Hd. unfold os_mkdir. destruct (os_path_exists p d); [done|].
  apply put_at_wf; [done|constructor; intros k e; by rewrite lookup_empty|done].
Qed.

Lemma makedirs_parents_wf pre rest :
  Forall valid_name (pre ++ rest) -> preserves (makedirs_parents pre rest).
Proof.
  revert pre. induction rest as [|x rest IH]; intros pre Hp d d' Hd; [by intros [= <-]|].
  destruct rest as [|y rest]; [by intros [= <-]|].
  rewrite makedirs_parents_cons2. intros H. sbind_inv H.
  assert (Hq : Forall valid_name (pre ++ [x])).
  { apply Forall_app in Hp as [Hp1 Hp2]. inversion Hp2. apply Forall_app. eauto. }
  apply (IH (pre ++ [x])) in H; [done|by rewrite <- app_assoc|].
  destruct (os_path_exists (pre ++ [x]) d); [congruence|]. by apply (os_mkdir_wf _ Hq d).
Qed.

Lemma os_makedirs_wf p : Forall valid_name p -> preserves (os_makedirs p).
Proof.
  intros Hp d d' Hd H. unfold os_makedirs in H. sbind_inv H.
  apply (os_mkdir_wf p Hp a); [|done]. by apply (makedirs_parents_wf [] p Hp d).
Qed.

Lemma relink_wf src dst e :
  Forall valid_name src -> Forall valid_name dst -> wf_entry e -> preserves (relink src dst e).
Proof.
  intros Hs Hd He d d' Hw H. unfold relink in H. sbind_inv H.
  apply (put_at_wf dst e Hd He a); [|done]. by apply (del_at_wf src Hs d).
Qed.

Lemma os_rename_wf src dst : Forall valid_name src -> Forall valid_name dst -> preserves (os_rename src dst).
Proof.
  intros Hs Hd d d' Hw. unfold os_rename.
  destruct (lookup_path src d) as [e|] eqn:Hl; [|done].
  pose proof (wf_lookup_path d src e Hw Hl) as He.
  repeat case_match; intros Hop; simplify_eq; try done.
  all: exact (relink_wf src dst _ Hs Hd He d d' Hw Hop).
Qed.

Lemma move_fallback_wf err src dst real :
  Forall valid_name src -> Forall valid_name real -> preserves (move_fallback err src dst real).
Proof.
  intros Hs Hr d d' Hw. unfold move_fallback.
  destruct (lookup_path src d) as [[|t]|] eqn:Hl; try done. case_decide; [done|].
  intros Hop. sbind_inv Hop. sbind_inv Hop.
  apply (del_at_wf src Hs a0); [|done].
  apply (put_at_wf real (Dir t) Hr (wf_lookup_path d src _ Hw Hl) a); [|done].
  by apply (os_makedirs_wf real Hr d).
Qed.

Lemma move_to_wf src dst real :
  Forall valid_name src -> Forall valid_name real -> preserves (move_to src dst real).
Proof.
  intros Hs Hr d d' Hw. unfold move_to.
  destruct (os_rename src real d) eqn:E.
  - by apply move_fallback_wf.
  - intros [= <-]. by apply (os_rename_wf src real Hs Hr d).
Qed.

Lemma shutil_move_wf src dst :
  Forall valid_name src -> src <> [] -> Forall valid_name dst -> preserves (shutil_move src dst).
Proof.
  intros Hs Hne Hd d d' Hw. unfold shutil_move.
  assert (Hb : valid_name (basename src)).
  { unfold basename. destruct (last src) eqn:E; [|apply last_None in E; contradiction].
    apply last_Some_elem_of in E. exact (proj1 (Forall_forall _ _) Hs _ E). }
  repeat case_match; intros Hop; try done.
  - by apply (os_rename_wf src dst Hs Hd d).
  - apply (move_to_wf src dst (dst ++ [basename src]) Hs) in Hop; [done| |done].
    apply Forall_app. eauto.
  - by apply (move_to_wf src dst dst Hs Hd d).
Qed.

Lemma os_remove_wf p : Forall valid_name p -> preserves (os_remove p).
Proof. intros Hp d d' Hw. unfold os_remove. repeat case_match; try done. by apply del_at_wf. Qed.

Lemma open_wb_wf p : Forall valid_name p -> preserves (open_wb p).
Proof. intros Hp d d' Hw. unfold open_wb. repeat case_match; try done; by apply put_at_wf; [|constructor|]. Qed.

Lemma file_write_wf p c : Forall valid_name p -> preserves (file_write p c).
Proof. intros Hp d d' Hw. unfold file_write. repeat case_match; try done; by apply put_at_wf; [|constructor|]. Qed.

Lemma fs_do_keeps op : preserves op -> keeps wf_tree (fs_do op).
Proof. intros Hop d Hd. unfold fs_do. destruct (op d) as [e|d'] eqn:E; [done|]. exact (Hop d d' Hd E). Qed.

Lemma fs_query_keeps {A} (q : dir -> A) : keeps wf_tree (fs_query q).
Proof. by intros d. Qed.

Lemma fs_read_keeps {A} (q : dir -> exn + A) : keeps wf_tree (fs_read q).
Proof. by intros d. Qed.

#[export] Hint Resolve fs_do_keeps fs_query_keeps fs_read_keeps : pyagent.

(** ** Extraction *)

Lemma Forall_removelast {A} (P : A -> Prop) l : Forall P l -> Forall P (removelast l).
Proof. induction 1 as [|x l Hx Hl IH]; [constructor|]. cbn. destruct l; [constructor|by constructor]. Qed.

(** The components [_extract_member] keeps are valid names. *)
Lemma member_path_valid name : Forall valid_name (member_path name).
Proof.
  apply Forall_forall. intros x Hx. unfold member_path in Hx.
  apply list_elem_of_filter in Hx as [Hn Hx].
  apply py_split_pieces in Hx. repeat split; [set_solver..|done].
Qed.

Section Extract.
  Context `{codec : ZipCodec}.

Lemma ensure_upperdirs_keeps tp : Forall valid_name tp -> keeps wf_tree (ensure_upperdirs tp).
  Proof.
    intros Htp. unfold ensure_upperdirs. apply keeps_bind; [apply fs_query_keeps|]. intros ex.
    case_match; [|apply keeps_ret]. apply fs_do_keeps, os_makedirs_wf, Forall_removelast, Htp.
  Qed.

Lemma copy_reads_keeps tp name exp r reads :
    Forall valid_name tp -> keeps wf_tree (copy_reads tp name exp r reads).
  Proof.
    intros Htp. revert r. induction reads as [|buf rest IH]; intros r; [apply keeps_ret|].
    cbn [copy_reads]. case_match; [apply keeps_raise|]. apply keeps_bind; [|intros _; apply IH].
    case_match; [apply keeps_ret|by apply fs_do_keeps, file_write_wf].
  Qed.

Lemma extract_member_keeps target zi :
    Forall valid_name target -> keeps wf_tree (extract_member target zi).
  Proof.
    intros Ht. pose proof (Forall_app_2 _ _ _ Ht (member_path_valid (zi_filename zi))) as Hp.
    unfold extract_member. apply keeps_bind; [by apply ensure_upperdirs_keeps|]. intros _.
    case_match.
    - apply keeps_bind; [apply fs_query_keeps|]. intros []; [apply keeps_ret|].
      by apply fs_do_keeps, os_mkdir_wf.
    - apply keeps_bind; [by apply fs_do_keeps, open_wb_wf|]. intros _.
      by apply copy_reads_keeps.
  Qed.

Lemma extractall_keeps target ms : Forall valid_name target -> keeps wf_tree (extractall target ms).
  Proof. intros Ht. apply keeps_for. intros zi _. by apply extract_member_keeps. Qed.

Lemma zipfile_open_keeps p : keeps wf_tree (zipfile_open p).
  Proof. intros d Hd. by rewrite zipfile_open_state. Qed.
End Extract.

(** ** The script *)

Definition wf_world (w : World) : Prop := wf_tree (w_fs w).

Lemma on_fs_keeps {A} (m : PyM dir A) : keeps wf_tree m -> keeps wf_world (on_fs m).
Proof. intros Hm w Hw. unfold on_fs, wf_world. specialize (Hm _ Hw). by destruct (m (w_fs w)). Qed.

Lemma log_keeps msg : keeps wf_world (log msg).
Proof. by intros w. Qed.

Lemma requests_get_keeps url : keeps wf_world (requests_get url).
Proof. intros w Hw. unfold requests_get. by destruct (w_server w url). Qed.

#[export] Hint Resolve on_fs_keeps log_keeps requests_get_keeps : pyagent.

(** Names the script passes to the filesystem. *)
Lemma valid_fixed_names : Forall valid_name ZIP_FILE /\ Forall valid_name BUILD_FOLDER /\
                          Forall valid_name BACKUP_FOLDER.
Proof. repeat split; repeat constructor; apply (bool_decide_unpack _); vm_compute; reflexivity. Qed.

(** The names [os.listdir] returns from a well-formed tree are valid. *)
Lemma os_listdir_valid p d names :
  wf_tree d -> os_listdir p d = inr names -> Forall valid_name names.
Proof.
  intros Hd. unfold os_listdir. destruct (lookup_path p d) as [[|t]|] eqn:Hl; try done.
  intros [= <-]. pose proof (wf_lookup_path d p _ Hd Hl) as Ht.
  apply Forall_forall. intros n Hn. apply list_elem_of_fmap in Hn as [[k e] [-> Hin]].
  apply elem_of_map_to_list in Hin. exact (proj1 (wf_tree_lookup t k e Ht Hin)).
Qed.

Lemma write_stream_keeps body drop : keeps wf_world (write_stream ZIP_FILE body drop).
Proof.
  destruct valid_fixed_names as (Hz & _ & _). unfold write_stream.
  destruct (delivered CHUNK_SIZE body drop) as [cs broken].
  apply keeps_bind; [by apply on_fs_keeps, fs_do_keeps, open_wb_wf|]. intros _.
  apply keeps_bind; [apply keeps_for; intros c _; by apply on_fs_keeps, fs_do_keeps, file_write_wf|].
  intros _. destruct broken; auto with pyagent.
Qed.

Lemma download_keeps : keeps wf_world download.
Proof.
  unfold download. apply keeps_bind; [apply log_keeps|]. intros _.
  apply keeps_bind; [apply requests_get_keeps|]. intros [[[u st] body] drop].
  apply keeps_bind; [apply keeps_lift|]. intros _.
  apply keeps_bind; [apply write_stream_keeps|]. intros _. apply log_keeps.
Qed.

Lemma ensure_backup_folder_keeps : keeps wf_world ensure_backup_folder.
Proof.
  destruct valid_fixed_names as (_ & _ & Hk). unfold ensure_backup_folder.
  apply keeps_bind; [apply on_fs_keeps, fs_query_keeps|]. intros []; [apply keeps_ret|].
  apply keeps_bind; [by apply on_fs_keeps, fs_do_keeps, os_makedirs_wf|]. intros _. apply log_keeps.
Qed.

Lemma move_one_keeps n : valid_name n -> keeps wf_world (move_one n).
Proof.
  intros Hn. destruct valid_fixed_names as (_ & Hb & Hk). unfold move_one.
  apply keeps_bind; [|intros _; apply log_keeps].
  apply on_fs_keeps, fs_do_keeps, shutil_move_wf.
  - apply Forall_app_2; [done|by constructor].
  - intros Hnil. apply app_eq_nil in Hnil as [_ Hnil]. discriminate.
  - apply Forall_app_2; [done|by constructor].
Qed.

Lemma backup_build_keeps : keeps wf_world backup_build.
Proof.
  destruct valid_fixed_names as (_ & Hb & _). unfold backup_build.
  apply keeps_bind; [apply on_fs_keeps, fs_query_keeps|]. intros [].
  - apply keeps_bind_dep; [apply on_fs_keeps, fs_read_keeps|].
    intros w w' names Hw Hl _. rewrite on_fs_read in Hl. injection Hl; intros Hn <-.
    apply keeps_for; [|done]. intros n Hin. apply move_one_keeps.
    exact (proj1 (Forall_forall _ _) (os_listdir_valid _ _ _ Hw Hn) n Hin).
  - apply keeps_bind; [by apply on_fs_keeps, fs_do_keeps, os_makedirs_wf|]. intros _. apply log_keeps.
Qed.

Section Runs.
  Context `{codec : ZipCodec}.

Lemma extract_update_keeps : keeps wf_world extract_update.
  Proof.
    destruct valid_fixed_names as (_ & Hb & _). unfold extract_update.
    apply keeps_bind; [apply on_fs_keeps, zipfile_open_keeps|]. intros ms.
    apply keeps_bind; [by apply on_fs_keeps, extractall_keeps|]. intros _. apply log_keeps.
  Qed.

Lemma cleanup_keeps : keeps wf_world cleanup.
  Proof.
    destruct valid_fixed_names as (Hz & _ & _). unfold cleanup.
    apply keeps_bind; [by apply on_fs_keeps, fs_do_keeps, os_remove_wf|]. intros _. apply log_keeps.
  Qed.

#[local] Hint Resolve download_keeps ensure_backup_folder_keeps backup_build_keeps
  extract_update_keeps cleanup_keeps : pyagent.

  (** C22: every run of the script keeps the working directory a
      well-formed tree: whatever the server sends, whatever the member
      names of the archive (["../x"], ["/x"], ["a//b"]) and wherever
      the run stops, no entry is created under an empty name, ["."],
      [".."] or a name holding ["/"]. *)
Theorem main_keeps_wf w : wf_tree (w_fs w) -> wf_tree (w_fs (main w).1).
  Proof.
    revert w. change (keeps wf_world main). unfold main.
    apply keeps_try; [|intros e; apply log_keeps].
    unfold update_steps.
    repeat (apply keeps_bind; [eauto with pyagent|intros _]). apply log_keeps.
  Qed.
End Runs.

(** Valid names and well-formed trees of the examples, by evaluation. *)
Ltac wf_tree_by_eval :=
  repeat first [ apply wf_tree_insert | apply wf_tree_singleton | apply wf_tree_empty | apply wf_file
               | apply (bool_decide_unpack _); vm_compute; reflexivity ].

(** A run whose archive holds the member ["../evil"]. *)
Lemma main_keeps_wf_witness :
  wf_tree (w_fs (@main ex_escape_codec (ex_world (Reply 200 [] None) ex_root)).1).
Proof.
  apply main_keeps_wf. cbn [w_fs ex_world]. unfold ex_root, ex_build. wf_tree_by_eval.
Defined.
