(* ===== verification/Rerun.v ===== *)
(** * Successive runs of the script

    The script is run again and again, by hand or by a supervisor, on
    the same working directory. A run changes the filesystem, the lines
    printed and the number of clock readings, and nothing else of the
    world: the server and the clock are the environment of every run
    ([main_env]). So the world a run leaves is a valid start for the
    next one, and two successful runs compose ([main_rerun]). *)

From S2P Require Import Prelude PyStr FS Net Zip Logger Agent.

(** ** The environment of a run *)

Create HintDb env.

Definition env_of (w : World) : (string -> reply) * (nat -> datetime) :=
  (w_server w, w_clock w).

Section Env.
  Context (env : (string -> reply) * (nat -> datetime)).

Let same_env (w : World) : Prop := env_of w = env.

Lemma on_fs_env {A} (m : PyM dir A) : keeps same_env (on_fs m).
  Proof. intros w Hw. unfold on_fs. by destruct (m (w_fs w)). Qed.

Lemma log_env msg : keeps same_env (log msg).
  Proof. by intros w. Qed.

Lemma requests_get_env url : keeps same_env (requests_get url).
  Proof. intros w Hw. unfold requests_get. by destruct (w_server w url). Qed.

  #[local] Hint Resolve on_fs_env log_env requests_get_env keeps_ret keeps_raise keeps_lift : env.

(** Take a composite operation apart into the calls above. *)
Ltac env_parts :=
  repeat first
    [ solve [eauto with env]
    | apply keeps_bind; [|intros ?]
    | apply keeps_try; [|intros ?]
    | apply keeps_for; intros ??
    | match goal with |- keeps _ (match ?x with _ => _ end) => destruct x end ].

  Context `{codec : ZipCodec}.

Lemma update_steps_env : keeps same_env update_steps.
  Proof.
    unfold update_steps, download, write_stream, ensure_backup_folder, backup_build,
      move_one, extract_update, cleanup.
    env_parts.
  Qed.
End Env.

(** Every step of a run keeps the server and the clock. *)
Lemma update_steps_server `{ZipCodec} w : w_server (update_steps w).1 = w_server w.
Proof. exact (f_equal fst (update_steps_env (env_of w) w eq_refl)). Qed.

(** ** Two runs in a row *)

Section Twice.
  Context `{codec : ZipCodec}.

  (** C12: two successful runs in a row on the same server reply. The
      second run finds the build the first one extracted and the backup
      it merged, moves the build into that backup, and extracts the
      same archive again: the build is the same as after one run, and
      the backup is [backup_merge] of the new build over the first
      backup. Every name of the old build that the archive also has is
      then overwritten in the backup by the archive's version. *)
Theorem main_rerun w u st body drop B K ms E :
    get_response w SERVER_URL = inr (u, st, body, drop) -> ~ (400 <= st < 600)%Z ->
    received_whole body drop ->
    (forall t, w_fs w !! "update.zip" <> Some (Dir t)) ->
    (w_fs w !! "build" = Some (Dir B) \/ w_fs w !! "build" = None /\ B = ∅) ->
    (w_fs w !! "backup" = Some (Dir K) \/ w_fs w !! "backup" = None /\ K = ∅) ->
    movable B K -> movable E (backup_merge B K) ->
    zip_decode body = Some ms -> extractall [] ms ∅ = (E, inr tt) ->
    exists w1 w2, main w = (w1, inr tt) /\ main w1 = (w2, inr tt) /\
      w_fs w2 = <["build" := Dir E]> (<["backup" := Dir (backup_merge E (backup_merge B K))]>
                  (delete "update.zip" (w_fs w))).
  Proof.
    intros Hs Hst Hwhole Hzip Hb Hk Hmov Hmov2 Hdec Hext.
    destruct (update_steps_success w u st body drop B K ms E Hs Hst Hwhole Hzip Hb Hk Hmov Hdec Hext)
      as (w1 & Hu1 & Hfs1 & _).
    assert (Hs1 : get_response w1 SERVER_URL = inr (u, st, body, drop)).
    { rewrite <- Hs. unfold get_response. by rewrite <- (update_steps_server w), Hu1. }
    destruct (update_steps_success w1 u st body drop E (backup_merge B K) ms E Hs1 Hst Hwhole)
      as (w2 & Hu2 & Hfs2 & _); try done; rewrite ?Hfs1.
    - intros t. by simplify_map_eq.
    - left. by simplify_map_eq.
    - left. by simplify_map_eq.
    - exists w1, w2. unfold main. split_and!; [by apply py_try_inr..|].
      rewrite Hfs2, Hfs1. map_by_keys.
  Qed.
End Twice.

(** An update that ships a new version of the file [a] of [ex_build]. *)
Definition ex_update_codec : ZipCodec :=
  {| zip_decode b := match b with
                     | [Byte.x01] => Some [mkZipInfo "a" [Byte.x07] 0x4c667a2e%Z]
                     | _ => None
                     end |}.

(** Run twice, the update leaves [a = 07] in both the build and the
    backup: the version [a = 03] of before the update is gone. *)
Lemma main_rerun_witness :
  exists w1 w2,
    @main ex_update_codec (ex_world (Reply 200 [Byte.x01] None) ex_root) = (w1, inr tt) /\
    @main ex_update_codec w1 = (w2, inr tt) /\
    w_fs w2 = <["build" := Dir {["a" := File [Byte.x07]]}]>
                (<["backup" := Dir (backup_merge {["a" := File [Byte.x07]]} (backup_merge ex_build ∅))]>
                  (delete "update.zip" ex_root)).
Proof.
  apply (@main_rerun ex_update_codec (ex_world (Reply 200 [Byte.x01] None) ex_root) SERVER_URL 200 [Byte.x01] None ex_build ∅
           [mkZipInfo "a" [Byte.x07] 0x4c667a2e%Z] {["a" := File [Byte.x07]]});
    [reflexivity|lia|exact I|intros t; discriminate|left; reflexivity|right; split; reflexivity
    |apply (bool_decide_unpack _); vm_compute; reflexivity..|reflexivity|vm_compute; reflexivity].
Defined.
