(* ===== verification/Stages.v ===== *)
(** * The update as a state machine

    The spec (section 4.4) describes the applier as a machine
    [START -> FETCHING -> BACKING_UP -> EXTRACTING -> CLEANING_UP -> DONE],
    with a move to [FAILED] from any state. The script has no state
    variable: its stages are the statements of the [try] body, run one
    after the other. This file puts the two side by side. A
    configuration is a spec state and the world; the transition out of a
    state runs the stage of [src/printerAgent.py] that the spec assigns
    to it ([transition]), and an exception moves to [FAILED] through the
    [except] handler. By rule induction on the steps, no state after
    [FETCHING] is reached without a complete download with a good status
    ([machine_fetch_first]): the guard of transition 2 of the spec, which
    the script enforces through [raise_for_status] and the error of a
    broken stream. *)

From stdpp Require Import relations.
From S2P Require Import Prelude PyStr FS Net Zip Logger Agent.

(** ** Definitions *)

(** The states of section 4.4 of the spec. *)
Inductive state := START | FETCHING | BACKING_UP | EXTRACTING | CLEANING_UP | DONE | FAILED.

#[export] Instance state_eq_dec : EqDecision state.
Proof. solve_decision. Defined.

Record conf := Conf { c_state : state; c_world : World }.

Section Machine.
  Context `{codec : ZipCodec}.

  (** The stage each transition runs, and the state it leads to:
      lines 24-32, 35-48, 51-53, 56-57 and 59 of the [try] body. *)
Definition transition (s : state) : option (PyM World unit * state) :=
    match s with
    | START => Some (download, FETCHING)
    | FETCHING => Some (let* _ := ensure_backup_folder in backup_build, BACKING_UP)
    | BACKING_UP => Some (extract_update, EXTRACTING)
    | EXTRACTING => Some (cleanup, CLEANING_UP)
    | CLEANING_UP => Some (log "✅ Update complete.", DONE)
    | DONE | FAILED => None
    end.

  (** [except Exception as e: log(f"❌ ERROR: {str(e)}")], lines 61-62 *)
Definition fail_with (e : exn) (w : World) : conf :=
    Conf FAILED (logged ("❌ ERROR: " +:+ exn_str e) w).

Inductive step : conf -> conf -> Prop :=
  | step_ok s m s' w w' :
      transition s = Some (m, s') -> m w = (w', inr tt) -> step (Conf s w) (Conf s' w')
  | step_fail s m s' w w' e :
      transition s = Some (m, s') -> m w = (w', inl e) -> step (Conf s w) (fail_with e w').

  (** The same relation as a function. *)
Definition step_fn (c : conf) : option conf :=
    match transition (c_state c) with
    | Some (m, s') => Some (match m (c_world c) with
                            | (w', inr _) => Conf s' w'
                            | (w', inl e) => fail_with e w'
                            end)
    | None => None
    end.

Fixpoint run (fuel : nat) (c : conf) : conf :=
    match fuel with
    | O => c
    | S f => match step_fn c with Some c' => run f c' | None => c end
    end.
End Machine.

Definition start (w : World) : conf := Conf START w.

(** The reply of a complete download: a status below 400 and the whole
    body, which the script saved as [update.zip]. *)
Definition fetched (w : World) (body : list Byte.byte) : Prop :=
  exists u st drop, get_response w SERVER_URL = inr (u, st, body, drop) /\
    ~ (400 <= st < 600)%Z /\ received_whole body drop.

(** ** The step function *)

Section Laws.
  Context `{codec : ZipCodec}.

Lemma step_fn_spec c c' : step c c' <-> step_fn c = Some c'.
  Proof.
    split.
    - intros [s m s' w w' Ht Hm|s m s' w w' e Ht Hm]; unfold step_fn; cbn; by rewrite Ht, Hm.
    - destruct c as [s w]. unfold step_fn. cbn. destruct (transition s) as [[m s']|] eqn:Ht; [|done].
      intros [= <-]. destruct (m w) as [w' [e|[]]] eqn:Hm; [eapply step_fail|eapply step_ok]; eauto.
  Qed.

Lemma run_rtc n c : rtc step c (run n c).
  Proof.
    revert c. induction n as [|n IH]; intros c; [done|]. cbn.
    destruct (step_fn c) eqn:Hs; [|done]. eapply rtc_l; [apply step_fn_spec, Hs|apply IH].
  Qed.
End Laws.

(** ** The invariant of the reachable states *)

(** Past [START], a run has received the whole body with a good status;
    in [FETCHING] the body is in [update.zip]. *)
Definition stage_inv (w : World) (c : conf) : Prop :=
  match c_state c with
  | START => c_world c = w
  | FETCHING => exists body, fetched w body /\ w_fs (c_world c) !! "update.zip" = Some (File body)
  | BACKING_UP | EXTRACTING | CLEANING_UP | DONE => exists body, fetched w body
  | FAILED => True
  end.

Section Reach.
  Context `{codec : ZipCodec}.

Lemma stage_inv_step w c c' : stage_inv w c -> step c c' -> stage_inv w c'.
  Proof.
    intros Hi Hs. revert Hi. destruct Hs as [s m s' w0 w' Ht Hm|s m s' w0 w' e Ht Hm]; intros Hi; [|done].
    destruct s; cbn in Ht; simplify_eq; unfold stage_inv in *; cbn in *;
      try (destruct Hi as [body Hf]; exists body; first [exact Hf | exact (proj1 Hf)]).
    try subst. destruct (download_ok_spec _ w' Hm) as (u & st & body & drop & Hs & Hst & Hwh & ->).
    exists body. split; [by exists u, st, drop|]. cbn. by rewrite lookup_insert_eq.
  Qed.

  (** The invariant holds in every state a run reaches: rule induction
      on the steps. *)
Lemma stage_inv_reachable w c : rtc step (start w) c -> stage_inv w c.
  Proof.
    apply (rtc_ind_r (stage_inv w) (start w)); [done|].
    intros c1 c2 _ Hs Hi. by apply (stage_inv_step w c1).
  Qed.
End Reach.

(** ** The machine's guarantees *)

Section Claims.
  Context `{codec : ZipCodec}.

  (** C11: no state after [FETCHING] is reached without a complete
      download. In every reachable state other than [START] and
      [FAILED], the server answered with a status below 400 and the
      whole body was received; in [FETCHING], that body is
      [update.zip]. The backup and the extraction never run on a
      partial archive (transition 2 of the spec). *)
Theorem machine_fetch_first w c :
    rtc step (start w) c -> c_state c <> START -> c_state c <> FAILED ->
    exists body, fetched w body /\
      (c_state c = FETCHING -> w_fs (c_world c) !! "update.zip" = Some (File body)).
  Proof.
    intros Hr Hs Hf. pose proof (stage_inv_reachable w c Hr) as Hi. unfold stage_inv in Hi.
    destruct (c_state c); try done; destruct Hi as [body Hb]; exists body;
      first [split; [exact (proj1 Hb)|intros _; exact (proj2 Hb)] | split; [exact Hb|discriminate]].
  Qed.
End Claims.

Lemma machine_fetch_first_witness :
  exists body, fetched (ex_world (Reply 200 [Byte.x01] None) ex_root) body /\
    (c_state (@run ex_codec 1 (start (ex_world (Reply 200 [Byte.x01] None) ex_root))) = FETCHING ->
     w_fs (c_world (@run ex_codec 1 (start (ex_world (Reply 200 [Byte.x01] None) ex_root))))
       !! "update.zip" = Some (File body)).
Proof.
  apply (@machine_fetch_first ex_codec); [apply run_rtc|vm_compute; discriminate..].
Defined.
