(* ===== verification/TimeConv.v ===== *)
(** * [timeConversion]: [src/test.py]

    [timeConversion(s)] turns a 12-hour clock reading such as
    ["07:05:45PM"] into a 24-hour one. The model follows the code: it
    splits on [":"], adds 12 to the hour when ["PM"] occurs, joins,
    replaces ["PM"] by a space and ["AM"] by nothing. [timeConversion_run]
    gives the output for every well-formed input with an hour from 1 to
    12. The hours 1 to 11 come out right, with a trailing space after a
    PM time ([timeConversion_ok_hours]). 12 PM gives 24 and 12 AM gives
    12 ([timeConversion_noon_midnight]). *)

From S2P Require Import Prelude PyStr.

(** ** The code *)

(** Lines 1-13 *)
Definition timeConversion (s : string) : exn + string :=
  let splitted_string := py_split ":" s in
  let? splitted_string :=
    (if py_in "PM" s then
       match splitted_string !! 0 with
       | Some h => let? v := py_int h in inr (<[0 := py_str_Z (12 + v)]> splitted_string)
       | None => inl (IndexError "list index out of range")
       end
     else inr splitted_string) in
  let new_str := py_join ":" splitted_string in
  let new_str := py_replace "PM" " " new_str in
  let new_str := py_replace "AM" "" new_str in
  inr new_str.

(** Lines 15-17: the script's own call. *)
Definition test_s : string := "07:05:45PM".
Definition test_result : exn + string := timeConversion test_s.

(** Line 17: the lines the script prints, or the exception that
    stops it. *)
Definition test_output : exn + list string := let? result := test_result in inr [result].

(** ** The intended result *)

(** The 24-hour value of hour [h] of a 12-hour clock. *)
Definition hour24 (h : N) (pm : bool) : N :=
  if pm then (if decide (h = 12%N) then 12 else h + 12)
  else (if decide (h = 12%N) then 0 else h).

(** A string of decimal digits. *)
Definition all_digits (s : string) : Prop := Forall (fun c => is_digit c = true) (String.list_ascii_of_string s).

(** ** Lemmas *)

Lemma all_digits_no_char c s : is_digit c = false -> all_digits s -> ~ has_char c s.
Proof.
  unfold all_digits, has_char. intros Hc Hs Hin.
  rewrite Forall_forall in Hs. specialize (Hs c Hin). congruence.
Qed.

Lemma all_digits_app a b : all_digits a -> all_digits b -> all_digits (a +:+ b).
Proof.
  unfold all_digits. intros Ha Hb. induction a as [|x a IH];
    rewrite ?string_app_nil_l, ?string_app_cons; [done|].
  cbn in *. inversion Ha; subst. constructor; auto.
Qed.

Lemma zpad_all_digits w n : all_digits (zpad w n).
Proof.
  revert n. induction w as [|w IH]; intros n; [constructor|].
  cbn [zpad]. apply all_digits_app; [apply IH|].
  constructor; [apply digit_char_is_digit, N.mod_lt; lia|constructor].
Qed.

(** [int(hh)] and [str(12 + h)] on the hours of a 12-hour clock. *)
Lemma py_int_hour h : (1 <= h <= 12)%N -> py_int (zpad 2 h) = inr (Z.of_N h).
Proof.
  intros Hh. rewrite <- (N2Nat.id h).
  apply (forall_below (fun n => py_int (zpad 2 (N.of_nat n)) = inr (Z.of_N (N.of_nat n))) 13);
    [vm_compute; reflexivity|lia].
Qed.

Lemma py_str_hour h : (1 <= h <= 12)%N -> py_str_Z (12 + Z.of_N h) = zpad 2 (h + 12).
Proof.
  intros Hh. rewrite <- (N2Nat.id h).
  apply (forall_below (fun n => py_str_Z (12 + Z.of_N (N.of_nat n)) = zpad 2 (N.of_nat n + 12)) 13);
    [vm_compute; reflexivity|lia].
Qed.

(** The three fields of a reading, joined by [":"]. *)
Definition clock (a b c : string) : string := a +:+ ":" +:+ b +:+ ":" +:+ c.

Lemma clock_app a b c d : clock a b c +:+ d = clock a b (c +:+ d).
Proof. unfold clock. by rewrite !string_app_assoc. Qed.

Lemma split_clock a b c :
  ~ has_char ":" a -> ~ has_char ":" b -> ~ has_char ":" c -> py_split ":" (clock a b c) = [a; b; c].
Proof.
  intros Ha Hb Hc. unfold clock. rewrite !string_app_cons, !string_app_nil_l.
  rewrite py_split_app_sep, py_split_app_sep, py_split_no_sep by done. done.
Qed.

Lemma join_clock a b c : py_join ":" [a; b; c] = clock a b c.
Proof. unfold clock. cbn [py_join]. by rewrite !string_app_cons, !string_app_nil_l. Qed.

Lemma clock_no_char c a b d :
  is_digit c = false -> c <> ":"%char -> all_digits a -> all_digits b -> all_digits d ->
  ~ has_char c (clock a b d).
Proof.
  intros Hc Hcol Ha Hb Hd. unfold clock.
  assert (Hsep : ~ has_char c ":") by (unfold has_char; cbn; rewrite elem_of_cons; intros [?|Hn]; [done|by apply elem_of_nil in Hn]).
  rewrite !has_char_app. intros [H|[H|[H|[H|H]]]]; [| done | | done |].
  - by apply (all_digits_no_char c a).
  - by apply (all_digits_no_char c b).
  - by apply (all_digits_no_char c d).
Qed.
Lemma no_char_digits_app c x t :
  is_digit c = false -> all_digits x -> ~ has_char c t -> ~ has_char c (x +:+ t).
Proof.
  intros Hc Hx Ht. rewrite has_char_app. intros [H|H]; [|done].
  by apply (all_digits_no_char c x).
Qed.

Lemma timeConversion_run h mm ss (pm : bool) :
  (1 <= h <= 12)%N -> all_digits mm -> all_digits ss ->
  timeConversion (clock (zpad 2 h) mm (ss +:+ if pm then "PM" else "AM")) =
  inr (clock (zpad 2 (if pm then h + 12 else h)) mm (ss +:+ if pm then " " else "")).
Proof.
  intros Hh Hmm Hss. unfold timeConversion.
  pose proof (zpad_all_digits 2 h) as HA.
  rewrite split_clock; cycle 1.
  { by apply all_digits_no_char. }
  { by apply all_digits_no_char. }
  { apply no_char_digits_app; [done|done|]. apply (bool_decide_unpack _). by destruct pm. }
  rewrite <- clock_app, py_in_app_skip by (apply clock_no_char; done).
  assert (Hin : py_in "PM" (if pm then "PM" else "AM") = pm) by (destruct pm; reflexivity).
  rewrite Hin. destruct pm; cbv beta iota.
  - change ([zpad 2 h; mm; ss +:+ "PM"] !! 0) with (Some (zpad 2 h)). cbv beta iota.
    rewrite py_int_hour by done. rewrite sbind_inr.
    change (<[0:=?v]> [_; ?b; ?c]) with [v; b; c].
    rewrite py_str_hour by done. rewrite sbind_inr, join_clock.
    unfold py_replace. rewrite <- clock_app, replace_from_app_skip by (apply clock_no_char; try done; apply zpad_all_digits).
    change (replace_from "PM" " " 0 "PM") with " ".
    rewrite replace_from_app_skip by (apply clock_no_char; try done; apply zpad_all_digits).
    by rewrite clock_app.
  - rewrite sbind_inr, join_clock.
    unfold py_replace. rewrite <- clock_app, replace_from_app_skip by (apply clock_no_char; done).
    change (replace_from "PM" " " 0 "AM") with "AM".
    rewrite replace_from_app_skip by (apply clock_no_char; done).
    by rewrite clock_app.
Qed.

(** ** Properties *)

(** C24: for an hour from 1 to 11 the hour field is converted right: the
    output is the 24-hour reading, with a space where ["PM"] was and
    nothing where ["AM"] was. *)
Theorem timeConversion_ok_hours h mm ss (pm : bool) :
  (1 <= h <= 11)%N -> all_digits mm -> all_digits ss ->
  timeConversion (clock (zpad 2 h) mm (ss +:+ if pm then "PM" else "AM")) =
  inr (clock (zpad 2 (hour24 h pm)) mm (ss +:+ if pm then " " else "")).
Proof.
  intros Hh Hmm Hss. rewrite timeConversion_run by (done || lia).
  unfold hour24. by destruct pm; rewrite decide_False by lia.
Qed.

(** C25: at hour 12 the code is wrong both ways: ["12:mm:ssPM"] becomes
    ["24:mm:ss "] (noon is 12) and ["12:mm:ssAM"] stays ["12:mm:ss"]
    (midnight is 00). *)
Theorem timeConversion_noon_midnight mm ss :
  all_digits mm -> all_digits ss ->
  timeConversion (clock "12" mm (ss +:+ "PM")) = inr (clock "24" mm (ss +:+ " ")) /\
  timeConversion (clock "12" mm (ss +:+ "AM")) = inr (clock "12" mm ss) /\
  zpad 2 (hour24 12 true) = "12" /\ zpad 2 (hour24 12 false) = "00".
Proof.
  intros Hmm Hss. change "12" with (zpad 2 12) at 1 2 3.
  rewrite (timeConversion_run 12 mm ss true), (timeConversion_run 12 mm ss false) by (done || lia).
  by rewrite string_app_nil_r.
Qed.

(** The script prints one line, the result of its own call
    [timeConversion("07:05:45PM")]: ["19:05:45 "], with a trailing space. *)
Example test_output_value : test_output = inr ["19:05:45 "].
Proof.
  unfold test_output, test_result. change test_s with (clock (zpad 2 7) "05" ("45" +:+ if true then "PM" else "AM")).
  by rewrite timeConversion_run by (repeat constructor || lia).
Qed.

(** C26: an input without ["PM"] is returned with its ["AM"]s removed
    and nothing else changed: the split and the join cancel out. *)
Theorem timeConversion_no_pm s :
  py_in "PM" s = false -> timeConversion s = inr (py_replace "AM" "" s).
Proof.
  intros Hin. unfold timeConversion. rewrite Hin, sbind_inr, py_join_split.
  unfold py_replace at 2. by rewrite replace_from_absent.
Qed.

(** C27: [timeConversion] raises only the [ValueError] of [int()] on the
    first field of an input that contains ["PM"]; the [IndexError] of
    [splitted_string[0]] cannot happen, as [split] returns at least one
    field. *)
Theorem timeConversion_errors s e :
  timeConversion s = inl e ->
  py_in "PM" s = true /\ py_int (hd "" (py_split ":" s)) = inl e /\ exists msg, e = ValueError msg.
Proof.
  unfold timeConversion. destruct (py_in "PM" s) eqn:Hin; [|by rewrite sbind_inr].
  destruct (py_split ":" s) as [|h rest] eqn:Hs; [by destruct (py_split_nonempty ":" s)|].
  change ((h :: rest) !! 0) with (Some h). cbv iota beta. cbn [hd].
  destruct (py_int h) as [e'|v] eqn:Hi; cbn [sbind]; [intros [= <-]|done].
  split; [done|]. split; [done|]. by eapply py_int_error.
Qed.

Lemma timeConversion_ok_hours_witness :
  timeConversion "07:05:45PM" = inr "19:05:45 ".
Proof.
  apply (timeConversion_ok_hours 7 "05" "45" true); [lia|repeat constructor..].
Defined.

Lemma timeConversion_noon_midnight_witness :
  timeConversion "12:00:00PM" = inr "24:00:00 " /\ timeConversion "12:00:00AM" = inr "12:00:00" /\
  zpad 2 (hour24 12 true) = "12" /\ zpad 2 (hour24 12 false) = "00".
Proof. apply (timeConversion_noon_midnight "00" "00"); repeat constructor. Defined.

Lemma timeConversion_no_pm_witness : timeConversion "07:05:45AM" = inr "07:05:45".
Proof. apply (timeConversion_no_pm "07:05:45AM"). reflexivity. Defined.

Lemma timeConversion_errors_witness :
  py_in "PM" "xx:00:00PM" = true /\
  py_int (hd "" (py_split ":" "xx:00:00PM")) = inl (ValueError "invalid literal for int() with base 10: 'xx'") /\
  exists msg, ValueError "invalid literal for int() with base 10: 'xx'" = ValueError msg.
Proof.
  apply (timeConversion_errors "xx:00:00PM" (ValueError "invalid literal for int() with base 10: 'xx'")).
  vm_compute. reflexivity.
Defined.
